(** * MandiPlus insurance bot backend: request lifecycle, premium and invoice

    A shallow embedding of the request handlers of the backend
    ([insuranceController.js], [adminController.js]), of the validation
    chains of the routes ([validation.js]), of the notifier
    ([chatraceService.js]), of the invoice renderer
    ([invoicePdfService.js]) and of the premium script
    ([recalculate-premiums.js]), followed by the properties of the request
    lifecycle that the design document states and by what the code shows
    of the lists, of sequences of calls, of the script and of the files.

    Modelling conventions.
    - A JavaScript number is an IEEE 754 binary64 value: Rocq's primitive
      [float], whose operations are specified by [SpecFloat].
    - A JavaScript string is a [string], the sequence of bytes of its
      UTF-8 encoding; case folding acts on the ASCII letters, trimming on
      the white space of ECMAScript.
    - The request store is a table, a list of rows with typed columns and
      the two unique keys the handlers query ([id] and [userId]); a store
      call fails only on a unique key, a missing row or an ill-typed value.
      Handlers run one after the other.
    - The file system is a finite map from paths to files, on which the
      synchronous calls ([existsSync], [mkdirSync], [unlinkSync]) act as
      functions, [unlinkSync] throwing when the environment says so; a
      stream is finished or failed by an event.
    - Everything a handler obtains from outside (the clock, generated
      identifiers, the HTTP download, the image decoder, the events of the
      streams, the messaging service) is read from an [Env] record, so that
      a handler is a function of the environment and the world. *)

From Stdlib Require Import ZArith Floats Lia Bool Ascii String List.
From Stdlib Require Import Sorted Permutation.
From stdpp Require Import base option list gmap strings.
Import ListNotations.

Set Warnings "-inexact-float".

(** ** JavaScript numbers *)

Module Num.

Local Open Scope float_scope.

(** [Number.isNaN]. *)
Definition isNaN (x : float) : bool := negb (x =? x).

(** [Math.min] on two arguments: NaN if either is NaN, otherwise the
    smaller one, the negative zero counting as smaller than the positive. *)
Definition Math_min (a b : float) : float :=
  if isNaN a || isNaN b then nan
  else if a <? b then a
  else if b <? a then b
  else if get_sign a then a else b.

(** Non-negative in the sense of the comparison [0 <= x]; NaN is excluded. *)
Definition nonneg (x : float) : bool := 0 <=? x.

(** A finite number that is at least one: what a parsed quantity is. *)
Definition finite_ge_one (x : float) : bool := (1 <=? x) && (x <? infinity).

End Num.

(** ** Binary64 values as [SpecFloat] describes them *)

(** The shape of a specification float that compares [>= 0]. *)
Definition sf_nonneg (x : spec_float) : Prop :=
  match x with
  | S754_zero _ => True
  | S754_infinity s => s = false
  | S754_nan => False
  | S754_finite s _ _ => s = false
  end.

(** The undefined product: an infinity times a zero. *)
Definition sf_inf_times_zero (x y : spec_float) : Prop :=
  match x, y with
  | S754_infinity _, S754_zero _ | S754_zero _, S754_infinity _ => True
  | _, _ => False
  end.

(** ** Premium computation *)

Module Premium.

Local Open Scope float_scope.

(** [const MAX_PREMIUM = 99999999.99] (the ceiling of a Decimal(10,2)). *)
Definition MAX_PREMIUM : float := 99999999.99.

(** [if (p > MAX_PREMIUM) p = MAX_PREMIUM]. *)
Definition cap (p : float) : float :=
  if MAX_PREMIUM <? p then MAX_PREMIUM else p.

(** Creation: [totalValue = qty * rateNum; basePremiumAmount = totalValue * 0.002],
    then the cap. *)
Definition basePremiumAmount (qty rateNum : float) : float :=
  let totalValue := qty * rateNum in
  cap (totalValue * 0.002).

(** The formula as the design document words it:
    [min(quantity * rate * 0.002, 99999999.99)]. *)
Definition premium_formula (quantity rate : float) : float :=
  Num.Math_min (quantity * rate * 0.002) 99999999.99.

End Premium.

(** ** JavaScript values and strings *)

Module Js.

(** The values a JSON body field can hold, and [undefined] for an absent one. *)
Inductive value :=
| Undefined
| Null
| Bool (b : bool)
| Number (n : float)
| Str (s : string).

(** Truthiness, as [if (v)], [!v] and [v || d] test it. *)
Definition truthy (v : value) : bool :=
  match v with
  | Undefined | Null => false
  | Bool b => b
  | Number n => negb (PrimFloat.eqb n 0 || Num.isNaN n)
  | Str s => negb (String.eqb s EmptyString)
  end.

(** [new Date(t)] is a valid date: [t] is a number of at most 8.64e15 in
    absolute value (the time clip of ECMAScript). *)
Definition valid_time (t : float) : bool :=
  (abs t <=? 8640000000000000)%float.

Definition is_digit (c : ascii) : bool :=
  (48 <=? nat_of_ascii c)%nat && (nat_of_ascii c <=? 57)%nat.

(** [s.replace(/[^0-9]/g, '')]. *)
Fixpoint digits_only (s : string) : string :=
  match s with
  | EmptyString => EmptyString
  | String c r => if is_digit c then String c (digits_only r) else digits_only r
  end.

Definition lower_char (c : ascii) : ascii :=
  let n := nat_of_ascii c in
  if (65 <=? n)%nat && (n <=? 90)%nat then ascii_of_nat (n + 32) else c.

(** [s.toLowerCase()]: the letters A to Z are folded. The bytes of a code
    point outside ASCII stay as they are; the lower case of such a code
    point is outside ASCII as well, but for the Kelvin sign (k) and the
    capital I with a dot (i and a combining dot), so that the comparisons
    of the handlers, with words that have neither letter, come out as in
    JavaScript. *)
Fixpoint toLowerCase (s : string) : string :=
  match s with
  | EmptyString => EmptyString
  | String c r => String (lower_char c) (toLowerCase r)
  end.

(** White space as [trim] strips it: the WhiteSpace and LineTerminator
    code points of ECMAScript, read in the UTF-8 encoding of the string.
    In one byte: TAB, LF, VT, FF, CR and the space. *)
Definition is_space (c : ascii) : bool :=
  let n := nat_of_ascii c in
  ((9 <=? n)%nat && (n <=? 13)%nat) || (n =? 32)%nat.

(** In two bytes: U+00A0 (C2 A0). *)
Definition is_space2 (c c1 : ascii) : bool :=
  (nat_of_ascii c =? 194)%nat && (nat_of_ascii c1 =? 160)%nat.

(** In three bytes: U+1680 (E1 9A 80), U+2000 to U+200A (E2 80 80 to
    E2 80 8A), U+2028 and U+2029 (E2 80 A8, E2 80 A9), U+202F (E2 80 AF),
    U+205F (E2 81 9F), U+3000 (E3 80 80) and U+FEFF (EF BB BF). *)
Definition is_space3 (c c1 c2 : ascii) : bool :=
  let n := nat_of_ascii c in
  let n1 := nat_of_ascii c1 in
  let n2 := nat_of_ascii c2 in
  ((n =? 225)%nat && ((n1 =? 154)%nat && (n2 =? 128)%nat))
  || ((n =? 226)%nat
      && (((n1 =? 128)%nat
           && (((128 <=? n2)%nat && (n2 <=? 138)%nat)
               || (n2 =? 168)%nat || (n2 =? 169)%nat || (n2 =? 175)%nat))
          || ((n1 =? 129)%nat && (n2 =? 159)%nat)))
  || ((n =? 227)%nat && ((n1 =? 128)%nat && (n2 =? 128)%nat))
  || ((n =? 239)%nat && ((n1 =? 187)%nat && (n2 =? 191)%nat)).

(** [s.trimStart()]: the white-space code points in front are dropped. *)
Fixpoint trimStart (s : string) : string :=
  match s with
  | EmptyString => EmptyString
  | String c r =>
      if is_space c then trimStart r
      else match r with
           | EmptyString => s
           | String c1 r1 =>
               if is_space2 c c1 then trimStart r1
               else match r1 with
                    | EmptyString => s
                    | String c2 r2 => if is_space3 c c1 c2 then trimStart r2 else s
                    end
           end
  end.

(** A string made of white-space code points only. *)
Fixpoint all_space (s : string) : bool :=
  match s with
  | EmptyString => true
  | String c r =>
      if is_space c then all_space r
      else match r with
           | EmptyString => false
           | String c1 r1 =>
               if is_space2 c c1 then all_space r1
               else match r1 with
                    | EmptyString => false
                    | String c2 r2 => is_space3 c c1 c2 && all_space r2
                    end
           end
  end.

(** [s.trimEnd()]: what is left once the longest end of the string that is
    made of white space is dropped. *)
Fixpoint trimEnd (s : string) : string :=
  match s with
  | EmptyString => EmptyString
  | String c r => if all_space s then EmptyString else String c (trimEnd r)
  end.

(** [s.trim()]. *)
Definition trim (s : string) : string := trimEnd (trimStart s).

(** White space, code point by code point. *)
Inductive spaces : string -> Prop :=
| spaces_nil : spaces EmptyString
| spaces_1 c r : is_space c = true -> spaces r -> spaces (String c r)
| spaces_2 c c1 r :
    is_space c = false -> is_space2 c c1 = true -> spaces r ->
    spaces (String c (String c1 r))
| spaces_3 c c1 c2 r :
    is_space c = false -> is_space2 c c1 = false ->
    is_space3 c c1 c2 = true -> spaces r ->
    spaces (String c (String c1 (String c2 r))).

(** A byte that starts no white-space code point. *)
Definition plain (c : ascii) : bool :=
  negb (is_space c)
  && negb (existsb (Nat.eqb (nat_of_ascii c)) [194; 225; 226; 227; 239]).

(** Every byte of the string starts no white-space code point. *)
Fixpoint all_plain (s : string) : bool :=
  match s with
  | EmptyString => true
  | String c r => plain c && all_plain r
  end.

End Js.

(** ** Library functions the handlers call

    Functions of the JavaScript runtime and of Node whose results the
    handlers only pass on: they are the fields of a class, and every
    definition and theorem below holds for any instance. *)
Class Platform := {
  (** [String(n)] for a number [n]. *)
  Number_toString : float -> string;
  (** [parseInt(v)]; NaN when [v] does not start with an integer. *)
  parseInt : Js.value -> float;
  (** [parseFloat(v)]. *)
  parseFloat : Js.value -> float;
  (** [new Date(v)] in milliseconds, [None] for an invalid date. *)
  Date_parse : Js.value -> option float;
  (** [n.toFixed(2)]. *)
  toFixed2 : float -> string;
  (** [n.toLocaleString('en-IN')]. *)
  toLocaleString : float -> string;
  (** [n.toLocaleString('en-IN', {minimumFractionDigits: 2, maximumFractionDigits: 2})]. *)
  toLocaleString2 : float -> string;
  (** Day, month and year of a time stamp, as [formatDate] reads them. *)
  date_fields : float -> string * string * string;
  (** [path.join(a, b)]; it never returns the empty string. *)
  path_join : string -> string -> string;
  path_join_nonempty : forall a b, path_join a b <> EmptyString;
  (** [process.env.APP_URL || `http://localhost:${port}`]. *)
  APP_URL : string;
  (** [process.env.INVOICE_COMPANY_NAME || 'ENP FARMS PVT LTD'] and the like. *)
  COMPANY_NAME : string;
  COMPANY_ADDRESS : string;
  CLAIM_EMAIL : string;
  CLAIM_PHONE : string;
}.

(** ** The request store *)

Module Store.

(** The values of the [status] column, as the admin routes list them. *)
Inductive Status :=
| PENDING_VERIFICATION
| APPROVED
| REJECTED
| PAYMENT_PENDING
| PAID
| POLICY_ISSUED.

#[global] Instance Status_eq_dec : EqDecision Status.
Proof. solve_decision. Defined.

Definition status_name (s : Status) : string :=
  match s with
  | PENDING_VERIFICATION => "PENDING_VERIFICATION"
  | APPROVED => "APPROVED"
  | REJECTED => "REJECTED"
  | PAYMENT_PENDING => "PAYMENT_PENDING"
  | PAID => "PAID"
  | POLICY_ISSUED => "POLICY_ISSUED"
  end.

(** A row of the [insuranceRequest] table. Numeric columns hold the number
    they denote; a nullable column is an [option]. *)
Record Row := {
  id : string;
  userId : string;
  timestamp : float;
  supplierName : option string;
  supplierPlace : option string;
  partyName : option string;
  partyAddress : option string;
  itemName : string;
  quantity : float;
  rate : option float;
  vehicleNo : string;
  transporterName : option string;
  cashCommission : option string;
  invoiceType : option string;
  kantaParchiImage : option string;
  consent : bool;
  status : Status;
  premiumAmount : option float;
  invoiceNumber : option string;
  paymentLink : option string;
  paymentStatus : option string;
  rejectionReason : option string;
  adminAction : option string;
  adminTimestamp : option float;
  invoicePdfUrl : option string;
  policyNumber : option string;
  policyPdfUrl : option string;
  createdAt : float;
}.

(** What a store call throws. *)
Inductive PrismaError :=
| P2002   (* unique constraint failed *)
| P2025   (* record to update not found *)
| PrismaValidation.   (* a value does not fit its column *)

Definition table := list Row.

(** [findUnique({ where: { id } })]. *)
Definition findUnique_id (t : table) (i : string) : option Row :=
  List.find (fun r => String.eqb (id r) i) t.

(** [findUnique({ where: { userId } })]. *)
Definition findUnique_userId (t : table) (u : string) : option Row :=
  List.find (fun r => String.eqb (userId r) u) t.

(** [create({ data })]: both keys are unique. *)
Definition create (t : table) (r : Row) : PrismaError + table :=
  match findUnique_userId t (userId r), findUnique_id t (id r) with
  | None, None => inr (t ++ [r])
  | _, _ => inl P2002
  end.

(** [update({ where: { id }, data })], [f] writing the columns of [data];
    the updated row is returned with the table. *)
Definition update (t : table) (i : string) (f : Row -> Row) : PrismaError + (table * Row) :=
  match findUnique_id t i with
  | None => inl P2025
  | Some r =>
      inr (List.map (fun x => if String.eqb (id x) i then f x else x) t, f r)
  end.

(** Number of rows of a submitter. *)
Definition count_userId (t : table) (u : string) : nat :=
  length (List.filter (fun r => String.eqb (userId r) u) t).

(** [data: { status: 'APPROVED', adminAction: 'APPROVED', adminTimestamp,
    invoiceNumber, premiumAmount, paymentLink, paymentStatus: 'PENDING' }]. *)
Definition set_approved (at_ : float) (inv : string) (premium : float) (link : string)
    (r : Row) : Row :=
  {| id := id r; userId := userId r; timestamp := timestamp r;
     supplierName := supplierName r; supplierPlace := supplierPlace r;
     partyName := partyName r; partyAddress := partyAddress r;
     itemName := itemName r; quantity := quantity r; rate := rate r;
     vehicleNo := vehicleNo r; transporterName := transporterName r;
     cashCommission := cashCommission r; invoiceType := invoiceType r;
     kantaParchiImage := kantaParchiImage r; consent := consent r;
     status := APPROVED;
     premiumAmount := Some premium;
     invoiceNumber := Some inv;
     paymentLink := Some link;
     paymentStatus := Some "PENDING";
     rejectionReason := rejectionReason r;
     adminAction := Some "APPROVED";
     adminTimestamp := Some at_;
     invoicePdfUrl := invoicePdfUrl r;
     policyNumber := policyNumber r; policyPdfUrl := policyPdfUrl r;
     createdAt := createdAt r |}.

(** [data: { invoicePdfUrl }]. *)
Definition set_invoicePdfUrl (url : string) (r : Row) : Row :=
  {| id := id r; userId := userId r; timestamp := timestamp r;
     supplierName := supplierName r; supplierPlace := supplierPlace r;
     partyName := partyName r; partyAddress := partyAddress r;
     itemName := itemName r; quantity := quantity r; rate := rate r;
     vehicleNo := vehicleNo r; transporterName := transporterName r;
     cashCommission := cashCommission r; invoiceType := invoiceType r;
     kantaParchiImage := kantaParchiImage r; consent := consent r;
     status := status r;
     premiumAmount := premiumAmount r;
     invoiceNumber := invoiceNumber r;
     paymentLink := paymentLink r;
     paymentStatus := paymentStatus r;
     rejectionReason := rejectionReason r;
     adminAction := adminAction r;
     adminTimestamp := adminTimestamp r;
     invoicePdfUrl := Some url;
     policyNumber := policyNumber r; policyPdfUrl := policyPdfUrl r;
     createdAt := createdAt r |}.

(** [data: { status: 'REJECTED', adminAction: 'REJECTED', adminTimestamp,
    rejectionReason }]. *)
Definition set_rejected (at_ : float) (reason : string) (r : Row) : Row :=
  {| id := id r; userId := userId r; timestamp := timestamp r;
     supplierName := supplierName r; supplierPlace := supplierPlace r;
     partyName := partyName r; partyAddress := partyAddress r;
     itemName := itemName r; quantity := quantity r; rate := rate r;
     vehicleNo := vehicleNo r; transporterName := transporterName r;
     cashCommission := cashCommission r; invoiceType := invoiceType r;
     kantaParchiImage := kantaParchiImage r; consent := consent r;
     status := REJECTED;
     premiumAmount := premiumAmount r;
     invoiceNumber := invoiceNumber r;
     paymentLink := paymentLink r;
     paymentStatus := paymentStatus r;
     rejectionReason := Some reason;
     adminAction := Some "REJECTED";
     adminTimestamp := Some at_;
     invoicePdfUrl := invoicePdfUrl r;
     policyNumber := policyNumber r; policyPdfUrl := policyPdfUrl r;
     createdAt := createdAt r |}.

End Store.

(** ** The world and the environment of a handler call *)

(** A drawing call that left a mark on the document. *)
Inductive op :=
| Text (s : string)
| Image (path : string).

(** A file: a directory, the bytes of a downloaded image, or a rendered
    document with the calls that drew it. *)
Inductive file :=
| Directory
| ImageBytes
| PdfFile (content : list op).

(** The write stream of the temporary image: it finishes, or it emits
    ['error'], leaving a partial file behind or not. *)
Inductive writer_outcome :=
| WriterFinish
| WriterError (file_left : bool).

(** The HTTP request of the download: [axios] throws (no route, an error
    status, the 10 s timeout), or answers with a body that is piped to the
    write stream. *)
Inductive http_outcome :=
| HttpFail
| HttpOk (w : writer_outcome).

(** The event that settles the render once the document is ended. *)
Inductive stream_event :=
| StreamFinish
| StreamError
| DocError.

Record Env := {
  (** [Date.now()], [new Date()]. *)
  now : float;
  (** The identifier the store generates for a new row. *)
  uuid : string;
  (** [Math.random().toString(36).substring(7)]. *)
  random : string;
  http : http_outcome;
  (** Whether [doc.image] can embed the file at a path; it throws otherwise. *)
  image_ok : string -> bool;
  (** The index of the [doc.text] call that throws, if one does. *)
  pdf_fault : option nat;
  pdf_event : stream_event;
  (** Whether the messaging service accepts the message. *)
  notify_ok : bool;
  (** Whether [fs.unlinkSync] removes the file; it throws otherwise. *)
  unlink_ok : bool;
}.

Record World := {
  db : Store.table;
  fs : gmap string file;
  (** The messages the messaging service accepted: recipient and text. *)
  outbox : list (string * string);
}.

(** ** Notifier ([chatraceService.js]) *)

Module Chatrace.

Inductive SendError := RequestFailed.

(** [sendChatraceMessage(phoneNumber, message)]: the failure of the POST is
    logged and thrown again. *)
Definition sendChatraceMessage (E : Env) (sent : list (string * string))
    (phoneNumber message : string) : SendError + list (string * string) :=
  if notify_ok E then inr (sent ++ [(phoneNumber, message)]) else inl RequestFailed.

End Chatrace.

(** ** Invoice renderer ([invoicePdfService.js]) *)

Module Invoice.

(** The result of a promise. *)
Inductive settled (A : Type) :=
| Resolved (a : A)
| Rejected.
Arguments Resolved {A} a.
Arguments Rejected {A}.

Section WithPlatform.
Context `{Pf : Platform}.

Definition INVOICES_DIR : string := "invoices".
Definition TEMP_DIR : string := "temp".
Definition UPLOADS_DIR : string := "uploads".
Definition KANTAPARCHI_DIR : string := "uploads/kantaparchi".
Definition DEFAULT_HSN : string := "08011910".
Definition PLACEHOLDER : string := "CUSTOMER WILL UPDATE TOMORROW".

Definition existsSync (f : gmap string file) (p : string) : bool :=
  bool_decide (is_Some (f !! p)).

(** [if (!fs.existsSync(dir)) fs.mkdirSync(dir, { recursive: true })]. *)
Definition ensureDir (dir : string) (f : gmap string file) : gmap string file :=
  if existsSync f dir then f else <[dir := Directory]> f.

Definition ensureInvoicesDir := ensureDir INVOICES_DIR.

Definition formatDate (d : float) : string :=
  let '(day, month, year) := date_fields d in
  day +:+ "/" +:+ month +:+ "/" +:+ year.

Definition formatCurrency (amount : float) : string :=
  "Rs. " +:+ toLocaleString2 amount.

(** [downloadImageFromUrl(imageUrl)]: [Resolved None] is the [null] result.
    The promise of the write stream is returned without being awaited, so
    its rejection is the rejection of the call. *)
Definition downloadImageFromUrl (E : Env) (f : gmap string file) (imageUrl : string)
    : settled (option string) * gmap string file :=
  if String.eqb imageUrl EmptyString || negb (String.prefix "http" imageUrl)
  then (Resolved None, f)
  else
    let f1 := ensureDir TEMP_DIR f in
    let fileName := "kanta_" +:+ Number_toString (now E) +:+ "_" +:+ random E +:+ ".jpg" in
    let filePath := path_join TEMP_DIR fileName in
    match http E with
    | HttpFail => (Resolved None, f1)
    | HttpOk WriterFinish => (Resolved (Some filePath), <[filePath := ImageBytes]> f1)
    | HttpOk (WriterError partial) =>
        (Rejected, if partial then <[filePath := ImageBytes]> f1 else f1)
    end.

(** [cleanupTempImage(filePath)]: a file that exists is unlinked; an
    [unlinkSync] that throws is caught and logged, and the file stays. *)
Definition cleanupTempImage (E : Env) (filePath : string) (f : gmap string file)
    : gmap string file :=
  if negb (String.eqb filePath EmptyString) && existsSync f filePath
  then (if unlink_ok E then delete filePath f else f)
  else f.

(** [if (downloadedImagePath) cleanupTempImage(downloadedImagePath)]. *)
Definition cleanup (E : Env) (downloadedImagePath : option string)
    (f : gmap string file) : gmap string file :=
  match downloadedImagePath with
  | Some p => if String.eqb p EmptyString then f else cleanupTempImage E p f
  | None => f
  end.

(** *** Drawing: the calls on the document, any of which may throw *)

Record doc := { ops : list op; calls : nat }.

(** A drawing computation: the document it leaves, and its result unless a
    call threw. *)
Definition Pdf (A : Type) : Type := doc -> doc * option A.

Definition ret {A} (a : A) : Pdf A := fun d => (d, Some a).

Definition bind {A B} (m : Pdf A) (k : A -> Pdf B) : Pdf B :=
  fun d => match m d with
           | (d', Some a) => k a d'
           | (d', None) => (d', None)
           end.

Local Notation "x <- m ;; k" := (bind m (fun x => k))
  (at level 100, m at next level, right associativity).
Local Notation "m ;; k" := (bind m (fun _ => k))
  (at level 100, right associativity).

(** [doc.text(s, ...)]. *)
Definition text (E : Env) (s : string) : Pdf unit :=
  fun d =>
    if bool_decide (pdf_fault E = Some (calls d)) then (d, None)
    else ({| ops := ops d ++ [Text s]; calls := S (calls d) |}, Some tt).

Fixpoint texts (E : Env) (l : list string) : Pdf unit :=
  match l with
  | [] => ret tt
  | s :: r => text E s ;; texts E r
  end.

(** [try { doc.image(path, ...); imageAdded = true } catch (err) { warn }]:
    the result is the new value of [imageAdded]. *)
Definition try_image (E : Env) (path : string) : Pdf bool :=
  fun d =>
    if image_ok E path
    then ({| ops := ops d ++ [Image path]; calls := calls d |}, Some true)
    else (d, Some false).

(** [for (const imagePath of possibleImagePaths) { if (fs.existsSync(imagePath)) ... break }]. *)
Fixpoint try_local (E : Env) (f : gmap string file) (paths : list string) : Pdf bool :=
  match paths with
  | [] => ret false
  | imagePath :: rest =>
      if existsSync f imagePath
      then (added <- try_image E imagePath ;;
            if added : bool then ret true else try_local E f rest)
      else try_local E f rest
  end.

Definition or_dash (o : option string) : string :=
  match o with
  | Some s => if String.eqb s EmptyString then "-" else s
  | None => "-"
  end.

Definition possibleImagePaths (request : Store.Row) : list string :=
  [ path_join UPLOADS_DIR (default EmptyString (Store.kantaParchiImage request));
    path_join KANTAPARCHI_DIR (Store.id request +:+ ".jpg");
    path_join KANTAPARCHI_DIR (Store.id request +:+ ".png");
    path_join KANTAPARCHI_DIR (Store.userId request +:+ ".jpg");
    path_join KANTAPARCHI_DIR (Store.userId request +:+ ".png") ].

(** The weightment-slip box: the downloaded image, else the first local
    image that embeds, else the placeholder text. *)
Definition weightmentSlip (E : Env) (f : gmap string file) (request : Store.Row)
    (downloadedImagePath : option string) : Pdf unit :=
  text E "Weightment Slip" ;;
  imageAdded <- match downloadedImagePath with
                | Some p =>
                    if negb (String.eqb p EmptyString) && existsSync f p
                    then try_image E p else ret false
                | None => ret false
                end ;;
  imageAdded <- (if imageAdded : bool then ret true
                 else try_local E f (possibleImagePaths request)) ;;
  if imageAdded : bool then ret tt else text E PLACEHOLDER.

Definition claimLines : list string :=
  [ "• Vehicle accident, collision, or overturning during transit.";
    "• Theft, hijacking, or unlawful removal of cargo.";
    "• Shortage: Claims only when difference exceeds 2 Tons.";
    "• Loss due to strikes, riots, or civil commotion.";
    "• Damage from weather or natural calamities.";
    "• Fire, explosion, or related perils.";
    "• Loss due to driver fraud or negligence." ].

Definition docLines : list string :=
  [ "• Photos/videos of damaged goods or incident.";
    "• FIR copy and original Invoice.";
    "• Damage Certificate and Letter of Subrogation.";
    "• Insurance Certificate and Proof of Delivery (POD)." ].

(** The text of the document above the weightment slip, in the order of
    the [doc.text] calls: header, invoice and supplier boxes, addresses,
    the table with its single row, notes and totals. *)
Definition headLines (E : Env) (request : Store.Row) (invoiceNumber : string)
    (premiumAmount : float) : list string :=
  let quantity := Store.quantity request in
  let rate := default 0%float (Store.rate request) in
  let totalAmount := (quantity * rate)%float in
  let supplierName := or_dash (Store.supplierName request) in
  let supplierPlace := or_dash (Store.supplierPlace request) in
  let partyName := or_dash (Store.partyName request) in
  let partyAddress := or_dash (Store.partyAddress request) in
  let vehicleNo := or_dash (Some (Store.vehicleNo request)) in
  let transporterName := or_dash (Store.transporterName request) in
  let itemName := or_dash (Some (Store.itemName request)) in
  [ "Mandi"; "Plus"; COMPANY_NAME; COMPANY_ADDRESS; "INVOICE";
    "Invoice Number"; " : " +:+ invoiceNumber;
    "Invoice Date"; " : " +:+ formatDate (now E);
    "Terms"; " : CUSTOM";
    "Supplier Name"; " : " +:+ supplierName;
    "Place of Supply"; " : " +:+ supplierPlace;
    "Bill To"; partyName; partyAddress;
    "Ship To"; partyName; partyAddress;
    "#"; "Item & Description"; "HSN/SAC"; "Qty"; "Rate"; "Amount";
    "1"; itemName; DEFAULT_HSN; toLocaleString quantity;
    formatCurrency rate; formatCurrency totalAmount;
    "Notes"; "Vehicle No : " +:+ vehicleNo;
    "Transporter Name : " +:+ transporterName;
    "This vehicle is transporting " +:+ itemName +:+ " from Supplier: "
      +:+ supplierName +:+ " to Buyer: " +:+ partyName +:+ ".";
    "In case of any accident, loss, or damage during transit, " +:+ partyName
      +:+ " shall be treated as the insured person and will be entitled to receive all claim amounts for the damaged goods.";
    "Total"; formatCurrency totalAmount;
    "Insurance Amount (0.2%)"; formatCurrency premiumAmount ].

(** The text of the terms box, to the right of the weightment slip. *)
Definition termLines : list string :=
  [ "Insurance Terms and Conditions"; "1. Scope of Claim Eligibility:" ]
  ++ claimLines ++ [ "2. Mandatory Documentation:" ] ++ docLines
  ++ [ "3. Dispute Resolution & Communication:";
       "All claims must be communicated via:";
       "Email: " +:+ CLAIM_EMAIL; "Phone: " +:+ CLAIM_PHONE ].

(** The body of the [try] block of the render, in the order of its
    [doc.text] and [doc.image] calls. *)
Definition draw (E : Env) (f : gmap string file) (request : Store.Row)
    (invoiceNumber : string) (premiumAmount : float)
    (downloadedImagePath : option string) : Pdf unit :=
  texts E (headLines E request invoiceNumber premiumAmount) ;;
  weightmentSlip E f request downloadedImagePath ;;
  texts E termLines.

(** What the stream event does once the document is ended: on ['finish']
    the file holds what was drawn; every handler cleans the temporary image. *)
Definition on_event (E : Env) (filepath : string) (d : doc)
    (downloadedImagePath : option string) (f : gmap string file) : gmap string file :=
  match pdf_event E with
  | StreamFinish => cleanup E downloadedImagePath (<[filepath := PdfFile (ops d)]> f)
  | StreamError | DocError => cleanup E downloadedImagePath f
  end.

(** [generateInvoicePdf(request, invoiceNumber, premiumAmount)]: the promise
    resolves with the file name on ['finish'] and rejects on a stream or
    document error, on an exception of the drawing code, and when the
    download rejects. *)
Definition generateInvoicePdf (E : Env) (f : gmap string file) (request : Store.Row)
    (invoiceNumber : string) (premiumAmount : float) : settled string * gmap string file :=
  let f0 := ensureInvoicesDir f in
  let filename := invoiceNumber +:+ ".pdf" in
  let filepath := path_join INVOICES_DIR filename in
  let '(downloaded, f1) :=
    match Store.kantaParchiImage request with
    | Some url =>
        if String.eqb url EmptyString then (Resolved None, f0)
        else downloadImageFromUrl E f0 url
    | None => (Resolved None, f0)
    end in
  match downloaded with
  | Rejected => (Rejected, f1)
  | Resolved downloadedImagePath =>
      match draw E f1 request invoiceNumber premiumAmount downloadedImagePath
              {| ops := []; calls := 0 |} with
      | (d, Some _) =>
          (* doc.end(), then the event *)
          (match pdf_event E with
           | StreamFinish => Resolved filename
           | StreamError | DocError => Rejected
           end,
           on_event E filepath d downloadedImagePath f1)
      | (d, None) =>
          (* catch: doc.end(); cleanup; reject(err); the event follows *)
          (Rejected,
           on_event E filepath d downloadedImagePath (cleanup E downloadedImagePath f1))
      end
  end.

End WithPlatform.

End Invoice.

(** ** HTTP requests and responses *)

Module Http.

(** The body of [POST /api/insurance/request]. *)
Record CreateBody := {
  b_userId : Js.value;
  b_timestamp : Js.value;
  b_supplierName : Js.value;
  b_supplierPlace : Js.value;
  b_partyName : Js.value;
  b_partyAddress : Js.value;
  b_itemName : Js.value;
  b_quantity : Js.value;
  b_rate : Js.value;
  b_vehicleNo : Js.value;
  b_transporterName : Js.value;
  b_cashCommission : Js.value;
  b_invoiceType : Js.value;
  b_kantaParchiImage : Js.value;
  b_consent : Js.value;
}.

(** A request as a controller receives it: the body, and the errors the
    validation chains of the route recorded on it ([validationResult(req)]). *)
Record CreateRequest := {
  create_errors : list string;
  create_body : CreateBody;
}.

(** The projection [GET /api/insurance/status/:userId] selects. *)
Record StatusView := {
  v_id : string;
  v_userId : string;
  v_vehicleNo : string;
  v_itemName : string;
  v_quantity : float;
  v_rate : option float;
  v_supplierName : option string;
  v_partyName : option string;
  v_status : Store.Status;
  v_invoiceNumber : option string;
  v_premiumAmount : option float;
  v_paymentStatus : option string;
  v_paymentLink : option string;
  v_policyNumber : option string;
  v_policyPdfUrl : option string;
  v_createdAt : float;
  v_adminTimestamp : option float;
  v_rejectionReason : option string;
}.

(** The fields of a JSON response besides [success] and [message]. *)
Inductive Payload :=
| NoData
| Errors (errors : list string)
| ReceivedData (body : CreateBody)
| ReceivedUserId (userId : Js.value)
| Existing (requestId : string) (status : Store.Status)
| Created (requestId userId vehicleNo itemName : string) (quantity : float)
    (status : Store.Status) (createdAt : float)
| SearchedUserId (userId : string)
| Status (view : StatusView)
| Approval (requestId : string) (invoiceNumber : option string)
    (premiumAmount : option float) (paymentLink invoicePdfUrl : option string)
    (status : Store.Status)
| Rejection (requestId : string) (status : Store.Status)
    (rejectionReason : option string).

(** [res.status(code).json({ success, message, ... })]; the diagnostic
    [error] field of a 500 response is left out. *)
Record Response := {
  code : Z;
  success : bool;
  message : option string;
  data : Payload;
}.

Definition fail (c : Z) (m : string) : Response :=
  {| code := c; success := false; message := Some m; data := NoData |}.

End Http.

(** ** Validation chains ([validation.js]) *)

Module Validation.

Section WithPlatform.
Context `{Pf : Platform}.

(** How a standard validator of express-validator reads a field. *)
Definition field_string (v : Js.value) : string :=
  match v with
  | Js.Undefined | Js.Null => EmptyString
  | Js.Bool true => "true"
  | Js.Bool false => "false"
  | Js.Number n => if Num.isNaN n then EmptyString else Number_toString n
  | Js.Str s => s
  end.

Definition isString (v : Js.value) : bool :=
  match v with Js.Str _ => true | _ => false end.

(** [validateRejection]: the chain on [rejectionReason]; each validator that
    fails records its message. *)
Definition validateRejection (rejectionReason : Js.value) : list string :=
  let s := field_string rejectionReason in
  (if String.eqb s EmptyString then ["Rejection reason is required"] else [])
  ++ (if isString rejectionReason then [] else ["Rejection reason must be a string"])
  ++ (if (String.length s <? 10)%nat
      then ["Rejection reason must be at least 10 characters"] else [])
  ++ (if (500 <? String.length s)%nat
      then ["Rejection reason must not exceed 500 characters"] else []).

End WithPlatform.

End Validation.

(** ** Controllers ([insuranceController.js], [adminController.js]) *)

Module Controller.

Import Store Http.

Section WithPlatform.
Context `{Pf : Platform}.

(** [String(value)]. *)
Definition String_ (v : Js.value) : string :=
  match v with
  | Js.Undefined => "undefined"
  | Js.Null => "null"
  | Js.Bool true => "true"
  | Js.Bool false => "false"
  | Js.Number n => Number_toString n
  | Js.Str s => s
  end.

Definition normalizeBoolean (value : Js.value) : bool :=
  match value with
  | Js.Bool b => b
  | _ =>
      let normalized := Js.trim (Js.toLowerCase (String_ value)) in
      String.eqb normalized "true" || String.eqb normalized "yes"
      || String.eqb normalized "1"
  end.

Definition normalizeTimestamp (E : Env) (value : Js.value) : float :=
  if negb (Js.truthy value) then now E
  else
    let timestamp := parseInt value in
    if negb (Num.isNaN timestamp)
    then (if timestamp <? 10000000000 then timestamp * 1000 else timestamp)%float
    else match Date_parse value with
         | Some date => date
         | None => now E
         end.

(** A value written to a required text column. *)
Definition text_column (v : Js.value) : PrismaError + string :=
  match v with
  | Js.Str s => inr s
  | _ => inl PrismaValidation
  end.

(** [v || null] written to a nullable text column. *)
Definition or_null (v : Js.value) : PrismaError + option string :=
  if Js.truthy v
  then match v with
       | Js.Str s => inr (Some s)
       | _ => inl PrismaValidation
       end
  else inr None.

(** A number written to the integer column. *)
Definition int_column (n : float) : PrismaError + float :=
  if Num.isNaN n then inl PrismaValidation else inr n.

Definition bindE {A B} (m : PrismaError + A) (k : A -> PrismaError + B)
    : PrismaError + B :=
  match m with
  | inl e => inl e
  | inr a => k a
  end.

Local Notation "x <- m ;; k" := (bindE m (fun x => k))
  (at level 100, m at next level, right associativity).

(** The [data] of the [create] call. *)
Definition new_row (E : Env) (b : CreateBody) (cleanUserId : string)
    (consentValue : bool) (qty rateNum basePremiumAmount : float)
    : PrismaError + Row :=
  supplierName <- or_null (b_supplierName b) ;;
  supplierPlace <- or_null (b_supplierPlace b) ;;
  partyName <- or_null (b_partyName b) ;;
  partyAddress <- or_null (b_partyAddress b) ;;
  itemName <- text_column (b_itemName b) ;;
  quantity <- int_column qty ;;
  vehicleNo <- text_column (b_vehicleNo b) ;;
  transporterName <- or_null (b_transporterName b) ;;
  cashCommission <- or_null (b_cashCommission b) ;;
  invoiceType <- or_null (b_invoiceType b) ;;
  kantaParchiImage <- or_null (b_kantaParchiImage b) ;;
  inr {| id := uuid E;
         userId := cleanUserId;
         timestamp := normalizeTimestamp E (b_timestamp b);
         supplierName := supplierName;
         supplierPlace := supplierPlace;
         partyName := partyName;
         partyAddress := partyAddress;
         itemName := itemName;
         quantity := quantity;
         rate := if Js.truthy (Js.Number rateNum) then Some rateNum else None;
         vehicleNo := vehicleNo;
         transporterName := transporterName;
         cashCommission := cashCommission;
         invoiceType := invoiceType;
         kantaParchiImage := kantaParchiImage;
         consent := consentValue;
         status := PENDING_VERIFICATION;
         premiumAmount := Some basePremiumAmount;
         invoiceNumber := None;
         paymentLink := None;
         paymentStatus := None;
         rejectionReason := None;
         adminAction := None;
         adminTimestamp := None;
         invoicePdfUrl := None;
         policyNumber := None;
         policyPdfUrl := None;
         createdAt := now E |}.

(** [createInsuranceRequest]: POST /api/insurance/request. *)
Definition createInsuranceRequest (E : Env) (w : World) (req : CreateRequest)
    : Response * World :=
  let b := create_body req in
  match create_errors req with
  | _ :: _ =>
      ({| code := 400; success := false; message := None;
          data := Errors (create_errors req) |}, w)
  | [] =>
  if negb (Js.truthy (b_userId b))
  then ({| code := 400; success := false; message := Some "User ID is required";
           data := ReceivedData b |}, w)
  else
  let cleanUserId := Js.digits_only (String_ (b_userId b)) in
  if String.eqb cleanUserId EmptyString
  then ({| code := 400; success := false; message := Some "Invalid User ID format";
           data := ReceivedUserId (b_userId b) |}, w)
  else
  let consentValue := normalizeBoolean (b_consent b) in
  if negb consentValue
  then (fail 400 "User consent is required to proceed", w)
  else
  match findUnique_userId (db w) cleanUserId with
  | Some existingRequest =>
      ({| code := 409; success := false;
          message := Some "Request with this User ID already exists";
          data := Existing (id existingRequest) (status existingRequest) |}, w)
  | None =>
      let qty := parseInt (b_quantity b) in
      let rateNum := if Js.truthy (b_rate b) then parseFloat (b_rate b) else 0%float in
      let basePremiumAmount := Premium.basePremiumAmount qty rateNum in
      match (r <- new_row E b cleanUserId consentValue qty rateNum basePremiumAmount ;;
             t <- create (db w) r ;;
             inr (r, t)) with
      | inr (insuranceRequest, t) =>
          ({| code := 201; success := true;
              message := Some "Insurance request created successfully. Awaiting admin verification.";
              data := Created (id insuranceRequest) (userId insuranceRequest)
                        (vehicleNo insuranceRequest) (itemName insuranceRequest)
                        (quantity insuranceRequest) (status insuranceRequest)
                        (createdAt insuranceRequest) |},
           {| db := t; fs := fs w; outbox := outbox w |})
      | inl P2002 => (fail 409 "A request with this User ID already exists", w)
      | inl _ => (fail 500 "Failed to create insurance request", w)
      end
  end
  end.

(** The normalized submitter identifier of a submission. *)
Definition cleanUserId (req : CreateRequest) : string :=
  Js.digits_only (String_ (b_userId (create_body req))).

(** The quantity and the rate a submission is priced with. *)
Definition qty_of (req : CreateRequest) : float :=
  parseInt (b_quantity (create_body req)).

Definition rateNum_of (req : CreateRequest) : float :=
  if Js.truthy (b_rate (create_body req))
  then parseFloat (b_rate (create_body req)) else 0%float.

Definition select_status (r : Row) : StatusView :=
  {| v_id := id r; v_userId := userId r; v_vehicleNo := vehicleNo r;
     v_itemName := itemName r; v_quantity := quantity r; v_rate := rate r;
     v_supplierName := supplierName r; v_partyName := partyName r;
     v_status := status r; v_invoiceNumber := invoiceNumber r;
     v_premiumAmount := premiumAmount r; v_paymentStatus := paymentStatus r;
     v_paymentLink := paymentLink r; v_policyNumber := policyNumber r;
     v_policyPdfUrl := policyPdfUrl r; v_createdAt := createdAt r;
     v_adminTimestamp := adminTimestamp r;
     v_rejectionReason := rejectionReason r |}.

(** [getRequestByUserId]: GET /api/insurance/status/:userId. *)
Definition getRequestByUserId (w : World) (userId : string) : Response :=
  let cleanUserId := Js.digits_only userId in
  match findUnique_userId (db w) cleanUserId with
  | None =>
      {| code := 404; success := false;
         message := Some "No request found for this User ID";
         data := SearchedUserId cleanUserId |}
  | Some insuranceRequest =>
      {| code := 200; success := true; message := None;
         data := Status (select_status insuranceRequest) |}
  end.

(** [(process.env.APP_URL || ...).replace(/\/$/, '')]. *)
Fixpoint strip_trailing_slash (s : string) : string :=
  match s with
  | EmptyString => EmptyString
  | String c r =>
      match r with
      | EmptyString => if Ascii.eqb c "/" then EmptyString else s
      | _ => String c (strip_trailing_slash r)
      end
  end.

(** The line feed of a template literal. *)
Definition nl : string := String (ascii_of_nat 10) EmptyString.

Definition approvalMessage (invoiceNumber : string) (premiumAmount : float)
    (paymentLink : string) : string :=
  "🎉 *Your Insurance Request is APPROVED!*" +:+ nl +:+ nl
  +:+ "Invoice Number: " +:+ invoiceNumber +:+ nl
  +:+ "Premium Amount: ₹" +:+ toFixed2 premiumAmount +:+ nl +:+ nl
  +:+ "Please complete payment using this link:" +:+ nl +:+ paymentLink +:+ nl +:+ nl
  +:+ "After payment, your policy will be issued within 24 hours.".

Definition rejectionMessage (rejectionReason : string) : string :=
  "❌ *Your Insurance Request has been REJECTED*" +:+ nl +:+ nl
  +:+ "Reason: " +:+ rejectionReason +:+ nl +:+ nl
  +:+ "Please contact support for more information or submit a new request with correct details.".

Definition already (r : Row) : Response :=
  fail 400 ("Request is already " +:+ status_name (status r)).

(** The finalized premium of an approval: the stored premium when there is
    one, else 0.2% of quantity times rate, then the cap. *)
Definition finalPremium (request : Row) : float :=
  let totalValue := (quantity request * default 0 (rate request))%float in
  Premium.cap (match premiumAmount request with
               | Some p => p
               | None => (totalValue * 0.002)%float
               end).

(** [approveRequest]: POST /api/admin/approve/:id. *)
Definition approveRequest (E : Env) (w : World) (i : string) (adminNotes : Js.value)
    : Response * World :=
  match findUnique_id (db w) i with
  | None => (fail 404 "Insurance request not found", w)
  | Some request =>
      if negb (bool_decide (status request = PENDING_VERIFICATION))
      then (already request, w)
      else
        let premiumAmount := finalPremium request in
        let invoiceNumber := "INV" +:+ Number_toString (now E) in
        let paymentLink := "https://razorpay.me/temp-link-" +:+ invoiceNumber in
        match update (db w) i (set_approved (now E) invoiceNumber premiumAmount paymentLink) with
        | inl _ => (fail 500 "Failed to approve request", w)
        | inr (t1, updated1) =>
            (* try { generateInvoicePdf ...; update } catch (pdfErr) { warn } *)
            let '(pdf, fs2) :=
              Invoice.generateInvoicePdf E (fs w) request invoiceNumber premiumAmount in
            let '(t2, updatedRequest) :=
              match pdf with
              | Invoice.Resolved pdfFilename =>
                  let serverUrl := strip_trailing_slash APP_URL in
                  let invoicePdfUrl := serverUrl +:+ "/invoices/" +:+ pdfFilename in
                  match update t1 i (set_invoicePdfUrl invoicePdfUrl) with
                  | inr (t2, updated2) => (t2, updated2)
                  | inl _ => (t1, updated1)
                  end
              | Invoice.Rejected => (t1, updated1)
              end in
            (* try { sendChatraceMessage ... } catch (msgErr) { warn } *)
            let sent :=
              match Chatrace.sendChatraceMessage E (outbox w) (userId request)
                      (approvalMessage invoiceNumber premiumAmount paymentLink) with
              | inr sent => sent
              | inl _ => outbox w
              end in
            ({| code := 200; success := true;
                message := Some "Request approved successfully";
                data := Approval (id updatedRequest) (Store.invoiceNumber updatedRequest)
                          (Store.premiumAmount updatedRequest)
                          (Store.paymentLink updatedRequest)
                          (Store.invoicePdfUrl updatedRequest) (status updatedRequest) |},
             {| db := t2; fs := fs2; outbox := sent |})
        end
  end.

(** [rejectRequest]: POST /api/admin/reject/:id. The notification is sent
    inside the handler's only [try] block. *)
Definition rejectRequest (E : Env) (w : World) (i : string) (rejectionReason : Js.value)
    : Response * World :=
  if negb (Js.truthy rejectionReason)
  then (fail 400 "Rejection reason is required", w)
  else
  match findUnique_id (db w) i with
  | None => (fail 404 "Insurance request not found", w)
  | Some request =>
      if negb (bool_decide (status request = PENDING_VERIFICATION))
      then (already request, w)
      else
        match (reason <- text_column rejectionReason ;;
               u <- update (db w) i (set_rejected (now E) reason) ;;
               inr (reason, u)) with
        | inl _ => (fail 500 "Failed to reject request", w)
        | inr (reason, (t1, updatedRequest)) =>
            match Chatrace.sendChatraceMessage E (outbox w) (userId request)
                    (rejectionMessage reason) with
            | inl _ =>
                (fail 500 "Failed to reject request",
                 {| db := t1; fs := fs w; outbox := outbox w |})
            | inr sent =>
                ({| code := 200; success := true;
                    message := Some "Request rejected successfully";
                    data := Rejection (id updatedRequest) (status updatedRequest)
                              (Store.rejectionReason updatedRequest) |},
                 {| db := t1; fs := fs w; outbox := sent |})
            end
        end
  end.

End WithPlatform.

End Controller.

(** ** Routes ([routes/admin.js]) *)

Module Route.

Section WithPlatform.
Context `{Pf : Platform}.

(** [router.post('/reject/:id', validateRejection, adminController.rejectRequest)]:
    the chain records its errors on the request and hands over to the
    controller, which does not read them. *)
Definition reject (E : Env) (w : World) (i : string) (rejectionReason : Js.value)
    : Http.Response * World :=
  let errors := Validation.validateRejection rejectionReason in
  Controller.rejectRequest E w i rejectionReason.

End WithPlatform.

End Route.

(** ** Queries of the store: order, filter, page, single column *)

Module Query.

Import Store.

(** [orderBy: { createdAt: 'desc' }], as a stable insertion sort: a row goes
    in front of the first row that is strictly older. *)
Fixpoint insert_desc (x : Row) (l : list Row) : list Row :=
  match l with
  | [] => [x]
  | y :: l' =>
      if (createdAt y <? createdAt x)%float then x :: y :: l'
      else y :: insert_desc x l'
  end.

Definition sort_desc (l : list Row) : list Row :=
  List.fold_right insert_desc [] l.

(** Newest first: a row is at least as recent as the next one. *)
Definition newest_first (a b : Row) : Prop :=
  (createdAt b <=? createdAt a)%float = true.

(** [findMany({ where, orderBy: { createdAt: 'desc' } })]. *)
Definition findMany (where_ : Row -> bool) (t : table) : list Row :=
  sort_desc (List.filter where_ t).

(** [count({ where })]. *)
Definition count (where_ : Row -> bool) (t : table) : nat :=
  length (List.filter where_ t).

(** [take] and [skip] on an ordered result. *)
Definition page (take skip : nat) (l : list Row) : list Row :=
  firstn take (skipn skip l).

(** [data: { premiumAmount }]. *)
Definition set_premium (premium : float) (r : Row) : Row :=
  {| id := id r; userId := userId r; timestamp := timestamp r;
     supplierName := supplierName r; supplierPlace := supplierPlace r;
     partyName := partyName r; partyAddress := partyAddress r;
     itemName := itemName r; quantity := quantity r; rate := rate r;
     vehicleNo := vehicleNo r; transporterName := transporterName r;
     cashCommission := cashCommission r; invoiceType := invoiceType r;
     kantaParchiImage := kantaParchiImage r; consent := consent r;
     status := status r;
     premiumAmount := Some premium;
     invoiceNumber := invoiceNumber r;
     paymentLink := paymentLink r;
     paymentStatus := paymentStatus r;
     rejectionReason := rejectionReason r;
     adminAction := adminAction r;
     adminTimestamp := adminTimestamp r;
     invoicePdfUrl := invoicePdfUrl r;
     policyNumber := policyNumber r; policyPdfUrl := policyPdfUrl r;
     createdAt := createdAt r |}.

End Query.

(** ** Validation chains of the other routes ([validation.js]) *)

Module Chains.

Import Http.

Section WithPlatform.
Context `{Pf : Platform}.

(** The messages of one validator: none when it passes. *)
Definition check (ok : bool) (msg : string) : list string :=
  if ok then [] else [msg].

(** [.exists()]: the field is not [undefined]. *)
Definition exists_ (v : Js.value) : bool :=
  match v with Js.Undefined => false | _ => true end.

(** [.notEmpty()]. *)
Definition notEmpty (v : Js.value) : bool :=
  negb (String.eqb (Validation.field_string v) EmptyString).

(** [.optional()]: the chain is skipped for an [undefined] field. *)
Definition optional (v : Js.value) (errors : list string) : list string :=
  match v with Js.Undefined => [] | _ => errors end.

(** [body(field).optional().isString().withMessage(msg)]. *)
Definition optional_string (v : Js.value) (msg : string) : list string :=
  optional v (check (Validation.isString v) msg).

(** The custom validator of [timestamp]; what it throws is its message. *)
Definition timestamp_custom (value : Js.value) : list string :=
  if negb (Js.truthy value) then ["Timestamp is required"]
  else
    let timestamp := parseInt value in
    if negb (Num.isNaN timestamp) && (0 <? timestamp)%float then []
    else match Date_parse value with
         | Some _ => []
         | None => ["Invalid timestamp format"]
         end.

(** The custom validator of [quantity]. *)
Definition quantity_custom (value : Js.value) : list string :=
  let qty := parseInt value in
  if Num.isNaN qty then ["Quantity must be a number"]
  else if (qty <? 1)%float then ["Quantity must be at least 1"]
  else [].

(** The custom validator of [rate]. *)
Definition rate_custom (value : Js.value) : list string :=
  if negb (Js.truthy value) then []
  else if Num.isNaN (parseFloat value) then ["Rate must be a valid number"]
  else [].

(** The custom validator of [consent]. *)
Definition consent_custom (value : Js.value) : list string :=
  match value with
  | Js.Bool _ => []
  | _ =>
      let normalizedValue := Js.trim (Js.toLowerCase (Controller.String_ value)) in
      if existsb (String.eqb normalizedValue) ["true"; "false"; "yes"; "no"; "1"; "0"]
      then []
      else ["Consent must be true, false, yes, or no"]
  end.

(** [validateInsuranceRequest]: the chains in the order of the array; every
    validator of a chain runs, and each failure records its message. *)
Definition validateInsuranceRequest (b : CreateBody) : list string :=
  (check (exists_ (b_userId b)) "User ID is required"
   ++ check (notEmpty (b_userId b)) "User ID cannot be empty"
   ++ check (Validation.isString (b_userId b)) "User ID must be a string")
  ++ (check (exists_ (b_timestamp b)) "Timestamp is required"
      ++ timestamp_custom (b_timestamp b))
  ++ (check (notEmpty (b_itemName b)) "Item name is required"
      ++ check (Validation.isString (b_itemName b)) "Item name must be a string")
  ++ (check (notEmpty (b_quantity b)) "Quantity is required"
      ++ quantity_custom (b_quantity b))
  ++ optional (b_rate b) (rate_custom (b_rate b))
  ++ (check (notEmpty (b_vehicleNo b)) "Vehicle number is required"
      ++ check (Validation.isString (b_vehicleNo b)) "Vehicle number must be a string")
  ++ (check (notEmpty (b_consent b)) "Consent is required"
      ++ consent_custom (b_consent b))
  ++ optional_string (b_supplierName b) "Supplier name must be a string"
  ++ optional_string (b_supplierPlace b) "Supplier place must be a string"
  ++ optional_string (b_partyName b) "Party name must be a string"
  ++ optional_string (b_partyAddress b) "Party address must be a string"
  ++ optional_string (b_transporterName b) "Transporter name must be a string"
  ++ optional_string (b_cashCommission b) "Cash/Commission must be a string"
  ++ optional_string (b_invoiceType b) "Invoice type must be a string"
  ++ optional_string (b_kantaParchiImage b) "Kanta Parchi image URL must be a string".

(** [validateApproval]: the chain on [adminNotes]. *)
Definition validateApproval (adminNotes : Js.value) : list string :=
  optional adminNotes
    (check (Validation.isString adminNotes) "Admin notes must be a string"
     ++ check (String.length (Validation.field_string adminNotes) <=? 500)%nat
          "Admin notes must not exceed 500 characters").

(** What a body that raises no validation error is made of. *)
Record validated (b : CreateBody) : Prop := {
  ok_userId : exists u, b_userId b = Js.Str u /\ u <> EmptyString;
  ok_timestamp : timestamp_custom (b_timestamp b) = [];
  ok_itemName : exists s, b_itemName b = Js.Str s /\ s <> EmptyString;
  ok_quantity : Num.isNaN (parseInt (b_quantity b)) = false
                /\ (1 <=? parseInt (b_quantity b))%float = true;
  ok_rate : Js.truthy (b_rate b) = true ->
            Num.isNaN (parseFloat (b_rate b)) = false;
  ok_vehicleNo : exists s, b_vehicleNo b = Js.Str s /\ s <> EmptyString;
  ok_consent : consent_custom (b_consent b) = [];
  ok_supplierName : b_supplierName b = Js.Undefined \/ exists s, b_supplierName b = Js.Str s;
  ok_supplierPlace : b_supplierPlace b = Js.Undefined \/ exists s, b_supplierPlace b = Js.Str s;
  ok_partyName : b_partyName b = Js.Undefined \/ exists s, b_partyName b = Js.Str s;
  ok_partyAddress : b_partyAddress b = Js.Undefined \/ exists s, b_partyAddress b = Js.Str s;
  ok_transporterName :
    b_transporterName b = Js.Undefined \/ exists s, b_transporterName b = Js.Str s;
  ok_cashCommission :
    b_cashCommission b = Js.Undefined \/ exists s, b_cashCommission b = Js.Str s;
  ok_invoiceType : b_invoiceType b = Js.Undefined \/ exists s, b_invoiceType b = Js.Str s;
  ok_kantaParchiImage :
    b_kantaParchiImage b = Js.Undefined \/ exists s, b_kantaParchiImage b = Js.Str s;
}.

End WithPlatform.

End Chains.

(** ** Routes of the insurance API ([routes/insurance.js]) *)

Module InsuranceRoute.

Section WithPlatform.
Context `{Pf : Platform}.

(** [router.post('/request', validateInsuranceRequest,
    insuranceController.createInsuranceRequest)]: the controller reads the
    errors the chains recorded. *)
Definition create (E : Env) (w : World) (b : Http.CreateBody)
    : Http.Response * World :=
  Controller.createInsuranceRequest E w
    {| Http.create_errors := Chains.validateInsuranceRequest b;
       Http.create_body := b |}.

End WithPlatform.

End InsuranceRoute.

(** ** Read-only handlers ([insuranceController.js], [adminController.js]) *)

Module Read.

Import Store.

(** A JSON answer: 200 with [success: true] and a body, or a failure with
    its code and message. *)
Inductive Reply (A : Type) :=
| Ok (body : A)
| Failure (code : Z) (message : string).
Arguments Ok {A} body.
Arguments Failure {A} code message.

(** The projection [GET /api/admin/pending] selects. *)
Record PendingView := {
  p_id : string;
  p_userId : string;
  p_timestamp : float;
  p_supplierName : option string;
  p_partyName : option string;
  p_itemName : string;
  p_quantity : float;
  p_rate : option float;
  p_vehicleNo : string;
  p_transporterName : option string;
  p_invoiceType : option string;
  p_consent : bool;
  p_status : Status;
  p_createdAt : float;
}.

Definition select_pending (r : Row) : PendingView :=
  {| p_id := id r; p_userId := userId r; p_timestamp := timestamp r;
     p_supplierName := supplierName r; p_partyName := partyName r;
     p_itemName := itemName r; p_quantity := quantity r; p_rate := rate r;
     p_vehicleNo := vehicleNo r; p_transporterName := transporterName r;
     p_invoiceType := invoiceType r; p_consent := consent r;
     p_status := status r; p_createdAt := createdAt r |}.

(** [{ success: true, count, data }]. *)
Record PendingList := {
  pending_count : nat;
  pending_data : list PendingView;
}.

(** [{ success: true, count, total, data }]. *)
Record RequestList := {
  list_count : nat;
  list_total : nat;
  list_data : list Row;
}.

Definition is_pending (r : Row) : bool :=
  bool_decide (status r = PENDING_VERIFICATION).

(** [getPendingRequests]: GET /api/admin/pending. *)
Definition getPendingRequests (w : World) : Reply PendingList :=
  let pendingRequests := Query.findMany is_pending (db w) in
  Ok {| pending_count := length pendingRequests;
        pending_data := List.map select_pending pendingRequests |}.

(** [const where = status ? { status } : {}]. *)
Definition where_status (status_ : option Status) (r : Row) : bool :=
  match status_ with
  | Some s => bool_decide (status r = s)
  | None => true
  end.

(** [getAllRequests]: GET /api/admin/requests, for a query whose [status]
    is a status of the table or absent and whose [limit] and [offset] are
    absent or parse to the natural numbers given; absent, they are 50 and 0.
    The related admin of a row is not part of the rows listed here. *)
Definition getAllRequests (w : World) (status_ : option Status)
    (limit offset : option nat) : Reply RequestList :=
  let take := default 50 limit in
  let skip := default 0 offset in
  let requests := Query.page take skip (Query.findMany (where_status status_) (db w)) in
  let total := Query.count (where_status status_) (db w) in
  Ok {| list_count := length requests; list_total := total; list_data := requests |}.

(** [getInsuranceRequest]: GET /api/insurance/request/:id. The related
    admin, admin actions and payments of the row are not part of the answer
    here. *)
Definition getInsuranceRequest (w : World) (i : string) : Reply Row :=
  match findUnique_id (db w) i with
  | None => Failure 404 "Insurance request not found"
  | Some insuranceRequest => Ok insuranceRequest
  end.

End Read.

(** ** The premium script ([scripts/recalculate-premiums.js]) *)

Module Script.

Import Store.

Local Open Scope float_scope.

Definition PREMIUM_RATE : float := 0.002.
Definition MAX_PREMIUM : float := 99999999.99.

(** [newPremium]: 0.2% of quantity times rate, under the ceiling. *)
Definition newPremium (req : Row) : float :=
  let totalValue := quantity req * default 0 (rate req) in
  let newPremium := totalValue * PREMIUM_RATE in
  if MAX_PREMIUM <? newPremium then MAX_PREMIUM else newPremium.

(** [oldPremium != null && Math.abs(newPremium - oldPremium) < 0.01]. *)
Definition unchanged (req : Row) : bool :=
  match premiumAmount req with
  | Some oldPremium => abs (newPremium req - oldPremium) <? 0.01
  | None => false
  end.

(** The row after its turn. *)
Definition revised (req : Row) : Row :=
  if unchanged req then req else Query.set_premium (newPremium req) req.

(** The tally of a run. *)
Record Tally := { updated : nat; skipped : nat }.

(** One turn of the loop, on the row [req] of the snapshot. *)
Definition turn (acc : PrismaError + (table * Tally)) (req : Row)
    : PrismaError + (table * Tally) :=
  match acc with
  | inl e => inl e
  | inr (t, n) =>
      if unchanged req
      then inr (t, {| updated := updated n; skipped := S (skipped n) |})
      else match update t (id req) (Query.set_premium (newPremium req)) with
           | inl e => inl e
           | inr (t', _) =>
               inr (t', {| updated := S (updated n); skipped := skipped n |})
           end
  end.

(** [recalculatePremiums]: the rows are read once, then visited in turn;
    an error of the store ends the run (exit code 1). *)
Definition recalculatePremiums (t : table) : PrismaError + (table * Tally) :=
  let requests := t in
  List.fold_left turn requests (inr (t, {| updated := 0; skipped := 0 |})).

End Script.

(** ** Sequences of calls *)

Module Lifecycle.

(** A call of one of the three handlers that write to the store, with the
    environment it runs in. *)
Inductive call :=
| Submit (E : Env) (b : Http.CreateBody)
| Approve (E : Env) (i : string) (adminNotes : Js.value)
| Reject (E : Env) (i : string) (rejectionReason : Js.value).

Section WithPlatform.
Context `{Pf : Platform}.

(** The world after a call, through its route. *)
Definition step (w : World) (c : call) : World :=
  match c with
  | Submit E b => snd (InsuranceRoute.create E w b)
  | Approve E i adminNotes => snd (Controller.approveRequest E w i adminNotes)
  | Reject E i rejectionReason => snd (Route.reject E w i rejectionReason)
  end.

(** The world after a sequence of calls, handled one after the other. *)
Definition run (w : World) (cs : list call) : World :=
  List.fold_left step cs w.

End WithPlatform.

(** What the handlers keep true of a row. *)
Definition well_formed (r : Store.Row) : Prop :=
  Store.consent r = true
  /\ (1 <=? Store.quantity r)%float = true
  /\ Store.itemName r <> EmptyString
  /\ Store.vehicleNo r <> EmptyString
  /\ Store.userId r <> EmptyString
  /\ Js.digits_only (Store.userId r) = Store.userId r
  /\ (exists p, Store.premiumAmount r = Some p
                /\ (Premium.MAX_PREMIUM <? p)%float = false)
  /\ match Store.status r with
     | Store.PENDING_VERIFICATION =>
         Store.invoiceNumber r = None /\ Store.paymentLink r = None
         /\ Store.paymentStatus r = None /\ Store.rejectionReason r = None
         /\ Store.invoicePdfUrl r = None
     | Store.APPROVED =>
         (exists inv, Store.invoiceNumber r = Some inv
                      /\ Store.paymentLink r
                         = Some ("https://razorpay.me/temp-link-" +:+ inv))
         /\ Store.paymentStatus r = Some "PENDING"
         /\ Store.rejectionReason r = None
     | Store.REJECTED =>
         (exists reason, Store.rejectionReason r = Some reason
                         /\ reason <> EmptyString)
         /\ Store.invoiceNumber r = None /\ Store.paymentLink r = None
         /\ Store.invoicePdfUrl r = None
     | _ => False
     end.

(** What the handlers keep true of the table. *)
Definition consistent (w : World) : Prop :=
  List.NoDup (List.map Store.id (db w))
  /\ List.NoDup (List.map Store.userId (db w))
  /\ Forall well_formed (db w).

(** The columns a submission fills: no later call writes them. *)
Definition same_submission (r r' : Store.Row) : Prop :=
  Store.id r' = Store.id r /\ Store.userId r' = Store.userId r
  /\ Store.timestamp r' = Store.timestamp r
  /\ Store.supplierName r' = Store.supplierName r
  /\ Store.supplierPlace r' = Store.supplierPlace r
  /\ Store.partyName r' = Store.partyName r
  /\ Store.partyAddress r' = Store.partyAddress r
  /\ Store.itemName r' = Store.itemName r
  /\ Store.quantity r' = Store.quantity r
  /\ Store.rate r' = Store.rate r
  /\ Store.vehicleNo r' = Store.vehicleNo r
  /\ Store.transporterName r' = Store.transporterName r
  /\ Store.cashCommission r' = Store.cashCommission r
  /\ Store.invoiceType r' = Store.invoiceType r
  /\ Store.kantaParchiImage r' = Store.kantaParchiImage r
  /\ Store.consent r' = Store.consent r
  /\ Store.createdAt r' = Store.createdAt r.

(** Every message went to the submitter of a request that has been decided. *)
Definition notified_only_decided (w : World) : Prop :=
  forall to msg, In (to, msg) (outbox w) ->
    exists r, In r (db w) /\ Store.userId r = to
              /\ Store.status r <> Store.PENDING_VERIFICATION.

(** The row an approval writes: the approved row, with the link of the
    document when the render resolved. *)
Definition attach (url : option string) (r : Store.Row) : Store.Row :=
  match url with
  | Some u => Store.set_invoicePdfUrl u r
  | None => r
  end.

(** A rewrite of rows by a decision: it keeps the submission, ends in a
    decided status, and keeps a pending row well formed. *)
Definition decision (g : Store.Row -> Store.Row) : Prop :=
  forall x,
    same_submission x (g x)
    /\ Store.status (g x) <> Store.PENDING_VERIFICATION
    /\ (well_formed x -> Store.status x = Store.PENDING_VERIFICATION ->
        well_formed (g x)).

End Lifecycle.

(** ** A concrete platform, environment and world

    The instance below fixes the library functions on the few values the
    examples use; the last two sections run the handlers on it. *)

Module Demo.

Import Store Http.

Definition demo_parse (v : Js.value) : float :=
  match v with
  | Js.Number n => n
  | Js.Str s => if String.eqb s "45" then 45%float
                else if String.eqb s "98.50" then 98.5%float else nan
  | _ => nan
  end.

Lemma demo_join_nonempty (a b : string) : a +:+ "/" +:+ b <> EmptyString.
Proof. induction a; discriminate. Qed.

#[export] Instance platform : Platform := {|
  Number_toString := fun _ => "1767225600000";
  parseInt := demo_parse;
  parseFloat := demo_parse;
  Date_parse := fun _ => None;
  toFixed2 := fun _ => "8.87";
  toLocaleString := fun _ => "45";
  toLocaleString2 := fun _ => "4,432.50";
  date_fields := fun _ => ("01", "01", "2026");
  path_join := fun a b => a +:+ "/" +:+ b;
  path_join_nonempty := demo_join_nonempty;
  APP_URL := "http://localhost:5000/";
  COMPANY_NAME := "ENP FARMS PVT LTD";
  COMPANY_ADDRESS := "# 51/4, Glass Factory Layout, Anandapur, Electronic City, Karnataka 560099";
  CLAIM_EMAIL := "support@mandiplus.com";
  CLAIM_PHONE := "+91 99001 86757";
|}.

(** An environment in which every service works and no image is remote. *)
Definition env : Env :=
  {| now := 1767225600000%float;
     uuid := "req-1";
     random := "k3x9a";
     http := HttpOk WriterFinish;
     image_ok := fun _ => true;
     pdf_fault := None;
     pdf_event := StreamFinish;
     notify_ok := true;
     unlink_ok := true |}.

(** The same, with the messaging service down. *)
Definition env_notifier_down : Env :=
  {| now := now env; uuid := uuid env; random := random env; http := http env;
     image_ok := image_ok env; pdf_fault := pdf_fault env;
     pdf_event := pdf_event env; notify_ok := false;
     unlink_ok := unlink_ok env |}.

(** The same, with an HTTP request that fails. *)
Definition env_http_down : Env :=
  {| now := now env; uuid := uuid env; random := random env; http := HttpFail;
     image_ok := image_ok env; pdf_fault := pdf_fault env;
     pdf_event := pdf_event env; notify_ok := notify_ok env;
     unlink_ok := unlink_ok env |}.


Definition empty_world : World := {| db := []; fs := ∅; outbox := [] |}.

(** The submission of the design document: 45 units at 98.50. *)
Definition body (userId consent : Js.value) : CreateBody :=
  {| b_userId := userId;
     b_timestamp := Js.Number 1767225600%float;
     b_supplierName := Js.Str "Green Farms";
     b_supplierPlace := Js.Undefined;
     b_partyName := Js.Str "City Traders";
     b_partyAddress := Js.Undefined;
     b_itemName := Js.Str "Tender Coconut";
     b_quantity := Js.Str "45";
     b_rate := Js.Str "98.50";
     b_vehicleNo := Js.Str "KA01AB1234";
     b_transporterName := Js.Undefined;
     b_cashCommission := Js.Undefined;
     b_invoiceType := Js.Undefined;
     b_kantaParchiImage := Js.Undefined;
     b_consent := consent |}.

Definition submission (userId consent : Js.value) : CreateRequest :=
  {| create_errors := []; create_body := body userId consent |}.

(** A pending row, as the submission above creates it. *)
Definition pending_row : Row :=
  {| id := "req-1"; userId := "916209415125"; timestamp := 1767225600000%float;
     supplierName := Some "Green Farms"; supplierPlace := None;
     partyName := Some "City Traders"; partyAddress := None;
     itemName := "Tender Coconut"; quantity := 45%float; rate := Some 98.5%float;
     vehicleNo := "KA01AB1234"; transporterName := None; cashCommission := None;
     invoiceType := None; kantaParchiImage := None; consent := true;
     status := PENDING_VERIFICATION;
     premiumAmount := Some (Premium.basePremiumAmount 45 98.5);
     invoiceNumber := None; paymentLink := None; paymentStatus := None;
     rejectionReason := None; adminAction := None; adminTimestamp := None;
     invoicePdfUrl := None; policyNumber := None; policyPdfUrl := None;
     createdAt := 1767225600000%float |}.

(** The same row with a remote weightment-slip image. *)
Definition remote_image_row : Row :=
  {| id := "req-1"; userId := "916209415125"; timestamp := 1767225600000%float;
     supplierName := None; supplierPlace := None; partyName := None;
     partyAddress := None; itemName := "Tender Coconut"; quantity := 45%float;
     rate := Some 98.5%float; vehicleNo := "KA01AB1234"; transporterName := None;
     cashCommission := None; invoiceType := None;
     kantaParchiImage := Some "https://cdn.example.com/slip.jpg";
     consent := true; status := PENDING_VERIFICATION;
     premiumAmount := Some (Premium.basePremiumAmount 45 98.5);
     invoiceNumber := None; paymentLink := None; paymentStatus := None;
     rejectionReason := None; adminAction := None; adminTimestamp := None;
     invoicePdfUrl := None; policyNumber := None; policyPdfUrl := None;
     createdAt := 1767225600000%float |}.

Definition pending_world : World :=
  {| db := [pending_row]; fs := ∅; outbox := [] |}.

(** The pending row once approved, and a world that holds it. *)
Definition approved_row : Row :=
  set_approved 1767225600000 "INV1767225600000" (Premium.basePremiumAmount 45 98.5)
    "https://razorpay.me/temp-link-INV1767225600000" pending_row.

Definition approved_world : World :=
  {| db := [approved_row]; fs := ∅; outbox := [] |}.

(** An environment whose download reaches the server but fails to write the
    temporary file, leaving a partial file. *)
Definition env_writer_error : Env :=
  {| now := now env; uuid := uuid env; random := random env;
     http := HttpOk (WriterError true);
     image_ok := image_ok env; pdf_fault := pdf_fault env;
     pdf_event := pdf_event env; notify_ok := notify_ok env;
     unlink_ok := unlink_ok env |}.

(** An environment in which the third drawing call throws. *)
Definition env_draw_throws : Env :=
  {| now := now env; uuid := uuid env; random := random env; http := http env;
     image_ok := image_ok env; pdf_fault := Some 2;
     pdf_event := pdf_event env; notify_ok := notify_ok env;
     unlink_ok := unlink_ok env |}.

(** The submission of the design document, from an empty table. *)
Definition first_submission : Response * World :=
  Controller.createInsuranceRequest env empty_world
    (submission (Js.Str "+91 62094-15125") (Js.Str "yes")).

(** A later call: another clock, another generated identifier. *)
Definition env_later : Env :=
  {| now := 1767225660000%float; uuid := "req-2"; random := random env;
     http := http env; image_ok := image_ok env; pdf_fault := pdf_fault env;
     pdf_event := pdf_event env; notify_ok := notify_ok env;
     unlink_ok := unlink_ok env |}.

(** A second pending row, created a minute after the first. *)
Definition second_row : Row :=
  {| id := "req-2"; userId := "919876543210"; timestamp := 1767225660000%float;
     supplierName := None; supplierPlace := None; partyName := None;
     partyAddress := None; itemName := "Tender Coconut"; quantity := 45%float;
     rate := Some 98.5%float; vehicleNo := "KA05CD6789"; transporterName := None;
     cashCommission := None; invoiceType := None; kantaParchiImage := None;
     consent := true; status := PENDING_VERIFICATION;
     premiumAmount := Some (Premium.basePremiumAmount 45 98.5);
     invoiceNumber := None; paymentLink := None; paymentStatus := None;
     rejectionReason := None; adminAction := None; adminTimestamp := None;
     invoicePdfUrl := None; policyNumber := None; policyPdfUrl := None;
     createdAt := 1767225660000%float |}.

Definition two_pending_world : World :=
  {| db := [pending_row; second_row]; fs := ∅; outbox := [] |}.

(** A row of before the premium was set at creation: 10 units at 1000. *)
Definition legacy_row : Row :=
  {| id := "req-3"; userId := "919000000000"; timestamp := 1767225600000%float;
     supplierName := None; supplierPlace := None; partyName := None;
     partyAddress := None; itemName := "Banana"; quantity := 10%float;
     rate := Some 1000%float; vehicleNo := "KA09EF1122"; transporterName := None;
     cashCommission := None; invoiceType := None; kantaParchiImage := None;
     consent := true; status := PENDING_VERIFICATION;
     premiumAmount := None;
     invoiceNumber := None; paymentLink := None; paymentStatus := None;
     rejectionReason := None; adminAction := None; adminTimestamp := None;
     invoicePdfUrl := None; policyNumber := None; policyPdfUrl := None;
     createdAt := 1767225600000%float |}.

Definition script_table : table := [pending_row; legacy_row].

(** The world after the approval of the pending row: one message sent. *)
Definition decided_world : World :=
  snd (Controller.approveRequest env pending_world "req-1" Js.Undefined).

(** A submission, the approval of the first request and the rejection of
    the second. *)
Definition calls : list Lifecycle.call :=
  [ Lifecycle.Submit env_later (body (Js.Str "+91 98765 43210") (Js.Str "yes"));
    Lifecycle.Approve env "req-1" Js.Undefined;
    Lifecycle.Reject env_later "req-2" (Js.Str "Documents are incomplete") ].



(** The no-break space U+00A0, as the bytes of its encoding. *)
Definition nbsp : string :=
  String (ascii_of_nat 194) (String (ascii_of_nat 160) EmptyString).

(** A file system that holds an uploaded weightment slip. *)
Definition fs_uploads : gmap string file :=
  {[ "uploads/kantaparchi/req-9.jpg" := ImageBytes ]}.

End Demo.

(** ** Facts on binary64 values used by the premium proofs *)

Section SpecFloatFacts.

Local Open Scope Z_scope.

Lemma sf_nonneg_leb x : SFleb (S754_zero false) x = true <-> sf_nonneg x.
Proof.
  destruct x as [s|s| |s m e]; cbn; try destruct s; cbn; intuition congruence.
Qed.

Lemma SFcompare_refl x : x <> S754_nan -> SFcompare x x = Some Eq.
Proof.
  destruct x as [s|s| |s m e]; cbn; intros H; try congruence.
  - destruct s; reflexivity.
  - destruct s; rewrite Z.compare_refl, Pos.compare_cont_refl; reflexivity.
Qed.

Lemma SFcompare_antisym x y :
  SFcompare y x = option_map CompOpp (SFcompare x y).
Proof.
  destruct x as [sx|sx| |sx mx ex], y as [sy|sy| |sy my ey]; cbn;
    try reflexivity; try (destruct sx; reflexivity); try (destruct sy; reflexivity);
    try (destruct sx, sy; reflexivity).
  destruct sx, sy; cbn; try reflexivity;
    rewrite (Z.compare_antisym ex ey); destruct (ex ?= ey); cbn; try reflexivity;
    change PosDef.Pos.compare_cont with Pos.compare_cont;
    pose proof (Pos.compare_cont_antisym mx my Eq) as E;
    change (CompOpp Eq) with Eq in E;
    rewrite <- E, ?CompOpp_involutive; reflexivity.
Qed.

Lemma SFcompare_None x y :
  SFcompare x y = None -> x = S754_nan \/ y = S754_nan.
Proof.
  destruct x as [sx|sx| |sx mx ex], y as [sy|sy| |sy my ey]; cbn;
    intros Hc; auto; discriminate.
Qed.

Lemma SFcompare_Eq_finite x s m e :
  SFcompare x (S754_finite s m e) = Some Eq -> x = S754_finite s m e.
Proof.
  destruct x as [sx|sx| |sx mx ex]; cbn; try (destruct s; discriminate);
    try (destruct sx; discriminate); try discriminate.
  destruct sx, s; try discriminate;
    destruct (ex ?= e) eqn:He; try discriminate;
    apply Z.compare_eq in He; subst;
    intros H; injection H as H.
  - change PosDef.Pos.compare_cont with Pos.compare_cont in H.
    destruct (Pos.compare_cont Eq mx m) eqn:Hm; try discriminate.
    apply Pos.compare_eq in Hm. congruence.
  - change PosDef.Pos.compare_cont with Pos.compare_cont in H.
    apply Pos.compare_eq in H. congruence.
Qed.

(** Shifting and rounding keep a non-negative mantissa non-negative, so
    the rounding of a product never falls into the NaN branch. *)
Lemma shr_1_nonneg mrs : 0 <= shr_m mrs -> 0 <= shr_m (shr_1 mrs).
Proof.
  destruct mrs as [m r s]; cbn.
  destruct m as [|p|p]; cbn; try lia; destruct p; cbn; lia.
Qed.

Lemma iter_pos_preserves {A} (P : A -> Prop) (f : A -> A) :
  (forall x, P x -> P (f x)) ->
  forall n x, P x -> P (SpecFloat.iter_pos f n x).
Proof.
  intros Hf. induction n as [n IH|n IH|]; cbn; intros x Hx; auto.
Qed.

Lemma shr_nonneg mrs e n : 0 <= shr_m mrs -> 0 <= shr_m (fst (shr mrs e n)).
Proof.
  intros H. destruct n; cbn; auto.
  apply (iter_pos_preserves (fun r => 0 <= shr_m r)); auto using shr_1_nonneg.
Qed.

Lemma shr_record_of_loc_m m l : shr_m (shr_record_of_loc m l) = m.
Proof. destruct l as [|[]]; reflexivity. Qed.

Lemma shr_fexp_nonneg p q m e l :
  0 <= m -> 0 <= shr_m (fst (shr_fexp p q m e l)).
Proof.
  intros H. unfold shr_fexp. apply shr_nonneg.
  now rewrite shr_record_of_loc_m.
Qed.

Lemma round_nearest_even_nonneg m l : 0 <= m -> 0 <= round_nearest_even m l.
Proof.
  intros H. destruct l as [|[]]; cbn; try lia.
  destruct (Z.even m); lia.
Qed.

Lemma binary_round_aux_nonneg p q m e l :
  0 <= m -> sf_nonneg (binary_round_aux p q false m e l).
Proof.
  intros H. unfold binary_round_aux.
  pose proof (shr_fexp_nonneg p q m e l H) as H1.
  destruct (shr_fexp p q m e l) as [mrs' e']. cbn [fst] in H1.
  pose proof (shr_fexp_nonneg p q _ e' loc_Exact
                (round_nearest_even_nonneg _ (loc_of_shr_record mrs') H1)) as H2.
  destruct (shr_fexp p q (round_nearest_even (shr_m mrs') (loc_of_shr_record mrs')) e' loc_Exact)
    as [mrs'' e''].
  cbn [fst] in H2.
  destruct (shr_m mrs'') as [|m''|m'']; cbn; auto; try lia.
  destruct (e'' <=? q - p); cbn; auto.
Qed.

(** A product of two non-negative values is non-negative, unless it is the
    undefined product of an infinity and a zero. *)
Lemma SFmul_nonneg p q x y :
  sf_nonneg x -> sf_nonneg y -> ~ sf_inf_times_zero x y ->
  sf_nonneg (SFmul p q x y).
Proof.
  destruct x as [sx|sx| |sx mx ex], y as [sy|sy| |sy my ey]; cbn;
    intros Hx Hy Hz; subst; cbn; auto; try tauto.
  apply binary_round_aux_nonneg. lia.
Qed.

End SpecFloatFacts.

(** ** The premium: cap, formula, sign *)

Section PremiumFacts.

Local Open Scope float_scope.

Lemma isNaN_spec x : Num.isNaN x = true <-> Prim2SF x = S754_nan.
Proof.
  unfold Num.isNaN. rewrite FloatAxioms.eqb_spec. unfold SFeqb. split.
  - intros Hx. destruct (Prim2SF x) eqn:E; auto;
      rewrite SFcompare_refl in Hx by discriminate; discriminate.
  - intros ->. reflexivity.
Qed.

Lemma isNaN_nan x : Num.isNaN x = true -> x = nan.
Proof.
  intros Hx. apply isNaN_spec in Hx. apply Prim2SF_inj. now rewrite Hx.
Qed.

Lemma nonneg_spec x : Num.nonneg x = true <-> sf_nonneg (Prim2SF x).
Proof.
  unfold Num.nonneg. rewrite leb_spec.
  change (Prim2SF 0) with (S754_zero false). apply sf_nonneg_leb.
Qed.

Lemma finite_ge_one_spec x :
  Num.finite_ge_one x = true -> exists m e, Prim2SF x = S754_finite false m e.
Proof.
  unfold Num.finite_ge_one. rewrite andb_true_iff, leb_spec, ltb_spec.
  change (Prim2SF 1) with (S754_finite false 4503599627370496 (-52)).
  change (Prim2SF infinity) with (S754_infinity false).
  intros [H1 H2].
  destruct (Prim2SF x) as [s|s| |s m e]; try discriminate;
    try (destruct s; discriminate).
  destruct s; [discriminate|]. eauto.
Qed.

Lemma mul_nonneg x y :
  Num.nonneg x = true -> Num.nonneg y = true ->
  ~ sf_inf_times_zero (Prim2SF x) (Prim2SF y) ->
  Num.nonneg (x * y) = true.
Proof.
  rewrite !nonneg_spec, mul_spec. apply SFmul_nonneg.
Qed.

(** The cap is [Math.min] with the ceiling. *)
Lemma cap_is_min p : Premium.cap p = Num.Math_min p Premium.MAX_PREMIUM.
Proof.
  unfold Premium.cap, Num.Math_min.
  destruct (Num.isNaN p) eqn:Hnan.
  - apply isNaN_nan in Hnan. subst p. reflexivity.
  - change (Num.isNaN Premium.MAX_PREMIUM) with false. cbn [orb].
    assert (Hp : Prim2SF p <> S754_nan).
    { intros Hp. apply isNaN_spec in Hp. congruence. }
    rewrite !ltb_spec. unfold SFltb.
    rewrite (SFcompare_antisym (Prim2SF p) (Prim2SF Premium.MAX_PREMIUM)).
    destruct (SFcompare (Prim2SF p) (Prim2SF Premium.MAX_PREMIUM)) as [[| |]|] eqn:Hc;
      cbn; try reflexivity.
    + change (Prim2SF Premium.MAX_PREMIUM)
        with (S754_finite false 6710886399328911 (-26)) in Hc.
      apply SFcompare_Eq_finite in Hc.
      change (S754_finite false 6710886399328911 (-26))
        with (Prim2SF Premium.MAX_PREMIUM) in Hc.
      apply Prim2SF_inj in Hc. subst p. reflexivity.
    + apply SFcompare_None in Hc. destruct Hc as [Hc|Hc]; [contradiction|].
      discriminate Hc.
Qed.

(** The capped value never exceeds the ceiling. *)
Lemma cap_le_max p : (Premium.MAX_PREMIUM <? Premium.cap p) = false.
Proof.
  unfold Premium.cap.
  destruct (Premium.MAX_PREMIUM <? p) eqn:Hc; [reflexivity | exact Hc].
Qed.

Lemma cap_nonneg p : Num.nonneg p = true -> Num.nonneg (Premium.cap p) = true.
Proof.
  intros Hp. unfold Premium.cap.
  destruct (Premium.MAX_PREMIUM <? p); [reflexivity | exact Hp].
Qed.

(** The creation premium is the formula of the design document. *)
Lemma basePremiumAmount_formula q r :
  Premium.basePremiumAmount q r = Premium.premium_formula q r.
Proof. unfold Premium.basePremiumAmount. apply cap_is_min. Qed.

Lemma times_rate_nonneg x :
  Num.nonneg x = true -> Num.nonneg (x * 0.002) = true.
Proof.
  intros Hx. apply mul_nonneg; [exact Hx | reflexivity |].
  change (Prim2SF 0.002) with (S754_finite false 4611686018427388 (-61)).
  destruct (Prim2SF x); cbn; tauto.
Qed.

(** For a quantity of at least one and a rate of at least zero the creation
    premium is a number that is at least zero. *)
Lemma basePremiumAmount_nonneg q r :
  Num.finite_ge_one q = true -> Num.nonneg r = true ->
  Num.nonneg (Premium.basePremiumAmount q r) = true.
Proof.
  intros Hq Hr. unfold Premium.basePremiumAmount.
  apply cap_nonneg, times_rate_nonneg.
  destruct (finite_ge_one_spec q Hq) as (m & e & Hm).
  apply mul_nonneg; [| exact Hr |].
  - apply nonneg_spec. rewrite Hm. reflexivity.
  - rewrite Hm. destruct (Prim2SF r); cbn; tauto.
Qed.

End PremiumFacts.

(** ** The store: lookups after an insertion or an update *)

Section StoreFacts.

Import Store.

Lemma findUnique_id_In t i r : findUnique_id t i = Some r -> In r t /\ id r = i.
Proof.
  unfold findUnique_id. intros Hf. apply find_some in Hf as [Hin Heq].
  apply String.eqb_eq in Heq. auto.
Qed.

Lemma findUnique_userId_In t u r :
  findUnique_userId t u = Some r -> In r t /\ userId r = u.
Proof.
  unfold findUnique_userId. intros Hf. apply find_some in Hf as [Hin Heq].
  apply String.eqb_eq in Heq. auto.
Qed.

(** An update that keeps the key of a row is seen by the next lookup. *)
Lemma findUnique_id_map t i j (f : Row -> Row) :
  (forall x, id (f x) = id x) ->
  findUnique_id (List.map (fun x => if String.eqb (id x) i then f x else x) t) j
  = option_map (fun x => if String.eqb (id x) i then f x else x) (findUnique_id t j).
Proof.
  intros Hid. unfold findUnique_id.
  induction t as [|x t IH]; cbn; [reflexivity|].
  destruct (String.eqb (id x) i) eqn:Hxi.
  - rewrite Hid. destruct (String.eqb (id x) j); cbn; [now rewrite Hxi | exact IH].
  - destruct (String.eqb (id x) j); cbn; [now rewrite Hxi | exact IH].
Qed.

Lemma update_found t i f r :
  (forall x, id (f x) = id x) ->
  findUnique_id t i = Some r ->
  exists t', update t i f = inr (t', f r) /\ findUnique_id t' i = Some (f r).
Proof.
  intros Hid Hf. unfold update. rewrite Hf. eexists. split; [reflexivity|].
  rewrite findUnique_id_map, Hf by exact Hid. cbn.
  apply findUnique_id_In in Hf as [_ <-]. now rewrite String.eqb_refl.
Qed.

Lemma set_approved_id a b c d x : id (set_approved a b c d x) = id x.
Proof. reflexivity. Qed.

Lemma set_invoicePdfUrl_id u x : id (set_invoicePdfUrl u x) = id x.
Proof. reflexivity. Qed.

Lemma set_rejected_id a b x : id (set_rejected a b x) = id x.
Proof. reflexivity. Qed.

(** No row of a submitter: the lookup by submitter misses, and conversely. *)
Lemma count_userId_zero t u : findUnique_userId t u = None -> count_userId t u = 0.
Proof.
  unfold findUnique_userId, count_userId.
  induction t as [|x t IH]; cbn; [reflexivity|].
  destruct (String.eqb (userId x) u); [discriminate | exact IH].
Qed.

Lemma count_userId_app t1 t2 u :
  count_userId (t1 ++ t2) u = count_userId t1 u + count_userId t2 u.
Proof. unfold count_userId. now rewrite List.filter_app, length_app. Qed.

Lemma findUnique_userId_app_new t r :
  findUnique_userId t (userId r) = None ->
  findUnique_userId (t ++ [r]) (userId r) = Some r.
Proof.
  unfold findUnique_userId.
  induction t as [|x t IH]; cbn.
  - now rewrite String.eqb_refl.
  - destruct (String.eqb (userId x) (userId r)); [discriminate | exact IH].
Qed.

End StoreFacts.

Create HintDb store.
#[local] Hint Resolve set_approved_id set_invoicePdfUrl_id set_rejected_id : store.

(** ** Approval and rejection *)

Section AdminFacts.

Context `{Pf : Platform}.
Import Store Http Controller.

Lemma truthy_Str s : Js.truthy (Js.Str s) = true <-> s <> EmptyString.
Proof.
  cbn. rewrite negb_true_iff. split.
  - intros Hs ->. discriminate.
  - intros Hs. apply String.eqb_neq. exact Hs.
Qed.

Lemma pending_decide (r : Row) :
  status r = PENDING_VERIFICATION ->
  bool_decide (status r = PENDING_VERIFICATION) = true.
Proof. intros Hs. now apply bool_decide_eq_true. Qed.

Lemma not_pending_decide (r : Row) :
  status r <> PENDING_VERIFICATION ->
  bool_decide (status r = PENDING_VERIFICATION) = false.
Proof. intros Hs. now apply bool_decide_eq_false. Qed.

(** What an approval of a pending request does, whatever the renderer and
    the messaging service do. *)
Lemma approveRequest_pending (E : Env) (w : World) (i : string) (r : Row)
    (adminNotes : Js.value) :
  findUnique_id (db w) i = Some r ->
  status r = PENDING_VERIFICATION ->
  let inv := "INV" +:+ Number_toString (now E) in
  let link := "https://razorpay.me/temp-link-" +:+ inv in
  let r1 := set_approved (now E) inv (finalPremium r) link r in
  exists w' r',
    approveRequest E w i adminNotes
    = ({| code := 200; success := true;
          message := Some "Request approved successfully";
          data := Approval (id r') (invoiceNumber r') (premiumAmount r')
                    (paymentLink r') (invoicePdfUrl r') (status r') |}, w')
    /\ findUnique_id (db w') i = Some r'
    /\ (r' = r1 \/ exists url, r' = set_invoicePdfUrl url r1)
    /\ fs w' = snd (Invoice.generateInvoicePdf E (fs w) r inv (finalPremium r))
    /\ outbox w' = (if notify_ok E
                    then outbox w ++ [(userId r, approvalMessage inv (finalPremium r) link)]
                    else outbox w).
Proof.
  intros Hf Hs inv link r1. unfold approveRequest.
  rewrite Hf, (pending_decide r Hs). cbn [negb].
  fold inv. fold link. fold r1.
  destruct (update_found (db w) i (set_approved (now E) inv (finalPremium r) link) r)
    as (t1 & Hu & Hf1); auto with store.
  fold r1 in Hu, Hf1. rewrite Hu.
  destruct (Invoice.generateInvoicePdf E (fs w) r inv (finalPremium r))
    as [pdf fs2] eqn:Hpdf.
  assert (Hout : (match Chatrace.sendChatraceMessage E (outbox w) (userId r)
                          (approvalMessage inv (finalPremium r) link) with
                  | inr sent => sent
                  | inl _ => outbox w
                  end)
                 = if notify_ok E
                   then outbox w ++ [(userId r, approvalMessage inv (finalPremium r) link)]
                   else outbox w).
  { unfold Chatrace.sendChatraceMessage. destruct (notify_ok E); reflexivity. }
  rewrite Hout.
  destruct pdf as [pdfFilename|].
  - destruct (update_found t1 i
                (set_invoicePdfUrl (strip_trailing_slash APP_URL +:+ "/invoices/" +:+ pdfFilename))
                r1) as (t2 & Hu2 & Hf2); auto with store.
    rewrite Hu2.
    eexists _, _. split; [reflexivity|]. cbn [db fs outbox snd].
    repeat split; eauto.
  - eexists _, _. split; [reflexivity|]. cbn [db fs outbox snd].
    repeat split; eauto.
Qed.

(** What a rejection of a pending request does: the row is written first,
    and the outcome of the notification decides the response. *)
Lemma rejectRequest_pending (E : Env) (w : World) (i : string) (r : Row) (s : string) :
  findUnique_id (db w) i = Some r ->
  status r = PENDING_VERIFICATION ->
  s <> EmptyString ->
  let r1 := set_rejected (now E) s r in
  exists t1,
    findUnique_id t1 i = Some r1
    /\ rejectRequest E w i (Js.Str s)
       = if notify_ok E
         then ({| code := 200; success := true;
                  message := Some "Request rejected successfully";
                  data := Rejection (id r1) (status r1) (rejectionReason r1) |},
               {| db := t1; fs := fs w;
                  outbox := outbox w ++ [(userId r, rejectionMessage s)] |})
         else (fail 500 "Failed to reject request",
               {| db := t1; fs := fs w; outbox := outbox w |}).
Proof.
  intros Hf Hs Hne r1. unfold rejectRequest.
  rewrite (proj2 (truthy_Str s) Hne). cbn [negb].
  rewrite Hf, (pending_decide r Hs). cbn [negb text_column bindE].
  destruct (update_found (db w) i (set_rejected (now E) s) r)
    as (t1 & Hu & Hf1); auto with store.
  fold r1 in Hu, Hf1. rewrite Hu. exists t1. split; [exact Hf1|].
  unfold Chatrace.sendChatraceMessage. destruct (notify_ok E); reflexivity.
Qed.

End AdminFacts.

Section AdminClaims.

Context `{Pf : Platform}.
Import Store Http Controller.

(** X3. A rejection without a reason is answered 400 before the store is
    read, and changes nothing. *)
Theorem rejectRequest_without_reason (E : Env) (w : World) (i : string) (reason : Js.value) :
  Js.truthy reason = false ->
  rejectRequest E w i reason = (fail 400 "Rejection reason is required", w).
Proof. intros Ht. unfold rejectRequest. now rewrite Ht. Qed.

(** X2. The approval of a pending request answers 200 and commits the
    transition whatever the renderer and the messaging service do. *)
Theorem approveRequest_isolates_side_effects (E : Env) (w : World) (i : string)
    (r : Row) (adminNotes : Js.value) :
  findUnique_id (db w) i = Some r ->
  status r = PENDING_VERIFICATION ->
  code (fst (approveRequest E w i adminNotes)) = 200%Z
  /\ success (fst (approveRequest E w i adminNotes)) = true
  /\ exists r', findUnique_id (db (snd (approveRequest E w i adminNotes))) i = Some r'
                /\ status r' = APPROVED.
Proof.
  intros Hf Hs.
  destruct (approveRequest_pending E w i r adminNotes Hf Hs)
    as (w' & r' & -> & Hf' & Hr' & _).
  cbn. repeat split. exists r'. split; [exact Hf'|].
  destruct Hr' as [->|[url ->]]; reflexivity.
Qed.

(** C1. A stored request whose status is not PENDING_VERIFICATION is left
    as it is by both admin operations: the approval and a rejection that
    carries a reason answer 400 "Request is already <status>", a rejection
    without a reason answers 400 as well, and in each case the world (the
    table, the files, the sent messages) is unchanged. *)
Theorem terminal_states_are_never_exited
    (E : Env) (w : World) (i : string) (r : Row) :
  findUnique_id (db w) i = Some r ->
  status r <> PENDING_VERIFICATION ->
  (forall adminNotes, approveRequest E w i adminNotes = (already r, w))
  /\ (forall reason, Js.truthy reason = true ->
        rejectRequest E w i reason = (already r, w))
  /\ (forall reason,
        code (fst (rejectRequest E w i reason)) = 400%Z
        /\ success (fst (rejectRequest E w i reason)) = false
        /\ snd (rejectRequest E w i reason) = w).
Proof.
  intros Hf Hs. split; [|split].
  - intros adminNotes. unfold approveRequest.
    now rewrite Hf, (not_pending_decide r Hs).
  - intros reason Ht. unfold rejectRequest.
    now rewrite Ht, Hf, (not_pending_decide r Hs).
  - intros reason. unfold rejectRequest.
    destruct (Js.truthy reason); cbn [negb]; [|auto].
    rewrite Hf, (not_pending_decide r Hs). cbn. auto.
Qed.

(** C6. Approving a request in PENDING_VERIFICATION answers 200 and leaves
    the row with status APPROVED, payment status PENDING, the invoice number
    INV<clock>, the placeholder payment link built from it, and as premium
    the stored premium when there is one, otherwise quantity * rate * 0.002
    with an absent rate read as 0, in either case under [Math.min] with
    99999999.99, which it never exceeds. *)
Theorem approval_finalizes_request (E : Env) (w : World) (i : string) (r : Row)
    (adminNotes : Js.value) :
  findUnique_id (db w) i = Some r ->
  status r = PENDING_VERIFICATION ->
  let inv := "INV" +:+ Number_toString (now E) in
  let base := match premiumAmount r with
              | Some p => p
              | None => (quantity r * default 0 (rate r) * 0.002)%float
              end in
  exists resp w' r',
    approveRequest E w i adminNotes = (resp, w')
    /\ code resp = 200%Z /\ success resp = true
    /\ findUnique_id (db w') i = Some r'
    /\ status r' = APPROVED
    /\ paymentStatus r' = Some "PENDING"
    /\ invoiceNumber r' = Some inv
    /\ paymentLink r' = Some ("https://razorpay.me/temp-link-" +:+ inv)
    /\ premiumAmount r' = Some (Num.Math_min base 99999999.99)
    /\ (99999999.99 <? Num.Math_min base 99999999.99)%float = false.
Proof.
  intros Hf Hs inv base.
  destruct (approveRequest_pending E w i r adminNotes Hf Hs)
    as (w' & r' & Happ & Hf' & Hr' & _).
  assert (Hprem : finalPremium r = Num.Math_min base 99999999.99).
  { unfold finalPremium. apply cap_is_min. }
  eexists _, w', r'. split; [exact Happ|]. cbn [code success].
  rewrite <- Hprem.
  repeat split; try exact Hf';
    try (destruct Hr' as [->|[url ->]]; reflexivity).
  unfold finalPremium. apply cap_le_max.
Qed.

(** C3, on the code. A rejection whose notification fails answers 500
    "Failed to reject request" although the row has been written with
    status REJECTED: the failure of the messaging service surfaces as a
    failure of the operation. (The approval wraps the same call in a
    try/catch of its own, see [approveRequest_isolates_side_effects].) *)
Theorem rejection_surfaces_notifier_failure (E : Env) (w : World) (i : string)
    (r : Row) (s : string) :
  findUnique_id (db w) i = Some r ->
  status r = PENDING_VERIFICATION ->
  s <> EmptyString ->
  notify_ok E = false ->
  exists w' r',
    rejectRequest E w i (Js.Str s) = (fail 500 "Failed to reject request", w')
    /\ findUnique_id (db w') i = Some r'
    /\ status r' = REJECTED
    /\ rejectionReason r' = Some s.
Proof.
  intros Hf Hs Hne Hn.
  destruct (rejectRequest_pending E w i r s Hf Hs Hne) as (t1 & Hf1 & Hrej).
  rewrite Hn in Hrej. eexists _, _. split; [exact Hrej|].
  cbn [db]. split; [exact Hf1|]. split; reflexivity.
Qed.

(** C5, on the code. A reason of one to nine characters is flagged by the
    validation chain of the route, yet the route goes on: the controller
    never reads the recorded errors, answers 200 and writes the row with
    status REJECTED. *)
Theorem short_reason_is_not_refused (E : Env) (w : World) (i : string)
    (r : Row) (s : string) :
  findUnique_id (db w) i = Some r ->
  status r = PENDING_VERIFICATION ->
  s <> EmptyString ->
  (String.length s < 10)%nat ->
  notify_ok E = true ->
  Validation.validateRejection (Js.Str s)
  = ["Rejection reason must be at least 10 characters"]
  /\ exists w' r',
       fst (Route.reject E w i (Js.Str s))
       = {| code := 200; success := true;
            message := Some "Request rejected successfully";
            data := Rejection i REJECTED (Some s) |}
       /\ snd (Route.reject E w i (Js.Str s)) = w'
       /\ findUnique_id (db w') i = Some r'
       /\ status r' = REJECTED
       /\ rejectionReason r' = Some s.
Proof.
  intros Hf Hs Hne Hlen Hn. split.
  - unfold Validation.validateRejection. cbn [Validation.field_string Validation.isString].
    apply String.eqb_neq in Hne. rewrite Hne.
    replace (String.length s <? 10)%nat with true
      by (symmetry; apply Nat.ltb_lt; exact Hlen).
    replace (500 <? String.length s)%nat with false
      by (symmetry; apply Nat.ltb_ge; lia).
    reflexivity.
  - destruct (rejectRequest_pending E w i r s Hf Hs Hne) as (t1 & Hf1 & Hrej).
    rewrite Hn in Hrej. unfold Route.reject. rewrite Hrej.
    eexists _, (set_rejected (now E) s r). cbn [fst snd db].
    apply findUnique_id_In in Hf as [_ <-].
    repeat split. exact Hf1.
Qed.

End AdminClaims.


(** ** Strings: trimming and case folding *)

Section StringFacts.

Lemma lower_char_high c : (nat_of_ascii c < 65 \/ 90 < nat_of_ascii c) -> Js.lower_char c = c.
Proof.
  unfold Js.lower_char. intros Hc.
  destruct (65 <=? nat_of_ascii c)%nat eqn:H1; [|reflexivity].
  destruct (nat_of_ascii c <=? 90)%nat eqn:H2; [|reflexivity].
  apply Nat.leb_le in H1, H2. lia.
Qed.

Lemma lower_char_space c : Js.is_space c = true -> Js.lower_char c = c.
Proof.
  unfold Js.is_space. intros Hc. apply lower_char_high.
  apply orb_true_iff in Hc as [Hc|Hc].
  - apply andb_true_iff in Hc as [_ Hc]. apply Nat.leb_le in Hc. lia.
  - apply Nat.eqb_eq in Hc. lia.
Qed.

Lemma lower_char_space2 c c1 :
  Js.is_space2 c c1 = true -> Js.lower_char c = c /\ Js.lower_char c1 = c1.
Proof.
  unfold Js.is_space2. intros Hc. apply andb_true_iff in Hc as [H1 H2].
  apply Nat.eqb_eq in H1, H2. split; apply lower_char_high; lia.
Qed.

Lemma is_space3_high c c1 c2 :
  Js.is_space3 c c1 c2 = true ->
  90 < nat_of_ascii c /\ 90 < nat_of_ascii c1 /\ 90 < nat_of_ascii c2.
Proof.
  unfold Js.is_space3. intros Hc.
  repeat match goal with
         | H : (_ || _) = true |- _ => apply orb_true_iff in H as [H|H]
         | H : (_ && _) = true |- _ =>
             let H1 := fresh in let H2 := fresh in apply andb_true_iff in H as [H1 H2]
         | H : (_ =? _)%nat = true |- _ => apply Nat.eqb_eq in H
         | H : (_ <=? _)%nat = true |- _ => apply Nat.leb_le in H
         end; lia.
Qed.

Lemma lower_char_space3 c c1 c2 :
  Js.is_space3 c c1 c2 = true ->
  Js.lower_char c = c /\ Js.lower_char c1 = c1 /\ Js.lower_char c2 = c2.
Proof.
  intros Hc. apply is_space3_high in Hc as (H & H1 & H2).
  repeat split; apply lower_char_high; lia.
Qed.


Lemma all_space_spaces s : Js.all_space s = true -> Js.spaces s.
Proof.
  remember (String.length s) as n eqn:Hn. revert s Hn.
  induction n as [n IH] using lt_wf_ind. intros s Hn Hs.
  destruct s as [|c r]; [constructor|].
  cbn [Js.all_space] in Hs. destruct (Js.is_space c) eqn:Hc.
  - constructor; [exact Hc|]. apply (IH (String.length r)); cbn in Hn; auto; lia.
  - destruct r as [|c1 r1]; [discriminate|].
    destruct (Js.is_space2 c c1) eqn:Hc1.
    + apply Js.spaces_2; auto. apply (IH (String.length r1)); cbn in Hn; auto; lia.
    + destruct r1 as [|c2 r2]; [discriminate|].
      apply andb_true_iff in Hs as [Hc2 Hs].
      apply Js.spaces_3; auto. apply (IH (String.length r2)); cbn in Hn; auto; lia.
Qed.

Lemma spaces_all_space s : Js.spaces s -> Js.all_space s = true.
Proof.
  induction 1 as [|c r Hc _ IH|c c1 r Hc Hc1 _ IH|c c1 c2 r Hc Hc1 Hc2 _ IH];
    cbn [Js.all_space]; rewrite ?Hc, ?Hc1, ?Hc2; auto.
Qed.

Lemma append_cons c s t : String c s +:+ t = String c (s +:+ t).
Proof. reflexivity. Qed.

Lemma append_nil t : EmptyString +:+ t = t.
Proof. reflexivity. Qed.

Lemma toLowerCase_space s : Js.all_space s = true -> Js.toLowerCase s = s.
Proof.
  intros Hs. apply all_space_spaces in Hs.
  induction Hs as [|c r Hc _ IH|c c1 r Hc Hc1 _ IH|c c1 c2 r Hc Hc1 Hc2 _ IH];
    cbn [Js.toLowerCase]; [reflexivity| | |].
  - now rewrite lower_char_space, IH.
  - destruct (lower_char_space2 _ _ Hc1) as [-> ->]. now rewrite IH.
  - destruct (lower_char_space3 _ _ _ Hc2) as (-> & -> & ->). now rewrite IH.
Qed.

Lemma toLowerCase_app s t :
  Js.toLowerCase (s +:+ t) = Js.toLowerCase s +:+ Js.toLowerCase t.
Proof.
  induction s as [|c s IH]; [reflexivity|].
  rewrite append_cons. cbn [Js.toLowerCase]. now rewrite IH, append_cons.
Qed.

Lemma trimStart_app_space pre s :
  Js.all_space pre = true -> Js.trimStart (pre +:+ s) = Js.trimStart s.
Proof.
  intros Hs. apply all_space_spaces in Hs.
  induction Hs as [|c r Hc _ IH|c c1 r Hc Hc1 _ IH|c c1 c2 r Hc Hc1 Hc2 _ IH];
    rewrite ?append_cons, ?append_nil; cbn [Js.trimStart];
    rewrite ?Hc, ?Hc1, ?Hc2; auto.
Qed.

Lemma all_space_app s t :
  Js.all_space s = true -> Js.all_space t = true -> Js.all_space (s +:+ t) = true.
Proof.
  intros Hs Ht. apply all_space_spaces in Hs.
  induction Hs as [|c r Hc _ IH|c c1 r Hc Hc1 _ IH|c c1 c2 r Hc Hc1 Hc2 _ IH];
    rewrite ?append_cons, ?append_nil; cbn [Js.all_space];
    rewrite ?Hc, ?Hc1, ?Hc2; auto.
Qed.

Lemma trimEnd_space post : Js.all_space post = true -> Js.trimEnd post = EmptyString.
Proof. destruct post as [|c r]; [reflexivity|]. cbn [Js.trimEnd]. now intros ->. Qed.


Lemma plain_not_space c r : Js.plain c = true -> Js.all_space (String c r) = false.
Proof.
  unfold Js.plain. intros Hc. apply andb_true_iff in Hc as [H1 H2].
  apply negb_true_iff in H1, H2. cbn [Js.all_space]. rewrite H1.
  cbn [existsb] in H2. repeat (apply orb_false_iff in H2 as [? H2]).
  destruct r as [|c1 r1]; [reflexivity|].
  assert (Hs2 : Js.is_space2 c c1 = false).
  { unfold Js.is_space2. now rewrite H. }
  rewrite Hs2. destruct r1 as [|c2 r2]; [reflexivity|].
  unfold Js.is_space3. cbv zeta. rewrite H0, H3, H4, H5. reflexivity.
Qed.

Lemma plain_trimStart c r : Js.plain c = true -> Js.trimStart (String c r) = String c r.
Proof.
  unfold Js.plain. intros Hc. apply andb_true_iff in Hc as [H1 H2].
  apply negb_true_iff in H1, H2. cbn [Js.trimStart]. rewrite H1.
  cbn [existsb] in H2. repeat (apply orb_false_iff in H2 as [? H2]).
  destruct r as [|c1 r1]; [reflexivity|].
  assert (Hs2 : Js.is_space2 c c1 = false).
  { unfold Js.is_space2. now rewrite H. }
  rewrite Hs2. destruct r1 as [|c2 r2]; [reflexivity|].
  unfold Js.is_space3. cbv zeta. rewrite H0, H3, H4, H5. reflexivity.
Qed.


Lemma trimEnd_app_space word post :
  Js.all_plain word = true -> Js.all_space post = true ->
  Js.trimEnd (word +:+ post) = word.
Proof.
  intros Hw Hp. induction word as [|c word IH].
  - rewrite append_nil. now apply trimEnd_space.
  - cbn [Js.all_plain] in Hw. apply andb_true_iff in Hw as [Hc Hw].
    rewrite append_cons. cbn [Js.trimEnd].
    rewrite (plain_not_space c _ Hc), IH by exact Hw. reflexivity.
Qed.

(** Padding a word none of whose bytes starts a white-space code point is
    undone by [trim]. *)
Lemma trim_padded pre word post :
  Js.all_space pre = true -> Js.all_space post = true ->
  Js.all_plain word = true -> word <> EmptyString ->
  Js.trim (pre +:+ word +:+ post) = word.
Proof.
  intros Hpre Hpost Hw Hne. unfold Js.trim.
  rewrite trimStart_app_space by exact Hpre.
  destruct word as [|c word]; [contradiction|].
  pose proof Hw as Hw'. cbn [Js.all_plain] in Hw'. apply andb_true_iff in Hw' as [Hc _].
  rewrite append_cons, (plain_trimStart c _ Hc), <- append_cons.
  now apply trimEnd_app_space.
Qed.

End StringFacts.

(** ** Submission and status lookup *)

Section InsuranceFacts.

Context `{Pf : Platform}.
Import Store Http Controller.

Lemma new_row_fields E b u c q rn p r :
  new_row E b u c q rn p = inr r ->
  id r = uuid E /\ userId r = u /\ status r = PENDING_VERIFICATION
  /\ premiumAmount r = Some p /\ quantity r = q /\ consent r = c.
Proof.
  unfold new_row. intros Hn.
  repeat match type of Hn with
         | bindE ?m _ = _ =>
             let x := fresh "x" in
             destruct m as [?|x] eqn:?; cbn [bindE] in Hn; [discriminate|]
         end.
  injection Hn as <-. cbn.
  unfold int_column in *. destruct (Num.isNaN q); [discriminate|].
  repeat split; congruence.
Qed.

(** A submission answered 201 passed every gate and added one row. *)
Lemma createInsuranceRequest_201 E w req resp w' :
  createInsuranceRequest E w req = (resp, w') ->
  code resp = 201%Z ->
  exists r,
    create_errors req = []
    /\ Js.truthy (b_userId (create_body req)) = true
    /\ cleanUserId req <> EmptyString
    /\ normalizeBoolean (b_consent (create_body req)) = true
    /\ findUnique_userId (db w) (cleanUserId req) = None
    /\ new_row E (create_body req) (cleanUserId req) true (qty_of req) (rateNum_of req)
         (Premium.basePremiumAmount (qty_of req) (rateNum_of req)) = inr r
    /\ w' = {| db := db w ++ [r]; fs := fs w; outbox := outbox w |}
    /\ resp = {| code := 201; success := true;
                 message := Some "Insurance request created successfully. Awaiting admin verification.";
                 data := Created (id r) (userId r) (vehicleNo r) (itemName r)
                           (quantity r) (status r) (createdAt r) |}.
Proof.
  unfold createInsuranceRequest, cleanUserId, qty_of, rateNum_of.
  intros Hc Hcode.
  destruct (create_errors req) as [|e es]; [|injection Hc as <- <-; discriminate].
  destruct (Js.truthy (b_userId (create_body req))); cbn [negb] in Hc;
    [|injection Hc as <- <-; discriminate].
  destruct (String.eqb _ EmptyString) eqn:Hclean in Hc;
    [injection Hc as <- <-; discriminate|].
  destruct (normalizeBoolean (b_consent (create_body req))) eqn:Hcons;
    cbn [negb] in Hc; [|injection Hc as <- <-; discriminate].
  destruct (findUnique_userId (db w) _) as [existing|] eqn:Hfind in Hc;
    [injection Hc as <- <-; discriminate|].
  destruct (new_row E _ _ _ _ _ _) as [e|r] eqn:Hrow in Hc; cbn [bindE] in Hc.
  { destruct e; injection Hc as <- <-; discriminate. }
  destruct (create (db w) r) as [e|t] eqn:Hcr in Hc; cbn [bindE] in Hc.
  { destruct e; injection Hc as <- <-; discriminate. }
  injection Hc as <- <-.
  unfold create in Hcr.
  destruct (findUnique_userId (db w) (userId r)); [discriminate|].
  destruct (findUnique_id (db w) (id r)); [discriminate|].
  injection Hcr as <-.
  exists r. apply String.eqb_neq in Hclean. repeat split; auto.
Qed.

(** A submission whose submitter already has a row changes nothing, and is
    answered 409 with that row's identifier and status once it has passed
    the gates before the lookup. *)
Lemma createInsuranceRequest_existing E w req r :
  findUnique_userId (db w) (cleanUserId req) = Some r ->
  snd (createInsuranceRequest E w req) = w
  /\ (create_errors req = [] ->
      Js.truthy (b_userId (create_body req)) = true ->
      cleanUserId req <> EmptyString ->
      normalizeBoolean (b_consent (create_body req)) = true ->
      fst (createInsuranceRequest E w req)
      = {| code := 409; success := false;
           message := Some "Request with this User ID already exists";
           data := Existing (id r) (status r) |}).
Proof.
  unfold createInsuranceRequest, cleanUserId. intros Hf. split.
  - destruct (create_errors req); [|reflexivity].
    destruct (Js.truthy _); cbn [negb]; [|reflexivity].
    destruct (String.eqb _ EmptyString); [reflexivity|].
    destruct (normalizeBoolean _); cbn [negb]; [|reflexivity].
    now rewrite Hf.
  - intros -> -> Hne ->. cbn [negb].
    apply String.eqb_neq in Hne. now rewrite Hne, Hf.
Qed.

End InsuranceFacts.

Section InsuranceClaims.

Context `{Pf : Platform}.
Import Store Http Controller.

(** C2. A submission that is answered 201, with a quantity that parses to a
    finite number of at least 1 and a rate that is absent or parses to a
    number of at least 0, stores as premium
    min(quantity * rate * 0.002, 99999999.99), the rate being 0 when it is
    absent, and the stored premium is at least 0. *)
Theorem creation_premium (E : Env) (w : World) (req : CreateRequest)
    (resp : Response) (w' : World) :
  createInsuranceRequest E w req = (resp, w') ->
  code resp = 201%Z ->
  let quantity := parseInt (b_quantity (create_body req)) in
  let rate := if Js.truthy (b_rate (create_body req))
              then parseFloat (b_rate (create_body req)) else 0%float in
  Num.finite_ge_one quantity = true ->
  (Js.truthy (b_rate (create_body req)) = true -> Num.nonneg rate = true) ->
  exists r p,
    db w' = db w ++ [r]
    /\ premiumAmount r = Some p
    /\ p = Num.Math_min (quantity * rate * 0.002) 99999999.99
    /\ (b_rate (create_body req) = Js.Undefined ->
        p = Num.Math_min (quantity * 0 * 0.002) 99999999.99)
    /\ Num.nonneg p = true.
Proof.
  intros Hc Hcode quantity rate Hq Hr.
  destruct (createInsuranceRequest_201 E w req resp w' Hc Hcode)
    as (r & _ & _ & _ & _ & _ & Hrow & -> & _).
  apply new_row_fields in Hrow as (_ & _ & _ & Hp & _).
  fold quantity rate in Hp. unfold qty_of, rateNum_of in Hp.
  fold quantity rate in Hp.
  exists r, (Premium.basePremiumAmount quantity rate).
  split; [reflexivity|]. split; [exact Hp|].
  split; [apply basePremiumAmount_formula|]. split.
  - intros Hu. rewrite basePremiumAmount_formula. unfold Premium.premium_formula.
    subst rate. rewrite Hu. reflexivity.
  - apply basePremiumAmount_nonneg; [exact Hq|].
    subst rate. destruct (Js.truthy (b_rate (create_body req))); auto.
Qed.

(** C4. After a submission that was answered 201, the table holds exactly
    one row of its normalized submitter identifier; a second submission with
    the same normalized identifier leaves the world as it is, and, once it
    passes validation, carries an identifier and grants consent, it is
    answered 409 with the identifier and the status of the first request. *)
Theorem duplicate_submission_is_refused (E1 E2 : Env) (w : World)
    (req1 req2 : CreateRequest) (resp1 : Response) (w1 : World) :
  createInsuranceRequest E1 w req1 = (resp1, w1) ->
  code resp1 = 201%Z ->
  cleanUserId req2 = cleanUserId req1 ->
  exists r1,
    db w1 = db w ++ [r1]
    /\ id r1 = uuid E1
    /\ count_userId (db w1) (cleanUserId req1) = 1
    /\ snd (createInsuranceRequest E2 w1 req2) = w1
    /\ count_userId (db (snd (createInsuranceRequest E2 w1 req2))) (cleanUserId req1) = 1
    /\ (create_errors req2 = [] ->
        Js.truthy (b_userId (create_body req2)) = true ->
        normalizeBoolean (b_consent (create_body req2)) = true ->
        fst (createInsuranceRequest E2 w1 req2)
        = {| code := 409; success := false;
             message := Some "Request with this User ID already exists";
             data := Existing (id r1) (status r1) |}).
Proof.
  intros Hc Hcode Hsame.
  destruct (createInsuranceRequest_201 E1 w req1 resp1 w1 Hc Hcode)
    as (r1 & _ & _ & Hne & _ & Hnone & Hrow & -> & _).
  apply new_row_fields in Hrow as (Hid & Hu & _).
  assert (Hfind : findUnique_userId (db w ++ [r1]) (cleanUserId req2) = Some r1).
  { rewrite Hsame, <- Hu. apply findUnique_userId_app_new. now rewrite Hu. }
  assert (Hcount : count_userId (db w ++ [r1]) (cleanUserId req1) = 1).
  { rewrite count_userId_app, (count_userId_zero _ _ Hnone).
    unfold count_userId. cbn. rewrite Hu, String.eqb_refl. reflexivity. }
  destruct (createInsuranceRequest_existing E2
              {| db := db w ++ [r1]; fs := fs w; outbox := outbox w |} req2 r1 Hfind)
    as [Hsnd Hfst].
  exists r1. cbn [db]. repeat split; auto.
  - now rewrite Hsnd.
  - intros He Ht Hcons. apply Hfst; auto. now rewrite Hsame.
Qed.

(** C7. Consent. The strings "TRUE", "yes" and "1" and the boolean true
    are read as granted, as is any of the words true, yes and 1 in any
    letter case and with any white space around it; "no", "0", the boolean
    false and an absent consent are read as withheld. A submission whose
    consent is read as withheld is answered 400 and leaves the world as it
    is, with the message "User consent is required to proceed" once it has
    passed the gates before consent. A submission whose consent is read as
    granted and that has passed these gates is never answered 400; when
    its submitter has no row yet, the generated identifier is free, the
    timestamp is a valid date and the store takes the row, it is answered
    201 and the row is stored with consent true. *)
Theorem consent_gate :
  (normalizeBoolean (Js.Str "TRUE") = true
   /\ normalizeBoolean (Js.Str "yes") = true
   /\ normalizeBoolean (Js.Str "1") = true
   /\ normalizeBoolean (Js.Bool true) = true)
  /\ (forall pre word post,
        Js.all_space pre = true -> Js.all_space post = true ->
        Js.toLowerCase word = "true" \/ Js.toLowerCase word = "yes"
        \/ Js.toLowerCase word = "1" ->
        normalizeBoolean (Js.Str (pre +:+ word +:+ post)) = true)
  /\ (normalizeBoolean (Js.Str "no") = false
      /\ normalizeBoolean (Js.Str "0") = false
      /\ normalizeBoolean (Js.Bool false) = false
      /\ normalizeBoolean Js.Undefined = false)
  /\ (forall E w req,
        normalizeBoolean (b_consent (create_body req)) = false ->
        code (fst (createInsuranceRequest E w req)) = 400%Z
        /\ success (fst (createInsuranceRequest E w req)) = false
        /\ snd (createInsuranceRequest E w req) = w
        /\ (create_errors req = [] ->
            Js.truthy (b_userId (create_body req)) = true ->
            cleanUserId req <> EmptyString ->
            fst (createInsuranceRequest E w req)
            = fail 400 "User consent is required to proceed"))
  /\ (forall E w req,
        normalizeBoolean (b_consent (create_body req)) = true ->
        create_errors req = [] ->
        Js.truthy (b_userId (create_body req)) = true ->
        cleanUserId req <> EmptyString ->
        code (fst (createInsuranceRequest E w req)) <> 400%Z
        /\ (forall r,
              findUnique_userId (db w) (cleanUserId req) = None ->
              findUnique_id (db w) (uuid E) = None ->
              Js.valid_time (normalizeTimestamp E (b_timestamp (create_body req)))
              = true ->
              new_row E (create_body req) (cleanUserId req) true (qty_of req)
                (rateNum_of req)
                (Premium.basePremiumAmount (qty_of req) (rateNum_of req)) = inr r ->
              createInsuranceRequest E w req
              = ({| code := 201; success := true;
                    message := Some "Insurance request created successfully. Awaiting admin verification.";
                    data := Created (id r) (userId r) (vehicleNo r) (itemName r)
                              (quantity r) (status r) (createdAt r) |},
                 {| db := db w ++ [r]; fs := fs w; outbox := outbox w |})
              /\ consent r = true)).
Proof.
  split; [repeat split|]. split; [|split; [repeat split|split]].
  - intros pre word post Hpre Hpost Hword.
    cbn [normalizeBoolean String_].
    rewrite !toLowerCase_app, (toLowerCase_space pre Hpre),
      (toLowerCase_space post Hpost).
    destruct Hword as [->|[->| ->]];
      rewrite trim_padded by (auto; discriminate); reflexivity.
  - intros E w req Hcons. unfold createInsuranceRequest, cleanUserId.
    destruct (create_errors req) eqn:He.
    2:{ cbn. repeat split. discriminate. }
    destruct (Js.truthy _) eqn:Ht; cbn [negb].
    2:{ cbn. repeat split. discriminate. }
    destruct (String.eqb _ EmptyString) eqn:Hd.
    { cbn. repeat split. intros _ _ Hne. apply String.eqb_eq in Hd. contradiction. }
    rewrite Hcons. cbn. repeat split.
  - intros E w req Hcons He Ht Hne.
    unfold createInsuranceRequest, cleanUserId, qty_of, rateNum_of in *.
    rewrite He, Ht. cbn [negb]. apply String.eqb_neq in Hne. rewrite Hne, Hcons.
    cbn [negb]. split.
    + destruct (findUnique_userId (db w) _); [cbn; discriminate|].
      destruct (new_row E _ _ _ _ _ _) as [e|r]; cbn [bindE].
      { destruct e; cbn; discriminate. }
      destruct (create (db w) r) as [e|t]; cbn [bindE];
        [destruct e|]; cbn; discriminate.
    + intros r Hu Hi _ Hrow. rewrite Hu, Hrow. cbn [bindE].
      apply new_row_fields in Hrow as (Hid & Huid & _ & _ & _ & Hc).
      unfold create. rewrite Huid, Hid, Hu, Hi. cbn [bindE].
      rewrite <- Huid, <- Hid. auto.
Qed.

(** X4. Whatever happened to a request since it was submitted, a further
    valid submission of the same submitter is answered 409 with the
    identifier and the status the stored row has now, and writes nothing. *)
Theorem resubmission_reports_current_status (E : Env) (w : World)
    (req : CreateRequest) (r : Row) :
  findUnique_userId (db w) (cleanUserId req) = Some r ->
  create_errors req = [] ->
  Js.truthy (b_userId (create_body req)) = true ->
  cleanUserId req <> EmptyString ->
  normalizeBoolean (b_consent (create_body req)) = true ->
  createInsuranceRequest E w req
  = ({| code := 409; success := false;
        message := Some "Request with this User ID already exists";
        data := Existing (id r) (status r) |}, w).
Proof.
  intros Hf He Ht Hne Hc.
  destruct (createInsuranceRequest_existing E w req r Hf) as [Hsnd Hfst].
  rewrite (surjective_pairing (createInsuranceRequest E w req)).
  now rewrite Hsnd, (Hfst He Ht Hne Hc).
Qed.

End InsuranceClaims.

(** ** The invoice renderer *)

Section InvoiceFacts.

Context `{Pf : Platform}.
Import Store Invoice.

Lemma existsSync_false (f : gmap string file) p : f !! p = None -> existsSync f p = false.
Proof.
  intros Hp. unfold existsSync. apply bool_decide_eq_false.
  rewrite Hp. intros [x Hx]. discriminate.
Qed.

Lemma ensureDir_lookup_other dir (f : gmap string file) p :
  p <> dir -> ensureDir dir f !! p = f !! p.
Proof.
  intros Hne. unfold ensureDir. destruct (existsSync f dir); [reflexivity|].
  now rewrite lookup_insert_ne.
Qed.


(** When the unlink throws, cleaning changes nothing. *)
Lemma cleanup_kept E o (f : gmap string file) :
  unlink_ok E = false -> cleanup E o f = f.
Proof.
  intros Hok. unfold cleanup, cleanupTempImage. rewrite Hok.
  destruct o as [p|]; [|reflexivity].
  destruct (String.eqb p EmptyString); [reflexivity|].
  now destruct (negb false && existsSync f p).
Qed.

Lemma bind_ok {A B} (m : Pdf A) (k : A -> Pdf B) d d' a :
  m d = (d', Some a) -> bind m k d = k a d'.
Proof. intros Hm. unfold bind. now rewrite Hm. Qed.

Lemma bind_assoc {A B C} (m : Pdf A) (k : A -> Pdf B) (k' : B -> Pdf C) d :
  bind (bind m k) k' d = bind m (fun a => bind (k a) k') d.
Proof. unfold bind. destruct (m d) as [d' [a|]]; reflexivity. Qed.

Lemma bind_ret {A B} (a : A) (k : A -> Pdf B) d : bind (ret a) k d = k a d.
Proof. reflexivity. Qed.

Lemma text_ok E s d :
  pdf_fault E = None ->
  text E s d = ({| ops := ops d ++ [Text s]; calls := S (calls d) |}, Some tt).
Proof. intros Hf. unfold text. now rewrite Hf. Qed.

Lemma texts_ok E l d :
  pdf_fault E = None ->
  texts E l d
  = ({| ops := ops d ++ List.map Text l; calls := calls d + length l |}, Some tt).
Proof.
  intros Hf. revert d. induction l as [|s l IH]; intros d; cbn [texts].
  - unfold ret. cbn. rewrite app_nil_r, Nat.add_0_r. now destruct d.
  - rewrite (bind_ok _ _ _ _ _ (text_ok E s d Hf)), IH. cbn.
    rewrite <- app_assoc. cbn. do 2 f_equal. f_equal. lia.
Qed.

Lemma try_local_none E (f : gmap string file) paths d :
  (forall p, In p paths -> f !! p = None) ->
  try_local E f paths d = (d, Some false).
Proof.
  induction paths as [|p paths IH]; intros Hp; cbn [try_local]; [reflexivity|].
  rewrite existsSync_false by (apply Hp; now left).
  apply IH. intros q Hq. apply Hp. now right.
Qed.

(** With no downloaded image and no local image the drawing code writes
    text only, the placeholder included. *)
Lemma draw_placeholder E (f : gmap string file) request inv prem :
  pdf_fault E = None ->
  (forall p, In p (possibleImagePaths request) -> f !! p = None) ->
  draw E f request inv prem None {| ops := []; calls := 0 |}
  = ({| ops := List.map Text (headLines E request inv prem
                               ++ ["Weightment Slip"; PLACEHOLDER] ++ termLines);
        calls := length (headLines E request inv prem) + 2 + length termLines |},
     Some tt).
Proof.
  intros Hf Hp. unfold draw.
  rewrite (bind_ok _ _ _ _ _ (texts_ok E _ _ Hf)).
  unfold weightmentSlip.
  rewrite bind_assoc, (bind_ok _ _ _ _ _ (text_ok E _ _ Hf)).
  rewrite bind_assoc, bind_ret. cbv beta iota.
  rewrite bind_assoc, (bind_ok _ _ _ _ _ (try_local_none E f _ _ Hp)).
  cbv beta iota.
  rewrite (bind_ok _ _ _ _ _ (text_ok E _ _ Hf)).
  rewrite texts_ok by exact Hf.
  cbn [ops calls app].
  rewrite !map_app. cbn [List.map]. rewrite <- !app_assoc. cbn [app].
  f_equal.
Qed.

End InvoiceFacts.

Section InvoiceClaims.

Context `{Pf : Platform}.
Import Store Invoice.

(** X1. A render for which no remote image is available (the request has no
    image URL, or one that is not an HTTP URL, or the HTTP request of the
    download fails) and none of the local fallback paths exists resolves
    with the file name, provided the drawing calls and the output stream do
    not fail: the document it writes consists of text only and contains the
    placeholder "CUSTOMER WILL UPDATE TOMORROW". *)
Theorem placeholder_when_no_image (E : Env) (f : gmap string file) (request : Row)
    (invoiceNumber : string) (premiumAmount : float) :
  (kantaParchiImage request = None
   \/ (exists url, kantaParchiImage request = Some url
                   /\ String.prefix "http" url = false)
   \/ (exists url, kantaParchiImage request = Some url /\ http E = HttpFail)) ->
  (forall p, In p (possibleImagePaths request) ->
             f !! p = None /\ p <> INVOICES_DIR /\ p <> TEMP_DIR) ->
  pdf_fault E = None ->
  pdf_event E = StreamFinish ->
  exists f' lines,
    generateInvoicePdf E f request invoiceNumber premiumAmount
    = (Resolved (invoiceNumber +:+ ".pdf"), f')
    /\ f' !! path_join INVOICES_DIR (invoiceNumber +:+ ".pdf")
       = Some (PdfFile (List.map Text lines))
    /\ In PLACEHOLDER lines.
Proof.
  intros Himg Hpaths Hfault Hevent. unfold generateInvoicePdf.
  assert (Hdl : exists f1,
             match kantaParchiImage request with
             | Some url =>
                 if String.eqb url EmptyString
                 then (Resolved None, ensureInvoicesDir f)
                 else downloadImageFromUrl E (ensureInvoicesDir f) url
             | None => (Resolved None, ensureInvoicesDir f)
             end = (Resolved None, f1)
             /\ forall p, In p (possibleImagePaths request) -> f1 !! p = None).
  { assert (H0 : forall p, In p (possibleImagePaths request) ->
                           ensureInvoicesDir f !! p = None).
    { intros p Hp. destruct (Hpaths p Hp) as (Hn & Hi & _).
      unfold ensureInvoicesDir. now rewrite ensureDir_lookup_other. }
    assert (H1 : forall p, In p (possibleImagePaths request) ->
                           ensureDir TEMP_DIR (ensureInvoicesDir f) !! p = None).
    { intros p Hp. destruct (Hpaths p Hp) as (_ & _ & Ht).
      rewrite ensureDir_lookup_other by exact Ht. now apply H0. }
    destruct Himg as [->|[(url & -> & Hpre)|(url & -> & Hhttp)]].
    - eauto.
    - destruct (String.eqb url EmptyString); [eauto|].
      unfold downloadImageFromUrl. rewrite Hpre, orb_true_r. eauto.
    - destruct (String.eqb url EmptyString) eqn:Hu; [eauto|].
      unfold downloadImageFromUrl.
      destruct (String.prefix "http" url); cbn [negb orb]; rewrite ?Hu; cbn [orb];
        [rewrite Hhttp|]; eauto. }
  destruct Hdl as (f1 & -> & Hf1).
  rewrite (draw_placeholder E f1 request invoiceNumber premiumAmount Hfault Hf1).
  unfold on_event. rewrite Hevent. cbn [cleanup ops].
  eexists _, _. split; [reflexivity|]. split.
  - apply lookup_insert_eq.
  - apply in_or_app. right. right. now left.
Qed.


(** C8, on the code. When the HTTP request of the download succeeds and
    the write stream of the temporary file emits ['error'], the rejection
    of the un-awaited promise leaves [downloadImageFromUrl], and the render
    rejects before it draws anything: no document is written, with or
    without a placeholder. *)
Theorem render_rejects_when_temp_write_fails (E : Env) (f : gmap string file)
    (request : Row) (invoiceNumber : string) (premiumAmount : float)
    (url : string) (partial : bool) :
  kantaParchiImage request = Some url ->
  String.prefix "http" url = true ->
  http E = HttpOk (WriterError partial) ->
  let tmp := path_join TEMP_DIR
               ("kanta_" +:+ Number_toString (now E) +:+ "_" +:+ random E +:+ ".jpg") in
  let f1 := ensureDir TEMP_DIR (ensureInvoicesDir f) in
  generateInvoicePdf E f request invoiceNumber premiumAmount
  = (Rejected, if partial then <[tmp := ImageBytes]> f1 else f1).
Proof.
  intros Hk Hpre Hhttp tmp f1.
  assert (Hu : String.eqb url EmptyString = false).
  { destruct url; [discriminate Hpre | reflexivity]. }
  unfold generateInvoicePdf, downloadImageFromUrl.
  rewrite Hk, Hu, Hpre, Hhttp. reflexivity.
Qed.

End InvoiceClaims.

(** ** The statements above on the demo platform *)

Section Witnesses.

Import Store Http Controller Invoice.
#[local] Existing Instance Demo.platform.

Lemma terminal_states_are_never_exited_witness :
  findUnique_id (db Demo.approved_world) "req-1" = Some Demo.approved_row
  /\ status Demo.approved_row <> PENDING_VERIFICATION
  /\ (forall adminNotes,
        approveRequest Demo.env Demo.approved_world "req-1" adminNotes
        = (already Demo.approved_row, Demo.approved_world))
  /\ (forall reason, Js.truthy reason = true ->
        rejectRequest Demo.env Demo.approved_world "req-1" reason
        = (already Demo.approved_row, Demo.approved_world))
  /\ (forall reason,
        code (fst (rejectRequest Demo.env Demo.approved_world "req-1" reason)) = 400%Z
        /\ success (fst (rejectRequest Demo.env Demo.approved_world "req-1" reason)) = false
        /\ snd (rejectRequest Demo.env Demo.approved_world "req-1" reason)
           = Demo.approved_world).
Proof.
  split; [reflexivity|]. split; [discriminate|].
  apply (terminal_states_are_never_exited (Pf := Demo.platform) Demo.env
           Demo.approved_world "req-1" Demo.approved_row);
    [reflexivity | discriminate].
Defined.

Lemma creation_premium_witness :
  code (fst Demo.first_submission) = 201%Z
  /\ Num.finite_ge_one (parseInt (Js.Str "45")) = true
  /\ Num.nonneg (parseFloat (Js.Str "98.50")) = true
  /\ exists r p,
       db (snd Demo.first_submission) = [] ++ [r]
       /\ premiumAmount r = Some p
       /\ p = Num.Math_min (45 * 98.5 * 0.002) 99999999.99
       /\ (Js.Str "98.50" = Js.Undefined ->
           p = Num.Math_min (45 * 0 * 0.002) 99999999.99)
       /\ Num.nonneg p = true.
Proof.
  split; [reflexivity|]. split; [reflexivity|]. split; [reflexivity|].
  apply (creation_premium (Pf := Demo.platform) Demo.env Demo.empty_world
           (Demo.submission (Js.Str "+91 62094-15125") (Js.Str "yes"))
           (fst Demo.first_submission) (snd Demo.first_submission));
    [reflexivity | reflexivity | reflexivity | intros _; reflexivity].
Defined.

Lemma duplicate_submission_is_refused_witness :
  code (fst Demo.first_submission) = 201%Z
  /\ cleanUserId (Demo.submission (Js.Str "916209415125") (Js.Str "TRUE"))
     = cleanUserId (Demo.submission (Js.Str "+91 62094-15125") (Js.Str "yes"))
  /\ exists r1,
       db (snd Demo.first_submission) = [] ++ [r1]
       /\ id r1 = "req-1"
       /\ count_userId (db (snd Demo.first_submission)) "916209415125" = 1
       /\ snd (createInsuranceRequest Demo.env (snd Demo.first_submission)
                 (Demo.submission (Js.Str "916209415125") (Js.Str "TRUE")))
          = snd Demo.first_submission
       /\ count_userId
            (db (snd (createInsuranceRequest Demo.env (snd Demo.first_submission)
                        (Demo.submission (Js.Str "916209415125") (Js.Str "TRUE")))))
            "916209415125" = 1
       /\ (create_errors (Demo.submission (Js.Str "916209415125") (Js.Str "TRUE")) = [] ->
           Js.truthy (Js.Str "916209415125") = true ->
           normalizeBoolean (Js.Str "TRUE") = true ->
           fst (createInsuranceRequest Demo.env (snd Demo.first_submission)
                  (Demo.submission (Js.Str "916209415125") (Js.Str "TRUE")))
           = {| code := 409; success := false;
                message := Some "Request with this User ID already exists";
                data := Existing (id r1) (status r1) |}).
Proof.
  split; [reflexivity|]. split; [reflexivity|].
  apply (duplicate_submission_is_refused (Pf := Demo.platform) Demo.env Demo.env
           Demo.empty_world
           (Demo.submission (Js.Str "+91 62094-15125") (Js.Str "yes"))
           (Demo.submission (Js.Str "916209415125") (Js.Str "TRUE"))
           (fst Demo.first_submission) (snd Demo.first_submission));
    reflexivity.
Defined.

Lemma consent_gate_witness :
  normalizeBoolean (Js.Str (Demo.nbsp +:+ "Yes" +:+ " ")) = true
  /\ normalizeBoolean (Js.Str "no") = false
  /\ fst (createInsuranceRequest Demo.env Demo.empty_world
            (Demo.submission (Js.Str "916209415125") (Js.Str "no")))
     = fail 400 "User consent is required to proceed"
  /\ snd (createInsuranceRequest Demo.env Demo.empty_world
            (Demo.submission (Js.Str "916209415125") (Js.Str "no")))
     = Demo.empty_world
  /\ createInsuranceRequest Demo.env Demo.empty_world
       (Demo.submission (Js.Str "+91 62094-15125") (Js.Str (Demo.nbsp +:+ "yes")))
     = ({| code := 201; success := true;
           message := Some "Insurance request created successfully. Awaiting admin verification.";
           data := Created "req-1" "916209415125" "KA01AB1234" "Tender Coconut"
                     45 PENDING_VERIFICATION 1767225600000 |},
        {| db := [] ++ [Demo.pending_row]; fs := ∅; outbox := [] |})
  /\ consent Demo.pending_row = true.
Proof.
  destruct (consent_gate (Pf := Demo.platform))
    as (_ & Hpad & (Hno & _) & Hwithheld & Hgranted).
  split; [apply (Hpad Demo.nbsp "Yes" " "); [reflexivity | reflexivity | right; left; reflexivity]|].
  split; [exact Hno|].
  destruct (Hwithheld Demo.env Demo.empty_world
              (Demo.submission (Js.Str "916209415125") (Js.Str "no")) Hno)
    as (_ & _ & Hworld & Hmsg).
  split; [apply Hmsg; [reflexivity | reflexivity | discriminate]|].
  split; [exact Hworld|].
  destruct (Hgranted Demo.env Demo.empty_world
              (Demo.submission (Js.Str "+91 62094-15125")
                 (Js.Str (Demo.nbsp +:+ "yes"))))
    as (_ & Hcreated); [reflexivity | reflexivity | reflexivity | discriminate |].
  apply (Hcreated Demo.pending_row); reflexivity.
Defined.



Lemma render_rejects_when_temp_write_fails_witness :
  kantaParchiImage Demo.remote_image_row = Some "https://cdn.example.com/slip.jpg"
  /\ String.prefix "http" "https://cdn.example.com/slip.jpg" = true
  /\ http Demo.env_writer_error = HttpOk (WriterError true)
  /\ generateInvoicePdf Demo.env_writer_error ∅ Demo.remote_image_row
       "INV1767225600000" 8.865
     = (Rejected,
        <["temp/kanta_1767225600000_k3x9a.jpg" := ImageBytes]>
          (ensureDir TEMP_DIR (ensureInvoicesDir ∅))).
Proof.
  split; [reflexivity|]. split; [reflexivity|]. split; [reflexivity|].
  apply (render_rejects_when_temp_write_fails (Pf := Demo.platform)
           Demo.env_writer_error ∅ Demo.remote_image_row "INV1767225600000" 8.865
           "https://cdn.example.com/slip.jpg" true);
    reflexivity.
Defined.

Lemma approval_finalizes_request_witness :
  findUnique_id (db Demo.pending_world) "req-1" = Some Demo.pending_row
  /\ status Demo.pending_row = PENDING_VERIFICATION
  /\ exists resp w' r',
       approveRequest Demo.env Demo.pending_world "req-1" Js.Undefined = (resp, w')
       /\ code resp = 200%Z /\ success resp = true
       /\ findUnique_id (db w') "req-1" = Some r'
       /\ status r' = APPROVED
       /\ paymentStatus r' = Some "PENDING"
       /\ invoiceNumber r' = Some "INV1767225600000"
       /\ paymentLink r' = Some "https://razorpay.me/temp-link-INV1767225600000"
       /\ premiumAmount r'
          = Some (Num.Math_min (Premium.basePremiumAmount 45 98.5) 99999999.99)
       /\ (99999999.99
           <? Num.Math_min (Premium.basePremiumAmount 45 98.5) 99999999.99)%float = false.
Proof.
  split; [reflexivity|]. split; [reflexivity|].
  apply (approval_finalizes_request (Pf := Demo.platform) Demo.env Demo.pending_world "req-1"
           Demo.pending_row Js.Undefined); reflexivity.
Defined.

Lemma rejection_surfaces_notifier_failure_witness :
  findUnique_id (db Demo.pending_world) "req-1" = Some Demo.pending_row
  /\ status Demo.pending_row = PENDING_VERIFICATION
  /\ "Documents are incomplete" <> EmptyString
  /\ notify_ok Demo.env_notifier_down = false
  /\ exists w' r',
       rejectRequest Demo.env_notifier_down Demo.pending_world "req-1"
         (Js.Str "Documents are incomplete")
       = (fail 500 "Failed to reject request", w')
       /\ findUnique_id (db w') "req-1" = Some r'
       /\ status r' = REJECTED
       /\ rejectionReason r' = Some "Documents are incomplete".
Proof.
  split; [reflexivity|]. split; [reflexivity|]. split; [discriminate|].
  split; [reflexivity|].
  apply (rejection_surfaces_notifier_failure Demo.env_notifier_down
           Demo.pending_world "req-1" Demo.pending_row "Documents are incomplete");
    [reflexivity | reflexivity | discriminate | reflexivity].
Defined.

Lemma short_reason_is_not_refused_witness :
  findUnique_id (db Demo.pending_world) "req-1" = Some Demo.pending_row
  /\ status Demo.pending_row = PENDING_VERIFICATION
  /\ "bad" <> EmptyString
  /\ (String.length "bad" < 10)%nat
  /\ notify_ok Demo.env = true
  /\ Validation.validateRejection (Js.Str "bad")
     = ["Rejection reason must be at least 10 characters"]
  /\ exists w' r',
       fst (Route.reject Demo.env Demo.pending_world "req-1" (Js.Str "bad"))
       = {| code := 200; success := true;
            message := Some "Request rejected successfully";
            data := Rejection "req-1" REJECTED (Some "bad") |}
       /\ snd (Route.reject Demo.env Demo.pending_world "req-1" (Js.Str "bad")) = w'
       /\ findUnique_id (db w') "req-1" = Some r'
       /\ status r' = REJECTED
       /\ rejectionReason r' = Some "bad".
Proof.
  split; [reflexivity|]. split; [reflexivity|]. split; [discriminate|].
  split; [cbn; lia|]. split; [reflexivity|].
  apply (short_reason_is_not_refused (Pf := Demo.platform) Demo.env Demo.pending_world "req-1"
           Demo.pending_row "bad");
    [reflexivity | reflexivity | discriminate | cbn; lia | reflexivity].
Defined.

Lemma resubmission_reports_current_status_witness :
  findUnique_userId (db Demo.approved_world)
    (cleanUserId (Demo.submission (Js.Str "+91 62094-15125") (Js.Str "yes")))
  = Some Demo.approved_row
  /\ createInsuranceRequest Demo.env Demo.approved_world
       (Demo.submission (Js.Str "+91 62094-15125") (Js.Str "yes"))
     = ({| code := 409; success := false;
           message := Some "Request with this User ID already exists";
           data := Existing "req-1" APPROVED |}, Demo.approved_world).
Proof.
  split; [reflexivity|].
  apply (resubmission_reports_current_status (Pf := Demo.platform) Demo.env
           Demo.approved_world
           (Demo.submission (Js.Str "+91 62094-15125") (Js.Str "yes"))
           Demo.approved_row);
    [reflexivity | reflexivity | reflexivity | discriminate | reflexivity].
Defined.

Lemma placeholder_when_no_image_witness :
  (kantaParchiImage Demo.remote_image_row = None
   \/ (exists url, kantaParchiImage Demo.remote_image_row = Some url
                   /\ String.prefix "http" url = false)
   \/ (exists url, kantaParchiImage Demo.remote_image_row = Some url
                   /\ http Demo.env_http_down = HttpFail))
  /\ pdf_fault Demo.env_http_down = None
  /\ pdf_event Demo.env_http_down = StreamFinish
  /\ exists f' lines,
       generateInvoicePdf Demo.env_http_down ∅ Demo.remote_image_row
         "INV1767225600000" 8.865
       = (Resolved "INV1767225600000.pdf", f')
       /\ f' !! "invoices/INV1767225600000.pdf" = Some (PdfFile (List.map Text lines))
       /\ In PLACEHOLDER lines.
Proof.
  assert (Himg : kantaParchiImage Demo.remote_image_row = None
                 \/ (exists url, kantaParchiImage Demo.remote_image_row = Some url
                                 /\ String.prefix "http" url = false)
                 \/ (exists url, kantaParchiImage Demo.remote_image_row = Some url
                                 /\ http Demo.env_http_down = HttpFail)).
  { right. right. exists "https://cdn.example.com/slip.jpg". split; reflexivity. }
  split; [exact Himg|]. split; [reflexivity|]. split; [reflexivity|].
  apply (placeholder_when_no_image (Pf := Demo.platform) Demo.env_http_down ∅
           Demo.remote_image_row "INV1767225600000" 8.865 Himg);
    [| reflexivity | reflexivity].
  intros p Hp. cbn in Hp.
  repeat (destruct Hp as [<-|Hp];
          [split; [apply lookup_empty | split; discriminate] |]).
  contradiction.
Defined.

Lemma approveRequest_isolates_side_effects_witness :
  findUnique_id (db Demo.pending_world) "req-1" = Some Demo.pending_row
  /\ status Demo.pending_row = PENDING_VERIFICATION
  /\ code (fst (approveRequest Demo.env_notifier_down Demo.pending_world "req-1"
                  Js.Undefined)) = 200%Z
  /\ success (fst (approveRequest Demo.env_notifier_down Demo.pending_world "req-1"
                     Js.Undefined)) = true
  /\ exists r',
       findUnique_id
         (db (snd (approveRequest Demo.env_notifier_down Demo.pending_world "req-1"
                     Js.Undefined))) "req-1" = Some r'
       /\ status r' = APPROVED.
Proof.
  split; [reflexivity|]. split; [reflexivity|].
  apply (approveRequest_isolates_side_effects (Pf := Demo.platform)
           Demo.env_notifier_down Demo.pending_world "req-1" Demo.pending_row
           Js.Undefined);
    reflexivity.
Defined.

Lemma rejectRequest_without_reason_witness :
  Js.truthy Js.Undefined = false
  /\ rejectRequest Demo.env Demo.pending_world "req-1" Js.Undefined
     = (fail 400 "Rejection reason is required", Demo.pending_world).
Proof.
  split; [reflexivity|].
  apply (rejectRequest_without_reason Demo.env Demo.pending_world "req-1" Js.Undefined).
  reflexivity.
Defined.

End Witnesses.

(** ** Worked examples *)

Section Examples.

Import Store Http Controller Invoice.
#[local] Existing Instance Demo.platform.

(** 45 units at 98.50: a total of 4432.50 and a premium of 8.865, which
    prints as 8.87 with two decimals. *)
Example premium_of_the_design_document :
  Premium.basePremiumAmount 45 98.5 = 8.8650000000000002%float.
Proof. reflexivity. Qed.

(** A product beyond the ceiling is stored as the ceiling. *)
Example premium_is_capped :
  Premium.basePremiumAmount 1000000 1000000 = 99999999.99%float.
Proof. reflexivity. Qed.

(** A negative rate passes the validation of the route and gives a
    negative premium: the sign of the premium rests on the rate. *)
Example premium_of_a_negative_rate :
  Premium.basePremiumAmount 45 (-98.5) = (-8.8650000000000002)%float.
Proof. reflexivity. Qed.

(** The approval goes through when the renderer rejects and the messaging
    service is down; the row carries no document link then. *)
Example approval_with_failing_services :
  let E := {| now := now Demo.env; uuid := uuid Demo.env; random := random Demo.env;
              http := http Demo.env; image_ok := image_ok Demo.env;
              pdf_fault := None; pdf_event := StreamError; notify_ok := false;
              unlink_ok := true |} in
  fst (approveRequest E Demo.pending_world "req-1" Js.Undefined)
  = {| code := 200; success := true;
       message := Some "Request approved successfully";
       data := Approval "req-1" (Some "INV1767225600000")
                 (Some 8.8650000000000002%float)
                 (Some "https://razorpay.me/temp-link-INV1767225600000")
                 None APPROVED |}.
Proof. reflexivity. Qed.

(** An exception of the drawing code rejects the render; the temporary
    image is removed all the same. *)
Example render_after_a_drawing_exception :
  let r := generateInvoicePdf Demo.env_draw_throws ∅ Demo.remote_image_row
             "INV1767225600000" 8.865 in
  fst r = Rejected
  /\ snd r !! "temp/kanta_1767225600000_k3x9a.jpg" = None.
Proof. split; reflexivity. Qed.

End Examples.


(** ** Lists of requests: order, filter and pages *)

Section QueryFacts.

Import Store Query.

Lemma ltb_leb (a b : float) : (a <? b)%float = true -> (a <=? b)%float = true.
Proof.
  rewrite ltb_spec, leb_spec. unfold SFltb, SFleb.
  destruct (SFcompare (Prim2SF a) (Prim2SF b)) as [[| |]|]; congruence.
Qed.

Lemma not_ltb_geb (a b : float) :
  Num.isNaN a = false -> Num.isNaN b = false ->
  (a <? b)%float = false -> (b <=? a)%float = true.
Proof.
  intros Ha Hb. rewrite ltb_spec, leb_spec. unfold SFltb, SFleb.
  rewrite (SFcompare_antisym (Prim2SF a) (Prim2SF b)).
  destruct (SFcompare (Prim2SF a) (Prim2SF b)) as [[| |]|] eqn:Hc; cbn;
    try congruence.
  apply SFcompare_None in Hc. destruct Hc as [Hc|Hc];
    apply isNaN_spec in Hc; congruence.
Qed.

Lemma insert_desc_perm x l : Permutation (insert_desc x l) (x :: l).
Proof.
  induction l as [|y l IH]; cbn; [reflexivity|].
  destruct (createdAt y <? createdAt x)%float; [reflexivity|].
  rewrite IH. apply perm_swap.
Qed.

Lemma sort_desc_perm l : Permutation (sort_desc l) l.
Proof.
  induction l as [|x l IH]; cbn; [reflexivity|].
  rewrite insert_desc_perm. now constructor.
Qed.

Lemma insert_desc_sorted x l :
  Num.isNaN (createdAt x) = false ->
  Forall (fun r => Num.isNaN (createdAt r) = false) l ->
  Sorted newest_first l -> Sorted newest_first (insert_desc x l).
Proof.
  intros Hx Hl Hs. induction l as [|y l IH]; cbn.
  - repeat constructor.
  - apply Forall_cons_iff in Hl as [Hy Hl]. apply Sorted_inv in Hs as [Hs Hhd].
    destruct (createdAt y <? createdAt x)%float eqn:Hlt.
    + constructor; [now constructor|]. constructor. now apply ltb_leb.
    + constructor; [auto|].
      destruct l as [|z l]; cbn.
      * constructor. now apply not_ltb_geb.
      * destruct (createdAt z <? createdAt x)%float.
        -- constructor. now apply not_ltb_geb.
        -- constructor. now apply HdRel_inv in Hhd.
Qed.

Lemma sort_desc_sorted l :
  Forall (fun r => Num.isNaN (createdAt r) = false) l ->
  Sorted newest_first (sort_desc l).
Proof.
  induction l as [|x l IH]; cbn; intros Hl; [constructor|].
  apply Forall_cons_iff in Hl as [Hx Hl].
  apply insert_desc_sorted; auto.
  eapply Permutation_Forall; [|exact Hl]. symmetry. apply sort_desc_perm.
Qed.

Lemma Sorted_map {A B} (R : A -> A -> Prop) (S : B -> B -> Prop) (f : A -> B) l :
  (forall a b, R a b -> S (f a) (f b)) -> Sorted R l -> Sorted S (List.map f l).
Proof.
  intros Hf Hs. induction Hs as [|a l Hs IH Hhd]; cbn; constructor; auto.
  destruct Hhd; cbn; constructor. auto.
Qed.

(** A lookup by identifier misses exactly when no row has the identifier. *)
Lemma findUnique_id_None t i :
  findUnique_id t i = None <-> ~ In i (List.map id t).
Proof.
  unfold findUnique_id. induction t as [|x t IH]; cbn; [tauto|].
  destruct (String.eqb (id x) i) eqn:Hx.
  - apply String.eqb_eq in Hx. split; [discriminate | tauto].
  - apply String.eqb_neq in Hx. rewrite IH. tauto.
Qed.

Lemma findUnique_userId_None t u :
  findUnique_userId t u = None <-> ~ In u (List.map userId t).
Proof.
  unfold findUnique_userId. induction t as [|x t IH]; cbn; [tauto|].
  destruct (String.eqb (userId x) u) eqn:Hx.
  - apply String.eqb_eq in Hx. split; [discriminate | tauto].
  - apply String.eqb_neq in Hx. rewrite IH. tauto.
Qed.

Lemma findUnique_id_app_new t r :
  findUnique_id t (id r) = None -> findUnique_id (t ++ [r]) (id r) = Some r.
Proof.
  unfold findUnique_id. induction t as [|x t IH]; cbn.
  - now rewrite String.eqb_refl.
  - destruct (String.eqb (id x) (id r)); [discriminate | exact IH].
Qed.

(** With unique identifiers, the row found is the only row of its
    identifier, and an update of it leaves the other rows alone. *)
Lemma map_update_absent t i (g : Row -> Row) :
  ~ In i (List.map id t) ->
  List.map (fun x => if String.eqb (id x) i then g x else x) t = t.
Proof.
  induction t as [|x t IH]; cbn; intros Hn; [reflexivity|].
  destruct (String.eqb (id x) i) eqn:Hx.
  - apply String.eqb_eq in Hx. tauto.
  - rewrite IH by tauto. reflexivity.
Qed.

Lemma update_split t i r (g : Row -> Row) :
  List.NoDup (List.map id t) ->
  findUnique_id t i = Some r ->
  exists t1 t2,
    t = t1 ++ r :: t2
    /\ List.map (fun x => if String.eqb (id x) i then g x else x) t = t1 ++ g r :: t2
    /\ ~ In i (List.map id t1) /\ ~ In i (List.map id t2).
Proof.
  unfold findUnique_id. induction t as [|x t IH]; cbn; intros Hnd Hf; [discriminate|].
  apply NoDup_cons_iff in Hnd as [Hx Hnd].
  destruct (String.eqb (id x) i) eqn:Hxi.
  - injection Hf as ->. apply String.eqb_eq in Hxi. subst i.
    exists [], t. cbn. rewrite map_update_absent by exact Hx. tauto.
  - destruct (IH Hnd Hf) as (t1 & t2 & -> & Hm & H1 & H2).
    exists (x :: t1), t2. cbn. rewrite Hm.
    apply String.eqb_neq in Hxi. tauto.
Qed.

Lemma In_firstn_list {A} (x : A) n l : In x (firstn n l) -> In x l.
Proof.
  intros Hx. rewrite <- (firstn_skipn n l). apply in_or_app. now left.
Qed.

Lemma In_skipn_list {A} (x : A) n l : In x (skipn n l) -> In x l.
Proof.
  intros Hx. rewrite <- (firstn_skipn n l). apply in_or_app. now right.
Qed.

End QueryFacts.

Section ReadClaims.

Import Store Http Controller Read.

(** X5. The lookup by identifier answers with a row exactly when the table
    has a row of that identifier; the row it answers with is in the table
    and carries the identifier, and otherwise the answer is 404. *)
Theorem lookup_by_id_is_exact (w : World) (i : string) :
  (In i (List.map id (db w)) ->
   exists r, getInsuranceRequest w i = Ok r /\ In r (db w) /\ id r = i)
  /\ (~ In i (List.map id (db w)) ->
      getInsuranceRequest w i = Failure 404 "Insurance request not found").
Proof.
  unfold getInsuranceRequest. split.
  - intros Hin. destruct (findUnique_id (db w) i) as [r|] eqn:Hf.
    + apply findUnique_id_In in Hf as [Hr Hi]. eauto.
    + apply findUnique_id_None in Hf. contradiction.
  - intros Hn. apply findUnique_id_None in Hn. now rewrite Hn.
Qed.

(** X6. The list of pending requests holds each row of the table whose
    status is PENDING_VERIFICATION once, and no other row; its count is the
    number of these rows. *)
Theorem pending_list_is_exact (w : World) :
  exists rows,
    getPendingRequests w
    = Ok {| pending_count := length (List.filter is_pending (db w));
            pending_data := List.map select_pending rows |}
    /\ Permutation rows (List.filter is_pending (db w)).
Proof.
  exists (Query.findMany is_pending (db w)). unfold getPendingRequests. split.
  - do 2 f_equal. unfold Query.findMany.
    apply Permutation_length, sort_desc_perm.
  - apply sort_desc_perm.
Qed.

(** X7. When the creation times of the rows are numbers, the list of
    pending requests is ordered newest first. *)
Theorem pending_list_is_newest_first (w : World) (l : PendingList) :
  Forall (fun r => Num.isNaN (createdAt r) = false) (db w) ->
  getPendingRequests w = Ok l ->
  Sorted (fun a b => (p_createdAt b <=? p_createdAt a)%float = true) (pending_data l).
Proof.
  intros Hn Hl. unfold getPendingRequests in Hl. injection Hl as <-. cbn.
  apply (Sorted_map Query.newest_first); [auto|].
  apply sort_desc_sorted. apply List.Forall_forall. intros r Hr.
  apply filter_In in Hr as [Hr _].
  rewrite List.Forall_forall in Hn. auto.
Qed.

(** X8. The listing answers with the number of rows that match the status
    filter as total, whatever the page, and with a page of
    min(limit, total - offset) rows, each a row of the table that matches
    the filter; an absent limit is 50 and an absent offset 0. *)
Theorem listing_counts (w : World) (status_ : option Store.Status)
    (limit offset : option nat) :
  exists rows,
    getAllRequests w status_ limit offset
    = Ok {| list_count := length rows;
            list_total := length (List.filter (where_status status_) (db w));
            list_data := rows |}
    /\ length rows
       = Nat.min (default 50 limit)
           (length (List.filter (where_status status_) (db w)) - default 0 offset)
    /\ (forall r, In r rows -> In r (db w) /\ where_status status_ r = true).
Proof.
  eexists. split; [reflexivity|]. split.
  - unfold Query.page, Query.findMany.
    rewrite length_firstn, length_skipn.
    now rewrite (Permutation_length (sort_desc_perm _)).
  - intros r Hr. unfold Query.page, Query.findMany in Hr.
    apply In_firstn_list, In_skipn_list in Hr.
    apply (Permutation_in _ (sort_desc_perm _)) in Hr.
    now apply filter_In in Hr.
Qed.

(** X9. Consecutive pages join: the page of k rows at an offset followed by
    the page of m rows at that offset plus k is the page of k + m rows at
    the offset, and the three answers carry the same total. *)
Theorem pages_concatenate (w : World) (status_ : option Store.Status) (k m offset : nat) :
  exists p1 p2 p,
    getAllRequests w status_ (Some k) (Some offset) = Ok p1
    /\ getAllRequests w status_ (Some m) (Some (offset + k)) = Ok p2
    /\ getAllRequests w status_ (Some (k + m)) (Some offset) = Ok p
    /\ list_data p1 ++ list_data p2 = list_data p
    /\ list_total p1 = list_total p /\ list_total p2 = list_total p.
Proof.
  eexists _, _, _. repeat (split; [reflexivity|]). cbn. split; [|auto].
  unfold Query.page. generalize (Query.findMany (where_status status_) (db w)).
  intros l. rewrite (Nat.add_comm offset k), <- (skipn_skipn k offset l).
  generalize (skipn offset l). clear l. intros l.
  rewrite <- (firstn_skipn k (firstn (k + m) l)).
  rewrite firstn_firstn, Nat.min_l by lia.
  f_equal. rewrite skipn_firstn_comm. f_equal. lia.
Qed.

End ReadClaims.


(** ** What a call does to the table *)

Section EffectFacts.

Context `{Pf : Platform}.
Import Store Http Controller.

Lemma map_update_twice t i (g1 g2 : Row -> Row) :
  (forall x, id (g1 x) = id x) ->
  List.map (fun x => if String.eqb (id x) i then g2 x else x)
    (List.map (fun x => if String.eqb (id x) i then g1 x else x) t)
  = List.map (fun x => if String.eqb (id x) i then g2 (g1 x) else x) t.
Proof.
  intros Hid. rewrite List.map_map. apply List.map_ext. intros x.
  destruct (String.eqb (id x) i) eqn:Hx; [|now rewrite Hx].
  now rewrite Hid, Hx.
Qed.

(** An approval leaves the world as it is, or rewrites the rows of the
    identifier, the first of which was pending, as approved rows. *)
Lemma approveRequest_effect (E : Env) (w : World) (i : string) (adminNotes : Js.value) :
  snd (approveRequest E w i adminNotes) = w
  \/ exists r url,
       findUnique_id (db w) i = Some r
       /\ status r = PENDING_VERIFICATION
       /\ db (snd (approveRequest E w i adminNotes))
          = List.map (fun x =>
                        if String.eqb (id x) i
                        then Lifecycle.attach url
                               (set_approved (now E) ("INV" +:+ Number_toString (now E))
                                  (finalPremium r)
                                  ("https://razorpay.me/temp-link-"
                                   +:+ ("INV" +:+ Number_toString (now E))) x)
                        else x) (db w)
       /\ (outbox (snd (approveRequest E w i adminNotes)) = outbox w
           \/ exists m, outbox (snd (approveRequest E w i adminNotes))
                        = outbox w ++ [(userId r, m)]).
Proof.
  unfold approveRequest.
  destruct (findUnique_id (db w) i) as [r|] eqn:Hf; [|now left].
  destruct (bool_decide (status r = PENDING_VERIFICATION)) eqn:Hs; cbn [negb];
    [|now left].
  apply bool_decide_eq_true in Hs.
  set (inv := "INV" +:+ Number_toString (now E)).
  set (link := "https://razorpay.me/temp-link-" +:+ inv).
  destruct (update_found (db w) i (set_approved (now E) inv (finalPremium r) link) r)
    as (t1 & Hu & Hf1); auto with store.
  rewrite Hu. unfold update in Hu. rewrite Hf in Hu. injection Hu as Ht1.
  destruct (Invoice.generateInvoicePdf E (fs w) r inv (finalPremium r)) as [pdf fs2].
  right.
  assert (Hout : forall t u f,
             let w' := {| db := t; fs := f;
                          outbox := match Chatrace.sendChatraceMessage E (outbox w)
                                            (userId r) u with
                                    | inr sent => sent
                                    | inl _ => outbox w
                                    end |} in
             outbox w' = outbox w \/ exists m, outbox w' = outbox w ++ [(userId r, m)]).
  { intros t u f. cbn. unfold Chatrace.sendChatraceMessage.
    destruct (notify_ok E); eauto. }
  destruct pdf as [pdfFilename|].
  - set (url := strip_trailing_slash APP_URL +:+ "/invoices/" +:+ pdfFilename).
    destruct (update_found t1 i (set_invoicePdfUrl url)
                (set_approved (now E) inv (finalPremium r) link r))
      as (t2 & Hu2 & _); auto with store.
    rewrite Hu2. unfold update in Hu2. rewrite Hf1 in Hu2. injection Hu2 as Ht2.
    exists r, (Some url). cbn [snd db]. repeat split; auto.
    rewrite <- Ht2, <- Ht1. apply map_update_twice. auto with store.
  - exists r, None. cbn [snd db]. repeat split; auto.
Qed.

(** A rejection leaves the world as it is, or rewrites the rows of the
    identifier, the first of which was pending, as rejected rows with a
    reason that is not empty. *)
Lemma rejectRequest_effect (E : Env) (w : World) (i : string) (reason : Js.value) :
  snd (rejectRequest E w i reason) = w
  \/ exists r s,
       findUnique_id (db w) i = Some r
       /\ status r = PENDING_VERIFICATION
       /\ s <> EmptyString
       /\ db (snd (rejectRequest E w i reason))
          = List.map (fun x => if String.eqb (id x) i
                               then set_rejected (now E) s x else x) (db w)
       /\ (outbox (snd (rejectRequest E w i reason)) = outbox w
           \/ exists m, outbox (snd (rejectRequest E w i reason))
                        = outbox w ++ [(userId r, m)]).
Proof.
  unfold rejectRequest.
  destruct (Js.truthy reason) eqn:Ht; cbn [negb]; [|now left].
  destruct (findUnique_id (db w) i) as [r|] eqn:Hf; [|now left].
  destruct (bool_decide (status r = PENDING_VERIFICATION)) eqn:Hs; cbn [negb];
    [|now left].
  apply bool_decide_eq_true in Hs.
  destruct reason as [| | | |s]; cbn [text_column bindE]; try now left.
  apply truthy_Str in Ht.
  unfold update. rewrite Hf. cbn [bindE].
  right. exists r, s.
  unfold Chatrace.sendChatraceMessage.
  destruct (notify_ok E); cbn [snd db outbox]; repeat split; eauto.
Qed.

(** A submission leaves the world as it is, or appends one row under keys
    that were free. *)
Lemma createInsuranceRequest_effect (E : Env) (w : World) (req : CreateRequest) :
  snd (createInsuranceRequest E w req) = w
  \/ exists r,
       create_errors req = []
       /\ new_row E (create_body req) (cleanUserId req) true (qty_of req) (rateNum_of req)
            (Premium.basePremiumAmount (qty_of req) (rateNum_of req)) = inr r
       /\ cleanUserId req <> EmptyString
       /\ findUnique_userId (db w) (userId r) = None
       /\ findUnique_id (db w) (id r) = None
       /\ createInsuranceRequest E w req
          = ({| code := 201; success := true;
                message := Some "Insurance request created successfully. Awaiting admin verification.";
                data := Created (id r) (userId r) (vehicleNo r) (itemName r)
                          (quantity r) (status r) (createdAt r) |},
             {| db := db w ++ [r]; fs := fs w; outbox := outbox w |}).
Proof.
  unfold createInsuranceRequest, cleanUserId, qty_of, rateNum_of.
  destruct (create_errors req) as [|e es]; [|now left].
  destruct (Js.truthy (b_userId (create_body req))); cbn [negb]; [|now left].
  destruct (String.eqb _ EmptyString) eqn:Hclean; [now left|].
  destruct (normalizeBoolean (b_consent (create_body req))) eqn:Hcons;
    cbn [negb]; [|now left].
  destruct (findUnique_userId (db w) _) as [existing|] eqn:Hfind; [now left|].
  destruct (new_row E _ _ _ _ _ _) as [e|r] eqn:Hrow; cbn [bindE].
  { destruct e; now left. }
  unfold create.
  destruct (findUnique_userId (db w) (userId r)) eqn:Hu; cbn [bindE].
  { now left. }
  destruct (findUnique_id (db w) (id r)) eqn:Hi; cbn [bindE].
  { now left. }
  right. exists r. apply String.eqb_neq in Hclean. repeat split; auto.
Qed.

End EffectFacts.

(** ** The validation chains of a submission *)

Section ChainFacts.

Context `{Pf : Platform}.
Import Store Http Controller.

Lemma check_nil ok msg : Chains.check ok msg = [] <-> ok = true.
Proof. unfold Chains.check. destruct ok; split; congruence. Qed.

Lemma notEmpty_isString v :
  Chains.notEmpty v = true -> Validation.isString v = true ->
  exists s, v = Js.Str s /\ s <> EmptyString.
Proof.
  destruct v as [| | | |s]; cbn; try discriminate.
  intros Hn _. exists s. split; [reflexivity|].
  unfold Chains.notEmpty in Hn. cbn in Hn.
  apply negb_true_iff in Hn. now apply String.eqb_neq.
Qed.

Lemma optional_string_nil v msg :
  Chains.optional_string v msg = [] -> v = Js.Undefined \/ exists s, v = Js.Str s.
Proof.
  unfold Chains.optional_string, Chains.optional, Chains.check.
  destruct v; cbn; eauto; discriminate.
Qed.

Lemma validateInsuranceRequest_nil b :
  Chains.validateInsuranceRequest b = [] -> Chains.validated b.
Proof.
  unfold Chains.validateInsuranceRequest. intros Hv.
  repeat match type of Hv with
         | _ ++ _ = [] => apply app_eq_nil in Hv; destruct Hv as [? Hv]
         end.
  repeat match goal with
         | H : _ ++ _ = [] |- _ => apply app_eq_nil in H; destruct H
         | H : Chains.check _ _ = [] |- _ => apply check_nil in H
         end.
  constructor; eauto using notEmpty_isString, optional_string_nil.
  - unfold Chains.quantity_custom in *.
    destruct (Num.isNaN (parseInt (b_quantity b))) eqn:Hn; [discriminate|].
    destruct (parseInt (b_quantity b) <? 1)%float eqn:Hlt; [discriminate|].
    split; [reflexivity|]. now apply not_ltb_geb.
  - intros Ht.
    assert (Hr : Chains.rate_custom (b_rate b) = []).
    { destruct (b_rate b); try discriminate Ht; assumption. }
    unfold Chains.rate_custom in Hr. rewrite Ht in Hr. cbn [negb] in Hr.
    destruct (Num.isNaN (parseFloat (b_rate b))); [discriminate | reflexivity].
Qed.

Lemma or_null_ok v :
  v = Js.Undefined \/ (exists s, v = Js.Str s) -> exists o, or_null v = inr o.
Proof.
  intros [->|[s ->]]; unfold or_null; cbn; [eauto|].
  destruct (negb (String.eqb s EmptyString)); eauto.
Qed.

(** A validated body always gives a row to insert. *)
Lemma new_row_validated E b u c rn p :
  Chains.validated b ->
  exists r, new_row E b u c (parseInt (b_quantity b)) rn p = inr r.
Proof.
  intros [Hu Hts [item [Hi _]] [Hq _] Hr [veh [Hv _]] Hc H1 H2 H3 H4 H5 H6 H7 H8].
  unfold new_row.
  destruct (or_null_ok _ H1) as [o1 ->]. destruct (or_null_ok _ H2) as [o2 ->].
  destruct (or_null_ok _ H3) as [o3 ->]. destruct (or_null_ok _ H4) as [o4 ->].
  destruct (or_null_ok _ H5) as [o5 ->]. destruct (or_null_ok _ H6) as [o6 ->].
  destruct (or_null_ok _ H7) as [o7 ->]. destruct (or_null_ok _ H8) as [o8 ->].
  rewrite Hi, Hv. unfold int_column. rewrite Hq. cbn. eauto.
Qed.

Lemma digits_only_idem s : Js.digits_only (Js.digits_only s) = Js.digits_only s.
Proof.
  induction s as [|c s IH]; cbn; [reflexivity|].
  destruct (Js.is_digit c) eqn:Hc; cbn; [|exact IH].
  now rewrite Hc, IH.
Qed.

(** The row a validated, accepted submission inserts. *)
Lemma new_row_well_formed E b u q rn r :
  Chains.validated b ->
  u <> EmptyString ->
  q = parseInt (b_quantity b) ->
  new_row E b (Js.digits_only u) true q rn (Premium.basePremiumAmount q rn) = inr r ->
  Js.digits_only u <> EmptyString ->
  Lifecycle.well_formed r /\ status r = PENDING_VERIFICATION
  /\ id r = uuid E /\ userId r = Js.digits_only u /\ createdAt r = now E.
Proof.
  intros [Hu Hts [item [Hi Hine]] [Hq Hq1] Hr [veh [Hv Hvne]] Hc _ _ _ _ _ _ _ _]
    Hune -> Hrow Hd.
  unfold new_row in Hrow.
  repeat match type of Hrow with
         | bindE ?m _ = _ =>
             let x := fresh "x" in
             destruct m as [?|x] eqn:?; cbn [bindE] in Hrow; [discriminate|]
         end.
  injection Hrow as <-.
  rewrite Hi in *. rewrite Hv in *. cbn [text_column] in *.
  unfold int_column in *. rewrite Hq in *.
  repeat match goal with H : inr _ = inr _ |- _ => injection H as <- end.
  unfold Lifecycle.well_formed. cbn.
  repeat split; auto using digits_only_idem.
  eexists. split; [reflexivity|]. unfold Premium.basePremiumAmount. apply cap_le_max.
Qed.

End ChainFacts.


(** ** Sequences of calls: what every call keeps *)

Section LifecycleFacts.

Context `{Pf : Platform}.
Import Store Http Controller Lifecycle.

Lemma same_submission_refl r : same_submission r r.
Proof. unfold same_submission. repeat split. Qed.

Lemma same_submission_trans a b c :
  same_submission a b -> same_submission b c -> same_submission a c.
Proof.
  unfold same_submission. intros H1 H2.
  repeat match goal with H : _ /\ _ |- _ => destruct H end.
  repeat split; congruence.
Qed.

Lemma approval_is_decision E r url :
  decision (fun x =>
              attach url
                (set_approved (now E) ("INV" +:+ Number_toString (now E))
                   (finalPremium r)
                   ("https://razorpay.me/temp-link-"
                    +:+ ("INV" +:+ Number_toString (now E))) x)).
Proof.
  intros x. split; [|split].
  - destruct url; unfold same_submission; cbn; repeat split.
  - destruct url; cbn; discriminate.
  - unfold well_formed. intros Hw Hs. rewrite Hs in Hw.
    destruct Hw as (Hc & Hq & Hi & Hv & Hu & Hd & _ & _ & _ & _ & Hr & _).
    assert (Hp : (Premium.MAX_PREMIUM <? finalPremium r)%float = false).
    { unfold finalPremium. apply cap_le_max. }
    destruct url; cbn; repeat split; eauto.
Qed.

Lemma rejection_is_decision E s :
  s <> EmptyString -> decision (set_rejected (now E) s).
Proof.
  intros Hs x. split; [|split].
  - unfold same_submission; cbn; repeat split.
  - cbn. discriminate.
  - unfold well_formed. intros Hw Hst. rewrite Hst in Hw.
    destruct Hw as (Hc & Hq & Hi & Hv & Hu & Hd & Hp & Hinv & Hl & _ & _ & Hpdf).
    cbn. repeat split; eauto.
Qed.

(** The three things a call can do to the table and to the sent messages. *)
Lemma step_effect (w : World) (c : call) :
  (db (step w c) = db w /\ outbox (step w c) = outbox w)
  \/ (exists r,
        db (step w c) = db w ++ [r] /\ outbox (step w c) = outbox w
        /\ ~ In (id r) (List.map id (db w))
        /\ ~ In (userId r) (List.map userId (db w))
        /\ well_formed r /\ status r = PENDING_VERIFICATION)
  \/ (exists i r g,
        findUnique_id (db w) i = Some r
        /\ status r = PENDING_VERIFICATION
        /\ db (step w c)
           = List.map (fun x => if String.eqb (id x) i then g x else x) (db w)
        /\ decision g
        /\ (outbox (step w c) = outbox w
            \/ exists m, outbox (step w c) = outbox w ++ [(userId r, m)])).
Proof.
  destruct c as [E b|E i adminNotes|E i reason]; cbn [step].
  - unfold InsuranceRoute.create.
    set (req := {| create_errors := Chains.validateInsuranceRequest b;
                   create_body := b |}).
    destruct (createInsuranceRequest_effect E w req)
      as [->|(r & He & Hrow & Hne & Hu & Hi & ->)]; [now left|].
    right. left. exists r. cbn [snd db outbox].
    apply validateInsuranceRequest_nil in He.
    destruct (Chains.ok_userId b He) as (u & Hb & Hune).
    unfold cleanUserId, qty_of, rateNum_of in *. cbn [create_body req] in *.
    rewrite Hb in *. cbn [String_] in *.
    destruct (new_row_well_formed E b u _ _ r He Hune eq_refl Hrow Hne)
      as (Hwf & Hst & _).
    apply findUnique_userId_None in Hu. apply findUnique_id_None in Hi.
    split; [reflexivity|]. split; [reflexivity|]. auto.
  - destruct (approveRequest_effect E w i adminNotes)
      as [->|(r & url & Hf & Hs & Hdb & Hout)]; [now left|].
    right. right. exists i, r. eexists.
    split; [exact Hf|]. split; [exact Hs|]. split; [exact Hdb|].
    split; [apply approval_is_decision | exact Hout].
  - unfold Route.reject.
    destruct (rejectRequest_effect E w i reason)
      as [->|(r & s & Hf & Hs & Hne & Hdb & Hout)]; [now left|].
    right. right. exists i, r. eexists.
    split; [exact Hf|]. split; [exact Hs|]. split; [exact Hdb|].
    split; [now apply rejection_is_decision | exact Hout].
Qed.

Lemma map_update_keys t i (g : Row -> Row) :
  decision g ->
  List.map id (List.map (fun x => if String.eqb (id x) i then g x else x) t)
  = List.map id t
  /\ List.map userId (List.map (fun x => if String.eqb (id x) i then g x else x) t)
     = List.map userId t.
Proof.
  intros Hg. rewrite !List.map_map. split; apply List.map_ext; intros x;
    destruct (String.eqb (id x) i); auto;
    destruct (Hg x) as [(Hid & Hu & _) _]; auto.
Qed.

Lemma NoDup_snoc {A} (l : list A) x :
  List.NoDup l -> ~ In x l -> List.NoDup (l ++ [x]).
Proof.
  intros Hl Hx. induction Hl as [|y l Hy Hl IH]; cbn.
  - constructor; [intros []|constructor].
  - constructor.
    + intros Hin. apply in_app_or in Hin as [Hin|[<-|[]]]; [auto|].
      apply Hx. now left.
    + apply IH. intros Hin. apply Hx. now right.
Qed.


(** With unique identifiers a call leaves every decided row in place. *)
Lemma step_frozen (w : World) (c : call) (x : Row) :
  List.NoDup (List.map id (db w)) ->
  In x (db w) -> status x <> PENDING_VERIFICATION -> In x (db (step w c)).
Proof.
  intros Hnd Hx Hs.
  destruct (step_effect w c)
    as [[-> _]|[(r & -> & _)|(i & r & g & Hf & Hr & -> & _)]].
  - exact Hx.
  - apply in_or_app. now left.
  - destruct (update_split (db w) i r g Hnd Hf) as (t1 & t2 & Ht & -> & H1 & H2).
    rewrite Ht in Hx. apply in_app_or in Hx as [Hx|[<-|Hx]].
    + apply in_or_app. now left.
    + contradiction.
    + apply in_or_app. right. now right.
Qed.


Lemma step_same_submission (w : World) (c : call) (x : Row) :
  In x (db w) -> exists x', In x' (db (step w c)) /\ same_submission x x'.
Proof.
  intros Hx.
  destruct (step_effect w c)
    as [[-> _]|[(r & -> & _)|(i & r & g & _ & _ & -> & Hg & _)]].
  - eauto using same_submission_refl.
  - exists x. split; [apply in_or_app; now left | apply same_submission_refl].
  - exists (if String.eqb (id x) i then g x else x). split.
    + now apply (in_map (fun x => if String.eqb (id x) i then g x else x)).
    + destruct (String.eqb (id x) i); [apply Hg | apply same_submission_refl].
Qed.

Lemma step_notified (w : World) (c : call) :
  notified_only_decided w -> notified_only_decided (step w c).
Proof.
  intros Hn.
  assert (Hkeep : forall g i to,
             decision g ->
             (exists r, In r (db w) /\ userId r = to
                        /\ status r <> PENDING_VERIFICATION) ->
             exists r, In r (List.map (fun x => if String.eqb (id x) i then g x else x)
                               (db w))
                       /\ userId r = to /\ status r <> PENDING_VERIFICATION).
  { intros g i to Hg (r & Hr & Hu & Hs).
    exists (if String.eqb (id r) i then g r else r). split.
    - now apply (in_map (fun x => if String.eqb (id x) i then g x else x)).
    - destruct (String.eqb (id r) i); [|auto].
      destruct (Hg r) as ((_ & Hu' & _) & Hs' & _). split; congruence. }
  destruct (step_effect w c)
    as [[Hd Ho]|[(r & Hd & Ho & _)|(i & r & g & Hf & Hr & Hd & Hg & Ho)]];
    intros to msg Hin.
  - rewrite Ho in Hin. rewrite Hd. eauto.
  - rewrite Ho in Hin. rewrite Hd.
    destruct (Hn to msg Hin) as (x & Hx & Hu & Hs).
    exists x. split; [apply in_or_app; now left | auto].
  - rewrite Hd. destruct Ho as [Ho|[m Ho]]; rewrite Ho in Hin.
    + apply Hkeep; eauto.
    + apply in_app_or in Hin as [Hin|[Heq|[]]]; [apply Hkeep; eauto|].
      injection Heq as <- <-.
      apply findUnique_id_In in Hf as [Hin Hid].
      exists (g r). split.
      * apply in_map_iff. exists r. split; [|exact Hin].
        apply String.eqb_eq in Hid. now rewrite Hid.
      * destruct (Hg r) as ((_ & Hu' & _) & Hs' & _). auto.
Qed.

End LifecycleFacts.

Section LifecycleClaims.

Context `{Pf : Platform}.
Import Store Http Controller Lifecycle.

Lemma step_ids (w : World) (c : call) :
  List.NoDup (List.map id (db w)) -> List.NoDup (List.map id (db (step w c))).
Proof.
  intros Hi.
  destruct (step_effect w c)
    as [[-> _]|[(r & -> & _ & Hri & _)|(i & r & g & _ & _ & -> & Hg & _)]].
  - exact Hi.
  - rewrite List.map_app. cbn. now apply NoDup_snoc.
  - now destruct (map_update_keys (db w) i g Hg) as [-> _].
Qed.


(** X11. In a table with distinct identifiers a row that is approved or
    rejected is still in the table, with every column as it was, after any
    sequence of submissions, approvals and rejections. *)
Theorem decided_rows_are_frozen (w : World) (cs : list call) (x : Row) :
  List.NoDup (List.map id (db w)) ->
  In x (db w) ->
  status x <> PENDING_VERIFICATION ->
  In x (db (run w cs)).
Proof.
  unfold run. revert w.
  induction cs as [|c cs IH]; cbn; intros w Hnd Hx Hs; [exact Hx|].
  apply IH; [now apply step_ids | now apply step_frozen | exact Hs].
Qed.

(** X12. No call deletes a row or rewrites what was submitted: after any
    sequence of calls every row of the table is still there under its
    identifier, with the submitter, the goods, the parties, the vehicle,
    the consent and the creation time it was submitted with. *)
Theorem submissions_are_kept (w : World) (cs : list call) (x : Row) :
  In x (db w) ->
  exists x', In x' (db (run w cs)) /\ same_submission x x'.
Proof.
  unfold run. revert w x.
  induction cs as [|c cs IH]; cbn; intros w x Hx.
  - exists x. split; [exact Hx | apply same_submission_refl].
  - destruct (step_same_submission w c x Hx) as (x1 & Hx1 & H1).
    destruct (IH _ x1 Hx1) as (x2 & Hx2 & H2).
    exists x2. split; [exact Hx2 | eapply same_submission_trans; eauto].
Qed.

(** X13. Messages follow decisions: when every message sent so far went to
    the submitter of a request that is no longer pending, this is still so
    after any sequence of calls; a submission sends nothing, and an
    approval or a rejection writes to the submitter of the request it has
    just decided only. *)
Theorem messages_follow_decisions (w : World) (cs : list call) :
  notified_only_decided w -> notified_only_decided (run w cs).
Proof.
  unfold run. revert w.
  induction cs as [|c cs IH]; cbn; intros w Hw; [exact Hw|].
  apply IH. now apply step_notified.
Qed.

End LifecycleClaims.

Section RouteFacts.

Context `{Pf : Platform}.
Import Store Http Controller.

(** The row of a submission answered 201, with what it was inserted under. *)
Lemma createInsuranceRequest_201_row E w req resp w' :
  createInsuranceRequest E w req = (resp, w') ->
  code resp = 201%Z ->
  exists r,
    new_row E (create_body req) (cleanUserId req) true (qty_of req) (rateNum_of req)
      (Premium.basePremiumAmount (qty_of req) (rateNum_of req)) = inr r
    /\ create_errors req = []
    /\ findUnique_userId (db w) (userId r) = None
    /\ findUnique_id (db w) (id r) = None
    /\ w' = {| db := db w ++ [r]; fs := fs w; outbox := outbox w |}
    /\ data resp = Created (id r) (userId r) (vehicleNo r) (itemName r)
                     (quantity r) (status r) (createdAt r).
Proof.
  intros Hc Hcode.
  destruct (createInsuranceRequest_effect E w req)
    as [Hsame|(r & He & Hrow & Hne & Hu & Hi & Heq)].
  - exfalso.
    destruct (createInsuranceRequest_201 _ _ _ _ _ Hc Hcode)
      as (r & _ & _ & _ & _ & _ & _ & Hw' & _).
    rewrite Hc in Hsame. cbn [snd] in Hsame. rewrite Hsame in Hw'.
    apply (f_equal (fun x => length (db x))) in Hw'.
    cbn in Hw'. rewrite length_app in Hw'. cbn in Hw'. lia.
  - rewrite Hc in Heq. injection Heq as -> ->.
    exists r. cbn [data]. repeat split; auto.
Qed.

End RouteFacts.

(** ** The submission route: validation chains and controller together *)

Section RouteClaims.

Context `{Pf : Platform}.
Import Store Http Controller.

(** X14. A timestamp that passes its validation chain is stored as what it
    says: the server clock, which stands in for a timestamp that is absent
    or unreadable, has no part in it. *)
Theorem validated_timestamp_ignores_the_clock (E1 E2 : Env) (v : Js.value) :
  Chains.timestamp_custom v = [] ->
  normalizeTimestamp E1 v = normalizeTimestamp E2 v.
Proof.
  unfold Chains.timestamp_custom, normalizeTimestamp.
  destruct (Js.truthy v); cbn [negb]; [|discriminate].
  destruct (Num.isNaN (parseInt v)); cbn [negb andb]; [|reflexivity].
  destruct (Date_parse v); [reflexivity | discriminate].
Qed.

(** X15. After a submission that the route answered 201, the table has
    one more row, and the lookup by the identifier of the answer finds it:
    a well-formed pending row, created at the time of the call, whose
    submitter is the digits of the submitted identifier, with the columns
    the answer reports. *)
Theorem created_request_is_found_by_id (E : Env) (w : World) (b : CreateBody)
    (resp : Response) (w' : World) :
  InsuranceRoute.create E w b = (resp, w') ->
  code resp = 201%Z ->
  exists r,
    db w' = db w ++ [r]
    /\ Read.getInsuranceRequest w' (uuid E) = Read.Ok r
    /\ data resp = Created (uuid E) (userId r) (vehicleNo r) (itemName r)
                     (quantity r) PENDING_VERIFICATION (now E)
    /\ Lifecycle.well_formed r
    /\ status r = PENDING_VERIFICATION
    /\ createdAt r = now E
    /\ userId r = Js.digits_only (String_ (b_userId b)).
Proof.
  unfold InsuranceRoute.create. intros Hc Hcode.
  destruct (createInsuranceRequest_201_row _ _ _ _ _ Hc Hcode)
    as (r & Hrow & He & _ & Hi & -> & ->).
  unfold cleanUserId, qty_of, rateNum_of in Hrow.
  cbn [create_body create_errors] in Hrow, He.
  apply validateInsuranceRequest_nil in He.
  destruct (Chains.ok_userId b He) as (u & Hb & Hune).
  rewrite Hb in *. cbn [String_] in *.
  assert (Hd : Js.digits_only u <> EmptyString).
  { destruct (createInsuranceRequest_201 _ _ _ _ _ Hc Hcode)
      as (_ & _ & _ & Hne & _).
    unfold cleanUserId in Hne. cbn [create_body] in Hne.
    rewrite Hb in Hne. exact Hne. }
  destruct (new_row_well_formed E b u _ _ r He Hune eq_refl Hrow Hd)
    as (Hwf & Hs & Hid & Hu & Hat).
  exists r. unfold Read.getInsuranceRequest. cbn [db data].
  rewrite <- Hid, (findUnique_id_app_new _ _ Hi), Hs, Hat.
  split; [reflexivity|]. split; [reflexivity|]. split; [reflexivity|].
  split; [exact Hwf|]. split; [reflexivity|]. split; [reflexivity | exact Hu].
Qed.

End RouteClaims.

(** ** The pending list after a decision *)

Section DecisionFacts.

Context `{Pf : Platform}.
Import Store Http Controller Read.

Lemma is_pending_true r : is_pending r = true <-> status r = PENDING_VERIFICATION.
Proof. unfold is_pending. apply bool_decide_eq_true. Qed.

(** A decision takes its row, and no other, out of the pending rows. *)
Lemma decided_leaves_pending t i r (g : Row -> Row) :
  List.NoDup (List.map id t) ->
  findUnique_id t i = Some r ->
  status r = PENDING_VERIFICATION ->
  Lifecycle.decision g ->
  exists l1 l2,
    List.filter is_pending t = l1 ++ r :: l2
    /\ List.filter is_pending
         (List.map (fun x => if String.eqb (id x) i then g x else x) t) = l1 ++ l2
    /\ ~ In i (List.map id (l1 ++ l2)).
Proof.
  intros Hnd Hf Hs Hg.
  destruct (update_split t i r g Hnd Hf) as (t1 & t2 & -> & -> & H1 & H2).
  exists (List.filter is_pending t1), (List.filter is_pending t2).
  rewrite !List.filter_app. cbn [List.filter].
  rewrite (proj2 (is_pending_true r) Hs).
  destruct (is_pending (g r)) eqn:Hgr.
  { apply is_pending_true in Hgr. now destruct (Hg r) as (_ & Hn & _). }
  repeat split; auto.
  rewrite List.map_app. intros Hin. apply in_app_or in Hin as [Hin|Hin];
    apply in_map_iff in Hin as (x & Hx & Hin); apply filter_In in Hin as [Hin _];
    [apply H1 | apply H2]; apply in_map_iff; eauto.
Qed.

Lemma approveRequest_200 E w i adminNotes :
  code (fst (approveRequest E w i adminNotes)) = 200%Z ->
  exists r, findUnique_id (db w) i = Some r /\ status r = PENDING_VERIFICATION.
Proof.
  unfold approveRequest.
  destruct (findUnique_id (db w) i) as [r|]; [|discriminate].
  destruct (bool_decide (status r = PENDING_VERIFICATION)) eqn:Hs; cbn [negb];
    [|discriminate].
  apply bool_decide_eq_true in Hs. eauto.
Qed.

Lemma rejectRequest_200 E w i reason :
  code (fst (rejectRequest E w i reason)) = 200%Z ->
  exists r s, findUnique_id (db w) i = Some r /\ status r = PENDING_VERIFICATION
              /\ reason = Js.Str s /\ s <> EmptyString.
Proof.
  unfold rejectRequest.
  destruct (Js.truthy reason) eqn:Ht; cbn [negb]; [|discriminate].
  destruct (findUnique_id (db w) i) as [r|]; [|discriminate].
  destruct (bool_decide (status r = PENDING_VERIFICATION)) eqn:Hs; cbn [negb];
    [|discriminate].
  apply bool_decide_eq_true in Hs.
  destruct reason as [| | | |s]; cbn [text_column bindE]; try discriminate.
  apply truthy_Str in Ht. eauto 6.
Qed.

(** The table after the approval of a pending request. *)
Lemma approveRequest_pending_db E w i adminNotes r :
  findUnique_id (db w) i = Some r ->
  status r = PENDING_VERIFICATION ->
  exists g, Lifecycle.decision g
            /\ db (snd (approveRequest E w i adminNotes))
               = List.map (fun x => if String.eqb (id x) i then g x else x) (db w).
Proof.
  intros Hf Hs.
  destruct (approveRequest_effect E w i adminNotes)
    as [Hsame|(r' & url & _ & _ & Hdb & _)].
  - exfalso.
    destruct (approveRequest_pending E w i r adminNotes Hf Hs)
      as (w' & r' & Heq & Hf' & Hr' & _).
    rewrite Heq in Hsame. cbn [snd] in Hsame. subst w'.
    rewrite Hf in Hf'. injection Hf' as ->.
    destruct Hr' as [Hr'|[url Hr']]; rewrite Hr' in Hs; discriminate.
  - eexists. split; [|exact Hdb]. apply approval_is_decision.
Qed.

Lemma rejectRequest_pending_db E w i s r :
  findUnique_id (db w) i = Some r ->
  status r = PENDING_VERIFICATION ->
  s <> EmptyString ->
  db (snd (rejectRequest E w i (Js.Str s)))
  = List.map (fun x => if String.eqb (id x) i then set_rejected (now E) s x else x) (db w).
Proof.
  intros Hf Hs Hne. unfold rejectRequest.
  rewrite (proj2 (truthy_Str s) Hne). cbn [negb].
  rewrite Hf, (pending_decide r Hs). cbn [negb text_column bindE].
  unfold update. rewrite Hf. cbn [bindE].
  unfold Chatrace.sendChatraceMessage. destruct (notify_ok E); reflexivity.
Qed.

Lemma pending_lists t i r g :
  List.NoDup (List.map id t) ->
  findUnique_id t i = Some r ->
  status r = PENDING_VERIFICATION ->
  Lifecycle.decision g ->
  let t' := List.map (fun x => if String.eqb (id x) i then g x else x) t in
  length (Query.findMany is_pending t) = S (length (Query.findMany is_pending t'))
  /\ Permutation (List.map select_pending (Query.findMany is_pending t))
       (select_pending r :: List.map select_pending (Query.findMany is_pending t'))
  /\ ~ In i (List.map p_id (List.map select_pending (Query.findMany is_pending t'))).
Proof.
  intros Hnd Hf Hs Hg t'.
  destruct (decided_leaves_pending t i r g Hnd Hf Hs Hg) as (l1 & l2 & H1 & H2 & H3).
  fold t' in H2. unfold Query.findMany. rewrite H1, H2.
  assert (Hp : Permutation (Query.sort_desc (l1 ++ r :: l2))
                 (r :: Query.sort_desc (l1 ++ l2))).
  { rewrite !sort_desc_perm. symmetry. apply Permutation_middle. }
  split; [|split].
  - apply Permutation_length in Hp. exact Hp.
  - apply (Permutation_map select_pending) in Hp. exact Hp.
  - rewrite List.map_map. cbn [select_pending p_id].
    intros Hin. apply H3. apply in_map_iff in Hin as (x & Hx & Hin).
    apply in_map_iff. exists x. split; [exact Hx|].
    eapply Permutation_in; [apply sort_desc_perm | exact Hin].
Qed.

End DecisionFacts.

Section DecisionClaims.

Context `{Pf : Platform}.
Import Store Http Controller Read.

(** X16. In a table with distinct identifiers, an approval that is
    answered 200 takes the request out of the list of pending requests and
    leaves the other entries: the list before is the list after with the
    entry of the request added, the count is one less, and no entry of the
    list after carries the identifier. The same holds of a rejection that
    is answered 200. *)
Theorem decided_request_leaves_the_pending_list (E : Env) (w : World) (i : string)
    (v : Js.value) (handler : Env -> World -> string -> Js.value -> Response * World)
    (before after : PendingList) :
  handler = approveRequest \/ handler = rejectRequest ->
  List.NoDup (List.map id (db w)) ->
  code (fst (handler E w i v)) = 200%Z ->
  getPendingRequests w = Ok before ->
  getPendingRequests (snd (handler E w i v)) = Ok after ->
  pending_count before = S (pending_count after)
  /\ (exists entry, p_id entry = i
                    /\ Permutation (pending_data before) (entry :: pending_data after))
  /\ ~ In i (List.map p_id (pending_data after)).
Proof.
  intros Hh Hnd Hcode Hb Ha.
  unfold getPendingRequests in Hb, Ha. injection Hb as <-. injection Ha as <-.
  cbn [pending_count pending_data].
  assert (H : exists r g,
             findUnique_id (db w) i = Some r /\ status r = PENDING_VERIFICATION
             /\ Lifecycle.decision g
             /\ db (snd (handler E w i v))
                = List.map (fun x => if String.eqb (id x) i then g x else x) (db w)).
  { destruct Hh as [-> | ->].
    - destruct (approveRequest_200 E w i v Hcode) as (r & Hf & Hs).
      destruct (approveRequest_pending_db E w i v r Hf Hs) as (g & Hg & Hdb).
      eauto 6.
    - destruct (rejectRequest_200 E w i v Hcode) as (r & s & Hf & Hs & -> & Hne).
      exists r, (set_rejected (now E) s).
      split; [exact Hf|]. split; [exact Hs|].
      split; [now apply rejection_is_decision|].
      now apply rejectRequest_pending_db with (r := r). }
  destruct H as (r & g & Hf & Hs & Hg & ->).
  destruct (pending_lists (db w) i r g Hnd Hf Hs Hg) as (Hlen & Hperm & Hnot).
  split; [exact Hlen|]. split; [|exact Hnot].
  exists (select_pending r). split; [|exact Hperm].
  cbn. now apply findUnique_id_In in Hf.
Qed.

End DecisionClaims.

(** ** The premium script *)

Section ScriptFacts.

Import Store Script.

Lemma is_finite_spec x :
  is_finite x = true ->
  (exists s, Prim2SF x = S754_zero s) \/ (exists s m e, Prim2SF x = S754_finite s m e).
Proof.
  unfold is_finite, is_nan, is_infinity. intros Hx.
  apply negb_true_iff, orb_false_iff in Hx as [Hn Hi].
  destruct (Prim2SF x) as [s|s| |s m e] eqn:Hp; eauto.
  - rewrite FloatAxioms.eqb_spec, abs_spec, Hp in Hi. discriminate.
  - apply (proj2 (isNaN_spec x)) in Hp. unfold Num.isNaN in Hp. congruence.
Qed.

(** A finite number minus itself is zero. *)
Lemma sub_diag_finite x : is_finite x = true -> (x - x = 0)%float.
Proof.
  intros Hx. apply Prim2SF_inj. rewrite sub_spec.
  change (Prim2SF 0%float) with (S754_zero false).
  destruct (is_finite_spec x Hx) as [[s ->]|(s & m & e & ->)].
  - destruct s; reflexivity.
  - unfold SF64sub, SFsub. now rewrite Z.sub_diag.
Qed.

Lemma set_premium_id p x : id (Query.set_premium p x) = id x.
Proof. reflexivity. Qed.

Lemma revised_id x : id (revised x) = id x.
Proof. unfold revised. now destruct (unchanged x). Qed.

Lemma newPremium_revised x : newPremium (revised x) = newPremium x.
Proof. unfold revised. now destruct (unchanged x). Qed.

(** Once revised, a row is left alone. *)
Lemma unchanged_revised x :
  is_finite (newPremium x) = true -> unchanged (revised x) = true.
Proof.
  intros Hx. unfold revised. destruct (unchanged x) eqn:Hu; [exact Hu|].
  unfold unchanged. cbn [premiumAmount Query.set_premium].
  change (newPremium (Query.set_premium (newPremium x) x)) with (newPremium x).
  now rewrite sub_diag_finite.
Qed.

Lemma revised_unchanged x : unchanged x = true -> revised x = x.
Proof. unfold revised. now intros ->. Qed.

(** With distinct identifiers an update reaches the row it names only. *)
Lemma update_at t1 r t2 (f : Row -> Row) :
  List.NoDup (List.map id (t1 ++ r :: t2)) ->
  update (t1 ++ r :: t2) (id r) f = inr (t1 ++ f r :: t2, f r).
Proof.
  intros Hnd. unfold update.
  assert (H1 : ~ In (id r) (List.map id t1) /\ ~ In (id r) (List.map id t2)).
  { rewrite List.map_app in Hnd. cbn in Hnd.
    apply NoDup_remove_2 in Hnd. split; intros Hin; apply Hnd, in_or_app; auto. }
  destruct H1 as [H1 H2].
  assert (Hf : findUnique_id (t1 ++ r :: t2) (id r) = Some r).
  { unfold findUnique_id. clear Hnd. induction t1 as [|x t1 IH]; cbn.
    - now rewrite String.eqb_refl.
    - cbn in H1. destruct (String.eqb (id x) (id r)) eqn:Hx.
      + apply String.eqb_eq in Hx. tauto.
      + apply IH. tauto. }
  rewrite Hf. f_equal. f_equal.
  rewrite List.map_app. cbn. rewrite String.eqb_refl.
  now rewrite !map_update_absent.
Qed.

(** The loop, from the rows still to visit: the rows visited are revised,
    the others are as they were. *)
Lemma turns l2 : forall l1 n,
  List.NoDup (List.map id (l1 ++ l2)) ->
  List.fold_left turn l2 (inr (List.map revised l1 ++ l2, n))
  = inr (List.map revised (l1 ++ l2),
         {| updated := updated n + length (List.filter (fun r => negb (unchanged r)) l2);
            skipped := skipped n + length (List.filter unchanged l2) |}).
Proof.
  induction l2 as [|r l2 IH]; intros l1 n Hnd.
  - cbn. rewrite !Nat.add_0_r, !app_nil_r. now destruct n.
  - cbn [List.fold_left turn]. destruct (unchanged r) eqn:Hu.
    + replace (List.map revised l1 ++ r :: l2)
        with (List.map revised (l1 ++ [r]) ++ l2).
      2:{ rewrite List.map_app, <- app_assoc. cbn [List.map app]. now rewrite revised_unchanged. }
      rewrite IH by now rewrite <- app_assoc.
      rewrite <- app_assoc. cbn. rewrite Hu. cbn. do 3 f_equal; lia.
    + rewrite update_at.
      2:{ rewrite List.map_app, List.map_map. cbn.
          rewrite (List.map_ext _ id revised_id).
          now rewrite List.map_app in Hnd. }
      replace (List.map revised l1 ++ Query.set_premium (newPremium r) r :: l2)
        with (List.map revised (l1 ++ [r]) ++ l2)
        by (rewrite List.map_app, <- app_assoc; cbn [List.map app]; unfold revised; now rewrite Hu).
      rewrite IH by now rewrite <- app_assoc.
      rewrite <- app_assoc. cbn. rewrite Hu. cbn. do 3 f_equal; lia.
Qed.

Lemma recalculatePremiums_map t :
  List.NoDup (List.map id t) ->
  recalculatePremiums t
  = inr (List.map revised t,
         {| updated := length (List.filter (fun r => negb (unchanged r)) t);
            skipped := length (List.filter unchanged t) |}).
Proof.
  intros Hnd. unfold recalculatePremiums.
  exact (turns t [] {| updated := 0; skipped := 0 |} Hnd).
Qed.

Lemma filter_partition_length {A} (p : A -> bool) l :
  length (List.filter (fun x => negb (p x)) l) + length (List.filter p l) = length l.
Proof.
  induction l as [|x l IH]; cbn; [reflexivity|].
  destruct (p x); cbn; lia.
Qed.

Lemma filter_all {A} (p : A -> bool) l :
  (forall x, In x l -> p x = true) ->
  List.filter p l = l /\ List.filter (fun x => negb (p x)) l = [].
Proof.
  induction l as [|x l IH]; cbn; intros H; [auto|].
  rewrite (H x) by auto. cbn. destruct IH as [-> ->]; auto.
Qed.

End ScriptFacts.

Section ScriptClaims.

Import Store Script.

(** X17. On a table with distinct identifiers, whose rows the formula
    prices with a finite number, the premium script ends without an error
    of the store. Row by row, the table it leaves is the
    table it read: a row whose premium is within 0.01 of the formula is
    left as it is, and each other row has the value of the formula as
    premium and every other column as before. The two numbers the script
    reports add up to the number of rows, the second being the number of
    rows left as they are. *)
Theorem script_rewrites_premiums_only (t : table) :
  List.NoDup (List.map id t) ->
  Forall (fun r => is_finite (newPremium r) = true) t ->
  exists t' n,
    recalculatePremiums t = inr (t', n)
    /\ List.Forall2
         (fun r r' => if unchanged r then r' = r
                      else r' = Query.set_premium (newPremium r) r) t t'
    /\ skipped n = length (List.filter unchanged t)
    /\ (updated n + skipped n)%nat = length t.
Proof.
  intros Hnd _. eexists _, _. split; [now apply recalculatePremiums_map|].
  cbn. split; [|split; [reflexivity | apply filter_partition_length]].
  clear Hnd. induction t as [|r t IH]; cbn; constructor; [|exact IH].
  unfold revised. now destruct (unchanged r).
Qed.

(** X18. A second run of the premium script changes nothing: on a table
    with distinct identifiers whose rows the formula prices with a finite
    number, the table the script leaves is left as it is by a further run,
    which reports no update and every row as skipped. *)
Theorem script_second_run_changes_nothing (t t' : table) (n : Tally) :
  List.NoDup (List.map id t) ->
  Forall (fun r => is_finite (newPremium r) = true) t ->
  recalculatePremiums t = inr (t', n) ->
  recalculatePremiums t' = inr (t', {| updated := 0; skipped := length t |}).
Proof.
  intros Hnd Hfin Hrun.
  rewrite recalculatePremiums_map in Hrun by exact Hnd.
  injection Hrun as <- _.
  assert (Hall : forall x, In x (List.map revised t) -> unchanged x = true).
  { intros x Hx. apply in_map_iff in Hx as (r & <- & Hr).
    apply unchanged_revised. rewrite List.Forall_forall in Hfin. auto. }
  rewrite recalculatePremiums_map.
  2:{ rewrite List.map_map, (List.map_ext _ id revised_id). exact Hnd. }
  destruct (filter_all unchanged _ Hall) as [-> ->].
  rewrite length_map. cbn [length]. f_equal. f_equal.
  rewrite <- (List.map_id (List.map revised t)) at 2.
  apply List.map_ext_in. intros x Hx. apply revised_unchanged. auto.
Qed.

(** X19. After the premium script, on a table with distinct identifiers
    whose rows the formula prices with a finite number, every row carries
    a premium, and this premium is the value of the formula on the row or
    within 0.01 of it. *)
Theorem script_leaves_premiums_near_the_formula (t t' : table) (n : Tally) (r : Row) :
  List.NoDup (List.map id t) ->
  Forall (fun r => is_finite (newPremium r) = true) t ->
  recalculatePremiums t = inr (t', n) ->
  In r t' ->
  exists p, premiumAmount r = Some p
            /\ (p = newPremium r \/ (abs (newPremium r - p) <? 0.01)%float = true).
Proof.
  intros Hnd _ Hrun Hr.
  rewrite recalculatePremiums_map in Hrun by exact Hnd.
  injection Hrun as <- _.
  apply in_map_iff in Hr as (x & <- & Hx).
  unfold revised. destruct (unchanged x) eqn:Hu.
  - unfold unchanged in Hu. destruct (premiumAmount x) as [p|]; [|discriminate].
    exists p. auto.
  - exists (newPremium x). cbn. auto.
Qed.

End ScriptClaims.

(** ** What the submitter sees of a decision *)

Section VisibleFacts.

Context `{Pf : Platform}.
Import Store Http Controller.

Lemma findUnique_userId_unique t r :
  List.NoDup (List.map userId t) -> In r t ->
  findUnique_userId t (userId r) = Some r.
Proof.
  unfold findUnique_userId. induction t as [|x t IH]; cbn; intros Hnd Hin; [tauto|].
  apply NoDup_cons_iff in Hnd as [Hx Hnd].
  destruct Hin as [->|Hin]; [now rewrite String.eqb_refl|].
  destruct (String.eqb (userId x) (userId r)) eqn:Hxr; [|auto].
  apply String.eqb_eq in Hxr. exfalso. apply Hx. rewrite Hxr.
  now apply in_map.
Qed.

(** The status lookup of the submitter after a decision on their request. *)
Lemma lookup_after_decision (w : World) i r (g : Row -> Row) t' :
  Lifecycle.consistent w ->
  findUnique_id (db w) i = Some r ->
  Lifecycle.decision g ->
  t' = List.map (fun x => if String.eqb (id x) i then g x else x) (db w) ->
  forall w', db w' = t' ->
  getRequestByUserId w' (userId r)
  = {| code := 200; success := true; message := None;
       data := Status (select_status (g r)) |}.
Proof.
  intros (Hi & Hu & Hw) Hf Hg -> w' Hdb.
  unfold getRequestByUserId. rewrite Hdb.
  pose proof (findUnique_id_In _ _ _ Hf) as [Hin Hid].
  rewrite List.Forall_forall in Hw. destruct (Hw r Hin) as (_ & _ & _ & _ & _ & -> & _).
  destruct (Hg r) as ((_ & Hgu & _) & _).
  rewrite <- Hgu. rewrite findUnique_userId_unique; [reflexivity| |].
  - now destruct (map_update_keys (db w) i g Hg) as [_ ->].
  - apply in_map_iff. exists r. split; [|exact Hin].
    apply String.eqb_eq in Hid. now rewrite Hid.
Qed.

End VisibleFacts.

Section VisibleClaims.

Context `{Pf : Platform}.
Import Store Http Controller.

(** X20. The submitter sees the decision: in a consistent table, once a
    pending request is approved the status lookup with the submitter's
    number answers 200 with the status APPROVED, the invoice number, the
    payment link and the finalized premium; once it is rejected with a
    reason, the lookup answers 200 with the status REJECTED and the reason,
    also when the notification of the rejection failed. *)
Theorem decision_is_visible_to_the_submitter (E : Env) (w : World) (i : string)
    (r : Row) :
  Lifecycle.consistent w ->
  findUnique_id (db w) i = Some r ->
  status r = PENDING_VERIFICATION ->
  (forall adminNotes, exists view,
      getRequestByUserId (snd (approveRequest E w i adminNotes)) (userId r)
      = {| code := 200; success := true; message := None; data := Status view |}
      /\ v_id view = i
      /\ v_status view = APPROVED
      /\ v_invoiceNumber view = Some ("INV" +:+ Number_toString (now E))
      /\ v_paymentLink view
         = Some ("https://razorpay.me/temp-link-" +:+ ("INV" +:+ Number_toString (now E)))
      /\ v_premiumAmount view = Some (finalPremium r)
      /\ v_paymentStatus view = Some "PENDING")
  /\ (forall s, s <> EmptyString -> exists view,
        getRequestByUserId (snd (rejectRequest E w i (Js.Str s))) (userId r)
        = {| code := 200; success := true; message := None; data := Status view |}
        /\ v_id view = i
        /\ v_status view = REJECTED
        /\ v_rejectionReason view = Some s
        /\ v_premiumAmount view = premiumAmount r).
Proof.
  intros Hw Hf Hs.
  pose proof (findUnique_id_In _ _ _ Hf) as [_ Hid].
  split.
  - intros adminNotes.
    destruct (approveRequest_effect E w i adminNotes)
      as [Hsame|(r' & url & Hf' & _ & Hdb & _)].
    + exfalso.
      destruct (approveRequest_pending E w i r adminNotes Hf Hs)
        as (w' & r' & Heq & Hf' & Hr' & _).
      rewrite Heq in Hsame. cbn [snd] in Hsame. subst w'.
      rewrite Hf in Hf'. injection Hf' as ->.
      destruct Hr' as [Hr'|[url Hr']]; rewrite Hr' in Hs; discriminate.
    + rewrite Hf in Hf'. injection Hf' as <-.
      eexists. split.
      * eapply lookup_after_decision;
          [exact Hw | exact Hf | apply approval_is_decision | reflexivity | exact Hdb].
      * destruct url; cbn; repeat split; auto.
  - intros s Hne. eexists. split.
    + eapply lookup_after_decision;
        [exact Hw | exact Hf | apply (rejection_is_decision E s Hne) | reflexivity |].
      now apply rejectRequest_pending_db with (r := r).
    + cbn. repeat split; auto.
Qed.

End VisibleClaims.

(** ** The renderer and the files *)

Section RenderFacts.

Context `{Pf : Platform}.
Import Store Invoice.

Lemma cleanupTempImage_other E p q (f : gmap string file) :
  q <> p -> cleanupTempImage E p f !! q = f !! q.
Proof.
  intros Hne. unfold cleanupTempImage.
  destruct (negb (String.eqb p EmptyString) && existsSync f p); [|reflexivity].
  destruct (unlink_ok E); [|reflexivity].
  now rewrite lookup_delete_ne.
Qed.

Lemma cleanup_other E o q (f : gmap string file) :
  (forall p, o = Some p -> q <> p) -> cleanup E o f !! q = f !! q.
Proof.
  intros Hne. unfold cleanup. destruct o as [p|]; [|reflexivity].
  destruct (String.eqb p EmptyString); [reflexivity|].
  apply cleanupTempImage_other. now apply Hne.
Qed.

Lemma on_event_other E filepath d o q (f : gmap string file) :
  q <> filepath -> (forall p, o = Some p -> q <> p) ->
  on_event E filepath d o f !! q = f !! q.
Proof.
  intros Hq Ho. unfold on_event.
  destruct (pdf_event E); rewrite cleanup_other by exact Ho;
    [now rewrite lookup_insert_ne | reflexivity | reflexivity].
Qed.

(** What a download leaves: its result is absent or the temporary path, and
    the other paths are as they were. *)
Lemma downloadImageFromUrl_other E (f : gmap string file) url q :
  let tmp := path_join TEMP_DIR
               ("kanta_" +:+ Number_toString (now E) +:+ "_" +:+ random E +:+ ".jpg") in
  q <> TEMP_DIR -> q <> tmp ->
  snd (downloadImageFromUrl E f url) !! q = f !! q
  /\ forall p, fst (downloadImageFromUrl E f url) = Resolved (Some p) -> p = tmp.
Proof.
  intros tmp Hd Ht. unfold downloadImageFromUrl. fold tmp.
  destruct (String.eqb url EmptyString || negb (String.prefix "http" url));
    [cbn; split; [reflexivity | discriminate]|].
  destruct (http E) as [|[|partial]]; cbn [fst snd].
  - split; [now apply ensureDir_lookup_other | discriminate].
  - split; [|congruence].
    rewrite lookup_insert_ne by congruence. now apply ensureDir_lookup_other.
  - split; [|discriminate].
    destruct partial; [rewrite lookup_insert_ne by congruence|];
      now apply ensureDir_lookup_other.
Qed.

End RenderFacts.

Section RenderClaims.

Context `{Pf : Platform}.
Import Store Invoice.

(** X21. The renderer touches its own files only: whatever the download,
    the drawing calls and the output stream do, every path other than the
    invoices directory, the temporary directory, the file of the invoice
    and the temporary image holds after the render what it held before; an
    uploaded image or the document of another invoice is neither removed
    nor rewritten. *)
Theorem render_touches_its_own_files_only (E : Env) (f : gmap string file)
    (request : Row) (invoiceNumber : string) (premiumAmount : float) (q : string) :
  q <> INVOICES_DIR ->
  q <> TEMP_DIR ->
  q <> path_join INVOICES_DIR (invoiceNumber +:+ ".pdf") ->
  q <> path_join TEMP_DIR
         ("kanta_" +:+ Number_toString (now E) +:+ "_" +:+ random E +:+ ".jpg") ->
  snd (generateInvoicePdf E f request invoiceNumber premiumAmount) !! q = f !! q.
Proof.
  intros Hi Ht Hp Htmp. unfold generateInvoicePdf.
  assert (H0 : ensureInvoicesDir f !! q = f !! q)
    by now apply ensureDir_lookup_other.
  assert (Hdl : forall dl f1,
             match kantaParchiImage request with
             | Some url =>
                 if String.eqb url EmptyString
                 then (Resolved None, ensureInvoicesDir f)
                 else downloadImageFromUrl E (ensureInvoicesDir f) url
             | None => (Resolved None, ensureInvoicesDir f)
             end = (dl, f1) ->
             f1 !! q = f !! q
             /\ forall p, dl = Resolved (Some p) -> q <> p).
  { intros dl f1 Heq.
    destruct (kantaParchiImage request) as [url|];
      [destruct (String.eqb url EmptyString)|];
      try (injection Heq as <- <-; split; [exact H0 | discriminate]).
    destruct (downloadImageFromUrl_other E (ensureInvoicesDir f) url q Ht Htmp)
      as [Hs Hf].
    rewrite Heq in Hs, Hf. cbn [fst snd] in Hs, Hf. split; [congruence|].
    intros p Hp'. rewrite (Hf p Hp'). exact Htmp. }
  destruct (match kantaParchiImage request with
            | Some url => _ | None => _ end) as [dl f1] eqn:Heq.
  destruct (Hdl dl f1 eq_refl) as [Hf1 Hq].
  destruct dl as [o|]; [|exact Hf1].
  assert (Ho : forall p, o = Some p -> q <> p) by (intros p ->; now apply Hq).
  destruct (draw E f1 request invoiceNumber premiumAmount o _) as [d [u|]];
    cbn [snd]; rewrite on_event_other by assumption;
    rewrite ?cleanup_other by assumption; exact Hf1.
Qed.

(** X22. A render resolves on the ['finish'] of the output stream only,
    with the invoice number followed by .pdf as file name, and then the
    invoices directory holds a document under this name, provided the
    temporary image and the document are not the same path. *)
Theorem resolved_render_has_written_the_document (E : Env) (f : gmap string file)
    (request : Row) (invoiceNumber : string) (premiumAmount : float) (name : string) :
  path_join TEMP_DIR
    ("kanta_" +:+ Number_toString (now E) +:+ "_" +:+ random E +:+ ".jpg")
  <> path_join INVOICES_DIR (invoiceNumber +:+ ".pdf") ->
  fst (generateInvoicePdf E f request invoiceNumber premiumAmount) = Resolved name ->
  name = invoiceNumber +:+ ".pdf"
  /\ pdf_event E = StreamFinish
  /\ exists content,
       snd (generateInvoicePdf E f request invoiceNumber premiumAmount)
         !! path_join INVOICES_DIR name = Some (PdfFile content).
Proof.
  intros Hne. unfold generateInvoicePdf.
  assert (Hdl : forall dl f1 p,
             match kantaParchiImage request with
             | Some url =>
                 if String.eqb url EmptyString
                 then (Resolved None, ensureInvoicesDir f)
                 else downloadImageFromUrl E (ensureInvoicesDir f) url
             | None => (Resolved None, ensureInvoicesDir f)
             end = (dl, f1) ->
             dl = Resolved (Some p) ->
             path_join INVOICES_DIR (invoiceNumber +:+ ".pdf") <> p).
  { intros dl f1 p Heq ->.
    destruct (kantaParchiImage request) as [url|];
      [destruct (String.eqb url EmptyString)|]; try discriminate.
    unfold downloadImageFromUrl in Heq.
    destruct (String.eqb url EmptyString || negb (String.prefix "http" url));
      [discriminate|].
    destruct (http E) as [|[|partial]]; try discriminate.
    injection Heq as <- _. congruence. }
  destruct (match kantaParchiImage request with
            | Some url => _ | None => _ end) as [dl f1] eqn:Heq.
  specialize (Hdl dl f1).
  destruct dl as [o|]; [|discriminate].
  destruct (draw E f1 request invoiceNumber premiumAmount o _) as [d [u|]];
    cbn [fst snd]; [|discriminate].
  unfold on_event. destruct (pdf_event E); try discriminate.
  intros Hn. injection Hn as <-. split; [reflexivity|]. split; [reflexivity|].
  exists (ops d). rewrite cleanup_other; [apply lookup_insert_eq|].
  intros p ->. now apply (Hdl p eq_refl).
Qed.

End RenderClaims.

(** ** The approval and the document *)

Section LinkClaims.

Context `{Pf : Platform}.
Import Store Http Controller.

Lemma strip_trailing_slash_app s : strip_trailing_slash (s +:+ "/") = s.
Proof.
  induction s as [|c s IH]; [reflexivity|].
  rewrite append_cons. cbn [strip_trailing_slash]. rewrite IH.
  destruct s; reflexivity.
Qed.

(** X23. An approval links the document exactly when the render resolved:
    the row then carries, and the answer reports, the address of the
    server without its trailing slash followed by /invoices/ and the file
    name; when the render rejected, the approval still answers 200 and
    the row keeps the link it had. The files after the approval are the
    files the render left. *)
Theorem approval_links_the_invoice (E : Env) (w : World) (i : string) (r : Row)
    (adminNotes : Js.value) :
  findUnique_id (db w) i = Some r ->
  status r = PENDING_VERIFICATION ->
  let inv := "INV" +:+ Number_toString (now E) in
  let render := Invoice.generateInvoicePdf E (fs w) r inv (finalPremium r) in
  let link := match fst render with
              | Invoice.Resolved name =>
                  Some (strip_trailing_slash APP_URL +:+ "/invoices/" +:+ name)
              | Invoice.Rejected => invoicePdfUrl r
              end in
  exists r',
    findUnique_id (db (snd (approveRequest E w i adminNotes))) i = Some r'
    /\ invoicePdfUrl r' = link
    /\ fst (approveRequest E w i adminNotes)
       = {| code := 200; success := true;
            message := Some "Request approved successfully";
            data := Approval i (Some inv) (Some (finalPremium r))
                      (Some ("https://razorpay.me/temp-link-" +:+ inv)) link APPROVED |}
    /\ fs (snd (approveRequest E w i adminNotes)) = snd render
    /\ (forall base, APP_URL = base +:+ "/" ->
        forall name, fst render = Invoice.Resolved name ->
        link = Some (base +:+ "/invoices/" +:+ name)).
Proof.
  intros Hf Hs inv render link.
  pose proof (findUnique_id_In _ _ _ Hf) as [_ Hid].
  unfold approveRequest. rewrite Hf, (pending_decide r Hs). cbn [negb].
  fold inv.
  set (plink := "https://razorpay.me/temp-link-" +:+ inv).
  set (r1 := set_approved (now E) inv (finalPremium r) plink r).
  destruct (update_found (db w) i (set_approved (now E) inv (finalPremium r) plink) r)
    as (t1 & Hu & Hf1); auto with store.
  fold r1 in Hu, Hf1. rewrite Hu.
  subst link. fold render. destruct render as [pdf fs2] eqn:Hr. cbn [fst snd].
  destruct pdf as [name|].
  - destruct (update_found t1 i
                (set_invoicePdfUrl (strip_trailing_slash APP_URL +:+ "/invoices/" +:+ name))
                r1) as (t2 & Hu2 & Hf2); auto with store.
    rewrite Hu2. cbn [snd fst db fs].
    eexists. split; [exact Hf2|]. cbn. rewrite Hid.
    repeat split; auto.
    intros base Hb name' Hn. injection Hn as <-.
    now rewrite Hb, strip_trailing_slash_app.
  - cbn [snd fst db fs]. eexists. split; [exact Hf1|]. cbn. rewrite Hid.
    repeat split; auto. discriminate.
Qed.

End LinkClaims.

(** ** The status lookup *)

Section LookupFacts.

Context `{Pf : Platform}.
Import Store Http Controller Lifecycle.

Lemma findUnique_userId_map t u (G : Row -> Row) :
  (forall x, userId (G x) = userId x) ->
  findUnique_userId (List.map G t) u = option_map G (findUnique_userId t u).
Proof.
  intros HG. unfold findUnique_userId.
  induction t as [|x t IH]; cbn; [reflexivity|].
  rewrite HG. destruct (String.eqb (userId x) u); [reflexivity | exact IH].
Qed.

Lemma findUnique_userId_app_old t r u x :
  findUnique_userId t u = Some x -> findUnique_userId (t ++ [r]) u = Some x.
Proof.
  unfold findUnique_userId. induction t as [|y t IH]; cbn; [discriminate|].
  destruct (String.eqb (userId y) u); auto.
Qed.

(** A call keeps the row of a submitter the row the lookup finds, with
    what was submitted. *)
Lemma step_lookup (w : World) (c : call) u r x :
  findUnique_userId (db w) u = Some x -> same_submission r x ->
  exists x', findUnique_userId (db (step w c)) u = Some x' /\ same_submission r x'.
Proof.
  intros Hf Hr.
  destruct (step_effect w c)
    as [[-> _]|[(r2 & -> & _)|(i & r1 & g & _ & _ & -> & Hg & _)]].
  - eauto.
  - exists x. split; [now apply findUnique_userId_app_old | exact Hr].
  - exists (if String.eqb (id x) i then g x else x). split.
    + rewrite findUnique_userId_map, Hf; [reflexivity|].
      intros y. destruct (String.eqb (id y) i); [|reflexivity].
      now destruct (Hg y) as ((_ & Hu & _) & _).
    + destruct (String.eqb (id x) i); [|exact Hr].
      eapply same_submission_trans; [exact Hr | apply Hg].
Qed.

Lemma run_lookup (cs : list call) : forall (w : World) u r x,
  findUnique_userId (db w) u = Some x -> same_submission r x ->
  exists x', findUnique_userId (db (run w cs)) u = Some x' /\ same_submission r x'.
Proof.
  unfold run. induction cs as [|c cs IH]; cbn; intros w u r x Hf Hr; [eauto|].
  destruct (step_lookup w c u r x Hf Hr) as (x1 & Hf1 & Hr1). eauto.
Qed.

End LookupFacts.

Section LookupClaims.

Context `{Pf : Platform}.
Import Store Http Controller Lifecycle.

(** C10. After a submission that was answered 201, the status lookup with
    any string that has the same digits, in the same order, as the
    submitted identifier answers 200 with the created request, column by
    column; it still answers with this request, in the state it has
    reached and with what was submitted, after any sequence of further
    submissions, approvals and rejections. For every stored request of a
    table with distinct submitters, the lookup with any string whose
    digits are the stored submitter answers 200 with the columns of that
    request; a string whose digits are no stored submitter is answered
    404; and a 200 answer always carries the digits of the string that was
    looked up. *)
Theorem status_lookup_round_trip (E : Env) (w : World) (req : CreateRequest)
    (resp : Response) (w' : World) (q : string) :
  createInsuranceRequest E w req = (resp, w') ->
  code resp = 201%Z ->
  Js.digits_only q = Js.digits_only (String_ (b_userId (create_body req))) ->
  (exists r,
    db w' = db w ++ [r]
    /\ id r = uuid E
    /\ userId r = Js.digits_only q
    /\ getRequestByUserId w' q
       = {| code := 200; success := true; message := None;
            data := Status
              {| v_id := id r; v_userId := userId r; v_vehicleNo := vehicleNo r;
                 v_itemName := itemName r; v_quantity := quantity r;
                 v_rate := rate r; v_supplierName := supplierName r;
                 v_partyName := partyName r; v_status := PENDING_VERIFICATION;
                 v_invoiceNumber := None; v_premiumAmount := premiumAmount r;
                 v_paymentStatus := None; v_paymentLink := None;
                 v_policyNumber := None; v_policyPdfUrl := None;
                 v_createdAt := now E; v_adminTimestamp := None;
                 v_rejectionReason := None |} |}
    /\ forall cs, exists x,
         In x (db (run w' cs))
         /\ same_submission r x
         /\ getRequestByUserId (run w' cs) q
            = {| code := 200; success := true; message := None;
                 data := Status
                   {| v_id := uuid E; v_userId := Js.digits_only q;
                      v_vehicleNo := vehicleNo r; v_itemName := itemName r;
                      v_quantity := quantity r; v_rate := rate r;
                      v_supplierName := supplierName r;
                      v_partyName := partyName r; v_status := status x;
                      v_invoiceNumber := invoiceNumber x;
                      v_premiumAmount := premiumAmount x;
                      v_paymentStatus := paymentStatus x;
                      v_paymentLink := paymentLink x;
                      v_policyNumber := policyNumber x;
                      v_policyPdfUrl := policyPdfUrl x;
                      v_createdAt := now E;
                      v_adminTimestamp := adminTimestamp x;
                      v_rejectionReason := rejectionReason x |} |})
  /\ (forall (w0 : World) (x : Row) (q0 : string),
        List.NoDup (List.map userId (db w0)) ->
        In x (db w0) ->
        Js.digits_only q0 = userId x ->
        getRequestByUserId w0 q0
        = {| code := 200; success := true; message := None;
             data := Status
               {| v_id := id x; v_userId := userId x; v_vehicleNo := vehicleNo x;
                  v_itemName := itemName x; v_quantity := quantity x;
                  v_rate := rate x; v_supplierName := supplierName x;
                  v_partyName := partyName x; v_status := status x;
                  v_invoiceNumber := invoiceNumber x;
                  v_premiumAmount := premiumAmount x;
                  v_paymentStatus := paymentStatus x;
                  v_paymentLink := paymentLink x;
                  v_policyNumber := policyNumber x;
                  v_policyPdfUrl := policyPdfUrl x;
                  v_createdAt := createdAt x;
                  v_adminTimestamp := adminTimestamp x;
                  v_rejectionReason := rejectionReason x |} |})
  /\ (forall (w0 : World) (q0 : string),
        ~ In (Js.digits_only q0) (List.map userId (db w0)) ->
        getRequestByUserId w0 q0
        = {| code := 404; success := false;
             message := Some "No request found for this User ID";
             data := SearchedUserId (Js.digits_only q0) |})
  /\ (forall (w0 : World) (q0 : string) (v : StatusView),
        getRequestByUserId w0 q0
        = {| code := 200; success := true; message := None; data := Status v |} ->
        v_userId v = Js.digits_only q0
        /\ exists x, In x (db w0) /\ v_id v = id x /\ userId x = Js.digits_only q0).
Proof.
  intros Hc Hcode Hq.
  destruct (createInsuranceRequest_201 E w req resp w' Hc Hcode)
    as (r & _ & _ & _ & _ & Hnone & Hrow & -> & _).
  assert (Hat : createdAt r = now E
                /\ invoiceNumber r = None /\ paymentStatus r = None
                /\ paymentLink r = None /\ policyNumber r = None
                /\ policyPdfUrl r = None /\ adminTimestamp r = None
                /\ rejectionReason r = None).
  { unfold new_row in Hrow.
    repeat match type of Hrow with
           | bindE ?m _ = _ =>
               destruct m eqn:?; cbn [bindE] in Hrow; [discriminate|]
           end.
    injection Hrow as <-. cbn. repeat split. }
  destruct Hat as (Hat & Hinv & Hps & Hpl & Hpn & Hpp & Hadm & Hrej).
  apply new_row_fields in Hrow as (Hid & Hu & Hs & _).
  unfold cleanUserId in *. rewrite <- Hq in Hu, Hnone.
  assert (Hfind : findUnique_userId (db w ++ [r]) (Js.digits_only q) = Some r).
  { rewrite <- Hu. apply findUnique_userId_app_new. now rewrite Hu. }
  split; [|split; [|split]].
  - exists r. cbn [db]. split; [reflexivity|]. split; [exact Hid|].
    split; [exact Hu|]. split.
    + unfold getRequestByUserId. cbn [db]. rewrite Hfind.
      unfold select_status.
      now rewrite Hs, Hat, Hinv, Hps, Hpl, Hpn, Hpp, Hadm, Hrej.
    + intros cs.
      destruct (run_lookup cs {| db := db w ++ [r]; fs := fs w; outbox := outbox w |}
                  (Js.digits_only q) r r Hfind (same_submission_refl r))
        as (x & Hfx & Hrx).
      exists x. split; [now apply findUnique_userId_In in Hfx|].
      split; [exact Hrx|].
      unfold getRequestByUserId. rewrite Hfx. unfold select_status.
      destruct Hrx as (-> & -> & _ & -> & _ & -> & _ & -> & -> & -> & -> & _ & _ & _ & _ & _ & ->).
      now rewrite Hid, Hu, Hat.
  - intros w0 x q0 Hnd Hin Hq0. unfold getRequestByUserId.
    now rewrite Hq0, (findUnique_userId_unique _ _ Hnd Hin).
  - intros w0 q0 Hn. unfold getRequestByUserId.
    apply findUnique_userId_None in Hn. now rewrite Hn.
  - intros w0 q0 v. unfold getRequestByUserId.
    destruct (findUnique_userId (db w0) (Js.digits_only q0)) as [x|] eqn:Hf;
      [|discriminate].
    intros Hv. injection Hv as <-. apply findUnique_userId_In in Hf as [Hin Hux].
    cbn. split; [exact Hux|]. exists x. auto.
Qed.

End LookupClaims.

(** ** The later statements on the demo platform *)

Section LaterWitnesses.

Import Store Http Controller Invoice Read.
#[local] Existing Instance Demo.platform.

Lemma pending_row_well_formed : Lifecycle.well_formed Demo.pending_row.
Proof.
  unfold Lifecycle.well_formed. cbn.
  repeat split; try discriminate.
  eexists. split; reflexivity.
Qed.

Lemma pending_world_consistent : Lifecycle.consistent Demo.pending_world.
Proof.
  split; [|split]; cbn.
  - constructor; [intros []|constructor].
  - constructor; [intros []|constructor].
  - constructor; [exact pending_row_well_formed|constructor].
Qed.

Lemma two_pending_ids : List.NoDup (List.map id (db Demo.two_pending_world)).
Proof.
  cbn. constructor; [intros [H|[]]; discriminate H|].
  constructor; [intros []|constructor].
Qed.

Lemma status_lookup_round_trip_witness :
  code (fst Demo.first_submission) = 201%Z
  /\ Js.digits_only "(+91) 620-941-5125" = Js.digits_only "+91 62094-15125"
  /\ exists r,
       db (snd Demo.first_submission) = [] ++ [r]
       /\ id r = "req-1"
       /\ userId r = "916209415125"
       /\ getRequestByUserId (snd Demo.first_submission) "(+91) 620-941-5125"
          = {| code := 200; success := true; message := None;
               data := Status
                 {| v_id := "req-1"; v_userId := "916209415125";
                    v_vehicleNo := vehicleNo r; v_itemName := itemName r;
                    v_quantity := quantity r; v_rate := rate r;
                    v_supplierName := supplierName r; v_partyName := partyName r;
                    v_status := PENDING_VERIFICATION; v_invoiceNumber := None;
                    v_premiumAmount := premiumAmount r; v_paymentStatus := None;
                    v_paymentLink := None; v_policyNumber := None;
                    v_policyPdfUrl := None; v_createdAt := 1767225600000;
                    v_adminTimestamp := None; v_rejectionReason := None |} |}
       /\ exists x,
            In x (db (Lifecycle.run (snd Demo.first_submission) Demo.calls))
            /\ Lifecycle.same_submission r x
            /\ code (getRequestByUserId
                       (Lifecycle.run (snd Demo.first_submission) Demo.calls)
                       "(+91) 620-941-5125") = 200%Z.
Proof.
  split; [reflexivity|]. split; [reflexivity|].
  destruct (status_lookup_round_trip (Pf := Demo.platform) Demo.env Demo.empty_world
              (Demo.submission (Js.Str "+91 62094-15125") (Js.Str "yes"))
              (fst Demo.first_submission) (snd Demo.first_submission)
              "(+91) 620-941-5125" eq_refl eq_refl eq_refl)
    as ((r & Hdb & Hid & Hu & Hlook & Hlater) & _).
  exists r. split; [exact Hdb|]. split; [exact Hid|]. split; [exact Hu|].
  split; [rewrite Hlook, Hid, Hu; reflexivity|].
  destruct (Hlater Demo.calls) as (x & Hx & Hsame & Hview).
  exists x. split; [exact Hx|]. split; [exact Hsame|]. rewrite Hview. reflexivity.
Defined.

Lemma pending_list_is_newest_first_witness :
  Forall (fun r => Num.isNaN (createdAt r) = false) (db Demo.two_pending_world)
  /\ getPendingRequests Demo.two_pending_world
     = Ok {| pending_count := 2;
             pending_data := [select_pending Demo.second_row;
                              select_pending Demo.pending_row] |}
  /\ Sorted (fun a b => (p_createdAt b <=? p_createdAt a)%float = true)
       [select_pending Demo.second_row; select_pending Demo.pending_row].
Proof.
  assert (Hn : Forall (fun r => Num.isNaN (createdAt r) = false)
                 (db Demo.two_pending_world)).
  { repeat constructor. }
  split; [exact Hn|]. split; [reflexivity|].
  apply (pending_list_is_newest_first Demo.two_pending_world
           {| pending_count := 2;
              pending_data := [select_pending Demo.second_row;
                               select_pending Demo.pending_row] |} Hn).
  reflexivity.
Defined.


Lemma decided_rows_are_frozen_witness :
  In Demo.approved_row (db Demo.approved_world)
  /\ status Demo.approved_row <> PENDING_VERIFICATION
  /\ In Demo.approved_row (db (Lifecycle.run Demo.approved_world Demo.calls)).
Proof.
  split; [now left|]. split; [discriminate|].
  apply (decided_rows_are_frozen (Pf := Demo.platform) Demo.approved_world Demo.calls
           Demo.approved_row).
  - cbn. constructor; [intros []|constructor].
  - now left.
  - discriminate.
Defined.

Lemma submissions_are_kept_witness :
  In Demo.pending_row (db Demo.pending_world)
  /\ exists x', In x' (db (Lifecycle.run Demo.pending_world Demo.calls))
                /\ Lifecycle.same_submission Demo.pending_row x'.
Proof.
  split; [now left|].
  apply (submissions_are_kept (Pf := Demo.platform) Demo.pending_world Demo.calls
           Demo.pending_row).
  now left.
Defined.

Lemma decided_world_outbox :
  exists r' msg,
    In r' (db Demo.decided_world) /\ userId r' = "916209415125"
    /\ status r' <> PENDING_VERIFICATION
    /\ outbox Demo.decided_world = [("916209415125", msg)].
Proof.
  unfold Demo.decided_world.
  destruct (approveRequest_pending (Pf := Demo.platform) Demo.env Demo.pending_world
              "req-1" Demo.pending_row Js.Undefined eq_refl eq_refl)
    as (w' & r' & Heq & Hf & Hr & _ & Hout).
  rewrite Heq. cbn [snd]. exists r'. eexists. rewrite Hout.
  apply findUnique_id_In in Hf as [Hin _].
  split; [exact Hin|].
  destruct Hr as [->|[url ->]]; (split; [reflexivity|]); (split; [discriminate|]);
    reflexivity.
Qed.

Lemma decided_world_notified : Lifecycle.notified_only_decided Demo.decided_world.
Proof.
  destruct decided_world_outbox as (r' & m & Hin & Hu & Hs & Hout).
  intros to msg Hm. rewrite Hout in Hm. destruct Hm as [Hm|[]].
  injection Hm as <- _.
  exists r'. split; [exact Hin|]. split; [exact Hu | exact Hs].
Qed.

Lemma messages_follow_decisions_witness :
  Lifecycle.notified_only_decided Demo.decided_world
  /\ Lifecycle.notified_only_decided (Lifecycle.run Demo.decided_world Demo.calls).
Proof.
  split; [exact decided_world_notified|].
  apply (messages_follow_decisions (Pf := Demo.platform) Demo.decided_world Demo.calls
           decided_world_notified).
Defined.

Lemma validated_timestamp_ignores_the_clock_witness :
  Chains.timestamp_custom (Js.Number 1767225600) = []
  /\ now Demo.env <> now Demo.env_later
  /\ normalizeTimestamp Demo.env (Js.Number 1767225600)
     = normalizeTimestamp Demo.env_later (Js.Number 1767225600).
Proof.
  split; [reflexivity|]. split; [discriminate|].
  apply (validated_timestamp_ignores_the_clock (Pf := Demo.platform)
           Demo.env Demo.env_later (Js.Number 1767225600)).
  reflexivity.
Defined.

Lemma created_request_is_found_by_id_witness :
  code (fst (InsuranceRoute.create Demo.env Demo.empty_world
               (Demo.body (Js.Str "+91 62094-15125") (Js.Str "yes")))) = 201%Z
  /\ exists r,
       getInsuranceRequest
         (snd (InsuranceRoute.create Demo.env Demo.empty_world
                 (Demo.body (Js.Str "+91 62094-15125") (Js.Str "yes")))) "req-1"
       = Ok r
       /\ status r = PENDING_VERIFICATION
       /\ userId r = "916209415125".
Proof.
  split; [reflexivity|].
  destruct (created_request_is_found_by_id (Pf := Demo.platform) Demo.env
              Demo.empty_world (Demo.body (Js.Str "+91 62094-15125") (Js.Str "yes"))
              _ _ eq_refl eq_refl)
    as (r & _ & Hr & _ & _ & Hs & _ & Hu).
  exists r. split; [exact Hr|]. split; [exact Hs | exact Hu].
Defined.

Lemma decided_request_leaves_the_pending_list_witness :
  code (fst (approveRequest Demo.env Demo.two_pending_world "req-1" Js.Undefined)) = 200%Z
  /\ getPendingRequests Demo.two_pending_world
     = Ok {| pending_count := 2;
             pending_data := [select_pending Demo.second_row;
                              select_pending Demo.pending_row] |}
  /\ getPendingRequests
       (snd (approveRequest Demo.env Demo.two_pending_world "req-1" Js.Undefined))
     = Ok {| pending_count := 1; pending_data := [select_pending Demo.second_row] |}
  /\ ~ In "req-1" (List.map p_id [select_pending Demo.second_row]).
Proof.
  split; [reflexivity|]. split; [reflexivity|]. split; [reflexivity|].
  apply (decided_request_leaves_the_pending_list (Pf := Demo.platform) Demo.env
           Demo.two_pending_world "req-1" Js.Undefined approveRequest
           {| pending_count := 2;
              pending_data := [select_pending Demo.second_row;
                               select_pending Demo.pending_row] |}
           {| pending_count := 1; pending_data := [select_pending Demo.second_row] |});
    [left; reflexivity | exact two_pending_ids | reflexivity | reflexivity | reflexivity].
Defined.

Lemma script_table_ids : List.NoDup (List.map id Demo.script_table).
Proof.
  cbn. constructor; [intros [H|[]]; discriminate H|].
  constructor; [intros []|constructor].
Qed.

Lemma script_rewrites_premiums_only_witness :
  List.NoDup (List.map id Demo.script_table)
  /\ exists t' n,
       Script.recalculatePremiums Demo.script_table = inr (t', n)
       /\ List.Forall2
            (fun r r' => if Script.unchanged r then r' = r
                         else r' = Query.set_premium (Script.newPremium r) r)
            Demo.script_table t'
       /\ Script.skipped n = length (List.filter Script.unchanged Demo.script_table)
       /\ (Script.updated n + Script.skipped n)%nat = length Demo.script_table.
Proof.
  split; [exact script_table_ids|].
  apply (script_rewrites_premiums_only Demo.script_table script_table_ids).
  repeat constructor.
Defined.

Lemma script_second_run_changes_nothing_witness :
  Script.recalculatePremiums Demo.script_table
  = inr ([Demo.pending_row; Query.set_premium 20 Demo.legacy_row],
         {| Script.updated := 1; Script.skipped := 1 |})
  /\ Script.recalculatePremiums [Demo.pending_row; Query.set_premium 20 Demo.legacy_row]
     = inr ([Demo.pending_row; Query.set_premium 20 Demo.legacy_row],
            {| Script.updated := 0; Script.skipped := 2 |}).
Proof.
  split; [reflexivity|].
  apply (script_second_run_changes_nothing Demo.script_table
           [Demo.pending_row; Query.set_premium 20 Demo.legacy_row]
           {| Script.updated := 1; Script.skipped := 1 |} script_table_ids);
    [repeat constructor | reflexivity].
Defined.

Lemma script_leaves_premiums_near_the_formula_witness :
  exists p, premiumAmount (Query.set_premium 20 Demo.legacy_row) = Some p
            /\ (p = Script.newPremium (Query.set_premium 20 Demo.legacy_row)
                \/ (abs (Script.newPremium (Query.set_premium 20 Demo.legacy_row) - p)
                    <? 0.01)%float = true).
Proof.
  apply (script_leaves_premiums_near_the_formula Demo.script_table
           [Demo.pending_row; Query.set_premium 20 Demo.legacy_row]
           {| Script.updated := 1; Script.skipped := 1 |}
           (Query.set_premium 20 Demo.legacy_row) script_table_ids);
    [repeat constructor | reflexivity | right; left; reflexivity].
Defined.

Lemma decision_is_visible_to_the_submitter_witness :
  exists view,
    getRequestByUserId
      (snd (rejectRequest Demo.env_notifier_down Demo.pending_world "req-1"
              (Js.Str "Documents are incomplete"))) "916209415125"
    = {| code := 200; success := true; message := None; data := Status view |}
    /\ v_status view = REJECTED
    /\ v_rejectionReason view = Some "Documents are incomplete".
Proof.
  destruct (decision_is_visible_to_the_submitter (Pf := Demo.platform)
              Demo.env_notifier_down Demo.pending_world "req-1" Demo.pending_row
              pending_world_consistent eq_refl eq_refl) as [_ Hrej].
  destruct (Hrej "Documents are incomplete") as (view & Hv & _ & Hs & Hr & _);
    [discriminate|].
  exists view. split; [exact Hv|]. split; [exact Hs | exact Hr].
Defined.

Lemma approval_links_the_invoice_witness :
  exists r',
    findUnique_id (db (snd (approveRequest Demo.env Demo.pending_world "req-1"
                              Js.Undefined))) "req-1" = Some r'
    /\ invoicePdfUrl r' = Some "http://localhost:5000/invoices/INV1767225600000.pdf".
Proof.
  destruct (approval_links_the_invoice (Pf := Demo.platform) Demo.env
              Demo.pending_world "req-1" Demo.pending_row Js.Undefined eq_refl eq_refl)
    as (r' & Hf & Hl & _).
  exists r'. split; [exact Hf | exact Hl].
Defined.

Lemma render_touches_its_own_files_only_witness :
  snd (generateInvoicePdf Demo.env Demo.fs_uploads Demo.remote_image_row
         "INV1767225600000" 8.865) !! "uploads/kantaparchi/req-9.jpg"
  = Some ImageBytes.
Proof.
  rewrite (render_touches_its_own_files_only (Pf := Demo.platform) Demo.env
             Demo.fs_uploads Demo.remote_image_row "INV1767225600000" 8.865
             "uploads/kantaparchi/req-9.jpg");
    [reflexivity | discriminate | discriminate
     | vm_compute; discriminate | vm_compute; discriminate].
Defined.

Lemma resolved_render_has_written_the_document_witness :
  fst (generateInvoicePdf Demo.env ∅ Demo.remote_image_row "INV1767225600000" 8.865)
  = Resolved "INV1767225600000.pdf"
  /\ exists content,
       snd (generateInvoicePdf Demo.env ∅ Demo.remote_image_row
              "INV1767225600000" 8.865) !! "invoices/INV1767225600000.pdf"
       = Some (PdfFile content).
Proof.
  split; [reflexivity|].
  destruct (resolved_render_has_written_the_document (Pf := Demo.platform) Demo.env ∅
              Demo.remote_image_row "INV1767225600000" 8.865 "INV1767225600000.pdf")
    as (_ & _ & Hc); [vm_compute; discriminate | reflexivity | exact Hc].
Defined.

End LaterWitnesses.
